(** * servidor.py: a shallow embedding of the PFO2 task service

    The development follows [src/servidor.py]: the SQLite tables become
    lists of rows in rowid order, every handler becomes a function from the
    request and the store to an outcome and the store it leaves, and Python
    exceptions that the handlers let escape are outcomes of their own. *)

From Stdlib Require Import ZArith NArith List String Ascii Bool Lia.
From Stdlib Require Import Sorting.Sorted Sorting.Permutation.
Import ListNotations.

Local Open Scope Z_scope.

(* ================================================================== *)
(** ** Python values *)

Module Py.

(** A Python [str] is its sequence of Unicode code points. *)
Definition str := list N.

(** A literal whose characters all lie below 256 (one byte per character). *)
Definition u (s : string) : str := List.map N_of_ascii (list_ascii_of_string s).

Definition str_eqb (a b : str) : bool :=
  if list_eq_dec N.eq_dec a b then true else false.

(** The characters [str.strip()] and [str.split()] treat as whitespace. *)
Definition is_space (c : N) : bool :=
  ((9 <=? c) && (c <=? 13) || (28 <=? c) && (c <=? 32) || (c =? 133) || (c =? 160)
   || (c =? 5760) || (8192 <=? c) && (c <=? 8202) || (c =? 8232) || (c =? 8233)
   || (c =? 8239) || (c =? 8287) || (c =? 12288))%N.

Fixpoint lstrip (s : str) : str :=
  match s with
  | c :: s' => if is_space c then lstrip s' else s
  | [] => []
  end.

Definition rstrip (s : str) : str := rev (lstrip (rev s)).

(** [s.strip()] *)
Definition strip (s : str) : str := rstrip (lstrip s).

(** A binary float is not-a-number, an infinity, or the dyadic [m * 2^e]. *)
Inductive pyfloat :=
| FNan
| FInf (negative : bool)
| FFin (m e : Z).

(** What [json.loads] builds: [None], [bool], [int], [float], [str], [list]
    and [dict] (an object keeps one entry per key). *)
#[warnings="-register-all"]
Inductive json :=
| JNull
| JBool (b : bool)
| JInt (z : Z)
| JFloat (f : pyfloat)
| JStr (s : str)
| JList (l : list json)
| JDict (d : list (str * json)).

(** The exceptions the handlers can meet. [BadRequest] is werkzeug's HTTP
    exception, which Flask answers with status 400; the others are not
    handled anywhere and end the request with status 500. *)
Inductive exn :=
| AttributeError
| TypeError
| ValueError
| OverflowError
| UnicodeEncodeError
| IntegrityError
| BadSignature
| SignatureExpired
| BadPayload
| BadRequest.

Inductive result (A : Type) :=
| Ok (a : A)
| Raise (e : exn).
Arguments Ok {A} a.
Arguments Raise {A} e.

Definition bind {A B} (r : result A) (k : A -> result B) : result B :=
  match r with
  | Ok a => k a
  | Raise e => Raise e
  end.

(** Truth value of a JSON value, as [or], [not] and [if] test it. *)
Definition truthy (v : json) : bool :=
  match v with
  | JNull => false
  | JBool b => b
  | JInt z => negb (z =? 0)
  | JFloat (FFin m _) => negb (m =? 0)
  | JFloat _ => true
  | JStr s => match s with [] => false | _ => true end
  | JList l => match l with [] => false | _ => true end
  | JDict d => match d with [] => false | _ => true end
  end.

(** [d.get(k)] on the entries of a dict: [None] when the key is absent. *)
Fixpoint dict_get (k : str) (d : list (str * json)) : option json :=
  match d with
  | [] => None
  | (k', v) :: d' => if str_eqb k k' then Some v else dict_get k d'
  end.

(** [v.get(k)]: only a dict has the method; a missing key and a stored
    [null] both give [None], which is [JNull] here. *)
Definition get (v : json) (k : str) : result json :=
  match v with
  | JDict d => Ok (match dict_get k d with Some x => x | None => JNull end)
  | _ => Raise AttributeError
  end.

(** [a or b] *)
Definition por (a b : json) : json := if truthy a then a else b.

(** [v.strip()]: only a [str] has the method. *)
Definition strip_method (v : json) : result str :=
  match v with
  | JStr s => Ok (strip s)
  | _ => Raise AttributeError
  end.

(** The surrogate code points. A [str] may hold one ([json.loads] builds it
    from a lone escape such as [\ud800]), and no such [str] has a UTF-8
    encoding. *)
Definition is_surrogate (c : N) : bool := ((55296 <=? c) && (c <=? 57343))%N.

Definition encodable (s : str) : bool := forallb (fun c => negb (is_surrogate c)) s.

(** [s.encode("utf-8")], for the exception it may raise. *)
Definition encode (s : str) : result unit :=
  if encodable s then Ok tt else Raise UnicodeEncodeError.

(** [int(f)] of a float: truncation toward zero. *)
Definition int_of_float (f : pyfloat) : result Z :=
  match f with
  | FNan => Raise ValueError
  | FInf _ => Raise OverflowError
  | FFin m e => Ok (if 0 <=? e then m * 2 ^ e else Z.quot m (2 ^ (- e)))
  end.

End Py.
Export Py.

Declare Scope py_scope.
Delimit Scope py_scope with py.
Notation "x <- e ;; k" := (bind e (fun x => k))
  (at level 100, e at next level, right associativity) : py_scope.
Local Open Scope py_scope.

(* ================================================================== *)
(** ** Header text

    WSGI hands a header value over as a string of characters below 256, so
    the [Authorization] value is a list of 8-bit characters. *)

Module Latin1.

Definition latin1 := list ascii.

Definition l1 (s : string) : latin1 := list_ascii_of_string s.

Definition latin1_eqb (a b : latin1) : bool :=
  if list_eq_dec ascii_dec a b then true else false.

(** The same characters as code points, for a JSON string. *)
Definition to_str (s : latin1) : str := List.map N_of_ascii s.

Definition space_char (c : ascii) : bool := is_space (N_of_ascii c).

(** [s.split()]: the maximal runs of characters that are not whitespace.
    [word] is the run being read. *)
Fixpoint split_from (s : latin1) (word : latin1) : list latin1 :=
  match s with
  | [] => match word with [] => [] | _ => [word] end
  | c :: s' =>
      if space_char c then
        match word with
        | [] => split_from s' []
        | _ => word :: split_from s' []
        end
      else split_from s' (word ++ [c])
  end.

Definition split (s : latin1) : list latin1 := split_from s [].

(** [c.lower()] below 256: the letters A-Z and the capitals from U+00C0 to
    U+00DE, the multiplication sign U+00D7 apart. *)
Definition lower_char (c : ascii) : ascii :=
  let n := N_of_ascii c in
  if ((65 <=? n) && (n <=? 90) || (192 <=? n) && (n <=? 222) && negb (n =? 215))%N
  then ascii_of_N (n + 32) else c.

Definition lower (s : latin1) : latin1 := List.map lower_char s.

End Latin1.
Export Latin1.

(* ================================================================== *)
(** ** The libraries the service calls

    werkzeug's password hashing, itsdangerous' signer and two Python
    built-ins are used through their interfaces only. *)

(** The payload the service signs: a JSON object with string values. *)
Definition claims := list (str * str).

Fixpoint claims_get (data : claims) (k : str) : option str :=
  match data with
  | [] => None
  | (k', v) :: data' => if str_eqb k k' then Some v else claims_get data' k
  end.

Class Platform := {
  (** [generate_password_hash(password)], with the salt it draws *)
  generate_password_hash : str -> str -> str;
  (** [check_password_hash(pwhash, password)] *)
  check_password_hash : str -> str -> bool;
  (** the signer of [URLSafeTimedSerializer(key)]: the token for a payload
      signed at a time *)
  signer_dumps : str -> Z -> claims -> latin1;
  (** the signer's check of a token: [None] for a malformed token or a
      wrong signature, else the signing time and the payload, itself
      [None] when it does not decode *)
  signer_unsign : str -> latin1 -> option (Z * option claims);
  (** [str(v)] of a value that is no [str] *)
  py_repr : json -> str;
  (** [int(s)] of a [str] *)
  int_of_str : str -> result Z
}.

(** A token read back under the key it was signed with gives the signing
    time and the payload. *)
Definition signer_roundtrip `{Platform} : Prop :=
  forall key t data, signer_unsign key (signer_dumps key t data) = Some (t, Some data).


(* ================================================================== *)
(** ** Config *)

Record config := {
  SECRET_KEY : str;
  TOKEN_EXPIRATION_SECONDS : Z
}.

(** The values read from the environment, with the defaults of the file. *)
Definition config_of_env (PFO2_SECRET : option str) (PFO2_TOKEN_TTL : option Z) : config :=
  {| SECRET_KEY := match PFO2_SECRET with
                   | Some k => k
                   | None => u "cambia-esto-en-produccion"
                   end;
     TOKEN_EXPIRATION_SECONDS := match PFO2_TOKEN_TTL with
                                 | Some n => n
                                 | None => 3600
                                 end |}.

Definition default_config : config := config_of_env None None.

(* ================================================================== *)
(** ** DB schema

    A table is the list of its rows in rowid order, together with the
    largest rowid it ever held (AUTOINCREMENT's [sqlite_sequence]). The
    pragma that turns the FOREIGN KEY on is set on the connection of
    [init_db] only, so the handlers run without it; UNIQUE and NOT NULL
    hold on every connection. *)

Record usuario_row := {
  user_id : Z;
  usuario : str;
  password_hash : str;
  creado_en : str
}.

Record tarea_row := {
  tarea_id : Z;
  titulo : str;
  hecha : Z;
  usuario_id : Z;
  creada_en : str
}.

Record db := {
  usuarios : list usuario_row;
  usuarios_seq : Z;
  tareas : list tarea_row;
  tareas_seq : Z
}.

(** [init_db] on a fresh file: both tables exist and are empty. *)
Definition init_db : db :=
  {| usuarios := []; usuarios_seq := 0; tareas := []; tareas_seq := 0 |}.

(** The rowid AUTOINCREMENT gives a new row: one more than every rowid the
    table holds or has held. *)
Definition next_rowid (seq : Z) (ids : list Z) : Z :=
  fold_right Z.max seq ids + 1.

(** *** Parameters

    sqlite3 binds the parameters of a statement before it runs it: a [str]
    as its UTF-8 bytes, an [int] as a 64-bit integer, [None] as NULL. A
    [str] with no encoding and an [int] out of range raise there, and the
    statement does not run. An id that was read from a table is a rowid,
    which is in range. *)

Definition int64 (z : Z) : bool := (- 2 ^ 63 <=? z) && (z <? 2 ^ 63).

Definition bind_text (s : str) : result unit := encode s.

Definition bind_int (z : Z) : result unit :=
  if int64 z then Ok tt else Raise OverflowError.

(** *** Statements, their parameters bound *)

(** [SELECT id, usuario, password_hash FROM usuarios WHERE usuario = ?],
    and [fetchone]. *)
Definition select_usuario (name : str) (d : db) : option usuario_row :=
  find (fun r => str_eqb (usuario r) name) (usuarios d).

(** [SELECT id FROM usuarios WHERE usuario = ?], and [fetchone] with the
    column taken. *)
Definition select_user_id (name : str) (d : db) : option Z :=
  match find (fun r => str_eqb (usuario r) name) (usuarios d) with
  | Some r => Some (user_id r)
  | None => None
  end.

(** [INSERT INTO usuarios (usuario, password_hash) VALUES (?, ?)]: the
    UNIQUE column refuses a name that is already there. *)
Definition insert_usuario_row (name pwhash stamp : str) (d : db) : result db :=
  if existsb (fun r => str_eqb (usuario r) name) (usuarios d)
  then Raise IntegrityError
  else
    let id := next_rowid (usuarios_seq d) (List.map user_id (usuarios d)) in
    Ok {| usuarios := usuarios d ++
                      [{| user_id := id; usuario := name;
                          password_hash := pwhash; creado_en := stamp |}];
          usuarios_seq := id;
          tareas := tareas d;
          tareas_seq := tareas_seq d |}.

(** [INSERT INTO tareas (titulo, usuario_id) VALUES (?, ?)]: [hecha] takes
    its default 0; a NULL [usuario_id] breaks NOT NULL. The result carries
    [lastrowid]. *)
Definition insert_tarea_row (title : str) (uid : option Z) (stamp : str) (d : db)
  : result (Z * db) :=
  match uid with
  | None => Raise IntegrityError
  | Some owner =>
      let id := next_rowid (tareas_seq d) (List.map tarea_id (tareas d)) in
      Ok (id,
          {| usuarios := usuarios d;
             usuarios_seq := usuarios_seq d;
             tareas := tareas d ++
                       [{| tarea_id := id; titulo := title; hecha := 0;
                           usuario_id := owner; creada_en := stamp |}];
             tareas_seq := id |})
  end.

(** [WHERE id = ? AND usuario_id = ?]: a NULL parameter equals nothing. *)
Definition where_id_and_usuario_id (tid : Z) (uid : option Z) (r : tarea_row) : bool :=
  (tarea_id r =? tid) &&
  match uid with
  | Some owner => usuario_id r =? owner
  | None => false
  end.

(** [WHERE usuario_id = ?] *)
Definition where_usuario_id (uid : option Z) (r : tarea_row) : bool :=
  match uid with
  | Some owner => usuario_id r =? owner
  | None => false
  end.

(** One [column = ?] of the SET list, with its parameter. *)
Inductive assignment :=
| SetTitulo (s : str)
| SetHecha (n : Z).

Definition assign (r : tarea_row) (a : assignment) : tarea_row :=
  match a with
  | SetTitulo s =>
      {| tarea_id := tarea_id r; titulo := s; hecha := hecha r;
         usuario_id := usuario_id r; creada_en := creada_en r |}
  | SetHecha n =>
      {| tarea_id := tarea_id r; titulo := titulo r; hecha := n;
         usuario_id := usuario_id r; creada_en := creada_en r |}
  end.

Definition with_tareas (d : db) (rows : list tarea_row) : db :=
  {| usuarios := usuarios d; usuarios_seq := usuarios_seq d;
     tareas := rows; tareas_seq := tareas_seq d |}.

(** [UPDATE tareas SET ... WHERE id = ? AND usuario_id = ?], with
    [rowcount]. *)
Definition update_rows (sets : list assignment) (tid : Z) (uid : option Z) (d : db)
  : nat * db :=
  (List.length (filter (where_id_and_usuario_id tid uid) (tareas d)),
   with_tareas d
     (List.map (fun r => if where_id_and_usuario_id tid uid r
                         then fold_left assign sets r else r)
               (tareas d))).

(** [DELETE FROM tareas WHERE id = ? AND usuario_id = ?], with [rowcount]. *)
Definition delete_rows (tid : Z) (uid : option Z) (d : db) : nat * db :=
  (List.length (filter (where_id_and_usuario_id tid uid) (tareas d)),
   with_tareas d
     (filter (fun r => negb (where_id_and_usuario_id tid uid r)) (tareas d))).

(** [ORDER BY id DESC], by insertion. *)
Fixpoint insert_desc (r : tarea_row) (rows : list tarea_row) : list tarea_row :=
  match rows with
  | [] => [r]
  | r' :: rows' =>
      if tarea_id r' <=? tarea_id r then r :: rows else r' :: insert_desc r rows'
  end.

Definition order_by_id_desc (rows : list tarea_row) : list tarea_row :=
  fold_right insert_desc [] rows.

(** [SELECT id, titulo, hecha, creada_en FROM tareas WHERE usuario_id=?
    ORDER BY id DESC] *)
Definition select_tareas (uid : option Z) (d : db) : list tarea_row :=
  order_by_id_desc (filter (where_usuario_id uid) (tareas d)).

(** *** Statements as the handlers execute them: the parameters are bound
    in their order, then the statement runs. *)

Definition insert_usuario (name pwhash stamp : str) (d : db) : result db :=
  _ <- bind_text name;;
  _ <- bind_text pwhash;;
  insert_usuario_row name pwhash stamp d.

Definition insert_tarea (title : str) (uid : option Z) (stamp : str) (d : db)
  : result (Z * db) :=
  _ <- bind_text title;;
  insert_tarea_row title uid stamp d.

Definition bind_assignment (a : assignment) : result unit :=
  match a with
  | SetTitulo s => bind_text s
  | SetHecha n => bind_int n
  end.

Fixpoint bind_all (sets : list assignment) : result unit :=
  match sets with
  | [] => Ok tt
  | a :: sets' => _ <- bind_assignment a;; bind_all sets'
  end.

(** The parameters of the UPDATE: those of the SET list, then [tid]. *)
Definition bind_update (sets : list assignment) (tid : Z) : result unit :=
  _ <- bind_all sets;;
  bind_int tid.

Definition update_tareas (sets : list assignment) (tid : Z) (uid : option Z) (d : db)
  : result (nat * db) :=
  _ <- bind_update sets tid;;
  Ok (update_rows sets tid uid d).

Definition delete_tareas (tid : Z) (uid : option Z) (d : db) : result (nat * db) :=
  _ <- bind_int tid;;
  Ok (delete_rows tid uid d).

(* ================================================================== *)
(** ** Requests and responses *)

Record request := {
  (** the [Authorization] header, when the request has one *)
  Authorization : option latin1;
  (** [request.is_json]: the content type announces JSON *)
  is_json : bool;
  (** the parsed body, [None] when it does not parse *)
  json_body : option json
}.

(** What a request reads from outside the process: the clock of the
    signer, SQLite's CURRENT_TIMESTAMP text and the salt of the hash. *)
Record ambient := {
  time : Z;
  CURRENT_TIMESTAMP : str;
  salt : str
}.

Inductive payload :=
| Json (j : json)
| Html (username : str).

Record response := {
  status : Z;
  body : payload
}.

Definition jsonify (fields : list (str * json)) (code : Z) : response :=
  {| status := code; body := Json (JDict fields) |}.

(** The status a client sees: Flask turns [BadRequest] into 400 and any
    other escaped exception into 500. *)
Definition http_status (r : result response) : Z :=
  match r with
  | Ok resp => status resp
  | Raise BadRequest => 400
  | Raise _ => 500
  end.

(** [request.get_json(silent=True)] *)
Definition get_json_silent (rq : request) : json :=
  match json_body rq with
  | Some j => j
  | None => JNull
  end.

(** [request.json] once [is_json] holds *)
Definition request_json (rq : request) : result json :=
  match json_body rq with
  | Some j => Ok j
  | None => Raise BadRequest
  end.

Module Msg.
Definition obligatorios : str := u "Usuario y contrase" ++ [241%N] ++ u "a son obligatorios.".
Definition ya_existe : str := u "El usuario ya existe.".
Definition creado : str := u "Usuario creado con " ++ [233%N] ++ u "xito.".
Definition requiere_json : str := u "Se requiere JSON".
Definition credenciales : str := u "Credenciales inv" ++ [225%N] ++ u "lidas".
Definition no_autorizado_bearer : str :=
  u "No autorizado. Envi" ++ [225%N] ++ u " 'Authorization: Bearer <token>'".
Definition no_autorizado : str := u "No autorizado".
Definition titulo_obligatorio : str := u "titulo es obligatorio".
Definition nada : str := u "Nada para actualizar".
Definition no_encontrada : str := u "No encontrada".
End Msg.

Definition key_contrasena_enie : str := u "contrase" ++ [241%N] ++ u "a".

Definition error_response (msg : str) (code : Z) : response :=
  jsonify [(u "ok", JBool false); (u "error", JStr msg)] code.

(* ================================================================== *)
(** ** Utils *)

Section Service.

Context {P : Platform}.
Variable cfg : config.

(** werkzeug encodes the password before it hashes it. *)
Definition hash_password (salt password : str) : result str :=
  _ <- encode password;;
  Ok (generate_password_hash salt password).

(** A stored hash was made by [hash_password], so it has the three parts
    the check looks for, and the check goes on to hash the password. *)
Definition check_password (pwhash password : str) : result bool :=
  _ <- encode password;;
  Ok (check_password_hash pwhash password).

Definition get_user_by_username (username : str) (d : db) : result (option usuario_row) :=
  _ <- bind_text username;;
  Ok (select_usuario username d).

(** [seen] is the store the look-up reads and [d] the store the INSERT
    runs on: each opens a connection of its own, and another request may
    commit in between. A request alone has [seen = d]. The [except] clause
    takes [IntegrityError]; any other exception leaves the function. *)
Definition create_user (username password : str) (w : ambient) (seen d : db)
  : result (bool * str) * db :=
  match username, password with
  | [], _ | _, [] => (Ok (false, Msg.obligatorios), d)
  | _, _ =>
      match get_user_by_username username seen with
      | Raise e => (Raise e, d)
      | Ok (Some _) => (Ok (false, Msg.ya_existe), d)
      | Ok None =>
          match hash_password (salt w) password with
          | Raise e => (Raise e, d)
          | Ok pwhash =>
              match insert_usuario username pwhash (CURRENT_TIMESTAMP w) d with
              | Ok d' => (Ok (true, Msg.creado), d')
              | Raise IntegrityError => (Ok (false, Msg.ya_existe), d)
              | Raise e => (Raise e, d)
              end
          end
      end
  end.

Definition generate_token (now : Z) (username : str) : latin1 :=
  signer_dumps (SECRET_KEY cfg) now [(u "sub", username)].

(** [serializer.loads(token, max_age=...)]: the signature, then the age,
    then the payload. *)
Definition serializer_loads (token : latin1) (max_age now : Z) : result claims :=
  match signer_unsign (SECRET_KEY cfg) token with
  | None => Raise BadSignature
  | Some (ts, data) =>
      let age := now - ts in
      if age >? max_age then Raise SignatureExpired
      else if age <? 0 then Raise SignatureExpired
      else match data with
           | Some d => Ok d
           | None => Raise BadPayload
           end
  end.

Definition verify_token (now : Z) (token : latin1) : result (option str) :=
  match serializer_loads token (TOKEN_EXPIRATION_SECONDS cfg) now with
  | Ok data => Ok (claims_get data (u "sub"))
  | Raise SignatureExpired | Raise BadSignature => Ok None
  | Raise e => Raise e
  end.

Definition require_user (now : Z) (rq : request) : result (option str) :=
  let auth := match Authorization rq with Some h => h | None => [] end in
  match split auth with
  | [scheme; token] =>
      if latin1_eqb (lower scheme) (l1 "bearer") then verify_token now token
      else Ok None
  | _ => Ok None
  end.

Definition get_user_id (username : str) (d : db) : result (option Z) :=
  _ <- bind_text username;;
  Ok (select_user_id username d).

(** [if not username]: no identity, or an empty name. *)
Definition not_username (username : option str) : bool :=
  match username with
  | Some (_ :: _) => false
  | _ => true
  end.

(** The name behind a passed [if not username] test. *)
Definition name_of (username : option str) : str :=
  match username with
  | Some s => s
  | None => []
  end.

(* ================================================================== *)
(** ** Endpoints *)

(** The two lines [registro] and [login] share: [usuario], and the
    password under either spelling of its key, both stripped. *)
Definition read_credentials (data : json) : result (str * str) :=
  name <- get data (u "usuario");;
  username <- strip_method (por name (JStr []));;
  pw1 <- get data key_contrasena_enie;;
  pw2 <- get data (u "contrasena");;
  password <- strip_method (por (por pw1 pw2) (JStr []));;
  Ok (username, password).

(** POST /registro *)
Definition registro (w : ambient) (rq : request) (seen d : db) : result response * db :=
  if negb (is_json rq) then (Ok (jsonify [(u "error", JStr Msg.requiere_json)] 400), d)
  else
    match read_credentials (por (get_json_silent rq) (JDict [])) with
    | Raise e => (Raise e, d)
    | Ok (username, password) =>
        match create_user username password w seen d with
        | (Raise e, d') => (Raise e, d')
        | (Ok (ok, msg), d') =>
            (Ok (jsonify [(u "ok", JBool ok); (u "mensaje", JStr msg)]
                         (if ok then 201 else 400)), d')
        end
    end.

(** POST /login *)
Definition login (w : ambient) (rq : request) (d : db) : result response :=
  if negb (is_json rq) then Ok (jsonify [(u "error", JStr Msg.requiere_json)] 400)
  else
    match read_credentials (por (get_json_silent rq) (JDict [])) with
    | Raise e => Raise e
    | Ok (username, password) =>
        match get_user_by_username username d with
        | Raise e => Raise e
        | Ok None => Ok (error_response Msg.credenciales 401)
        | Ok (Some user) =>
            match check_password (password_hash user) password with
            | Raise e => Raise e
            | Ok false => Ok (error_response Msg.credenciales 401)
            | Ok true =>
                let token := generate_token (time w) username in
                Ok (jsonify [(u "ok", JBool true);
                             (u "token", JStr (to_str token));
                             (u "expira_en", JInt (TOKEN_EXPIRATION_SECONDS cfg))] 200)
            end
        end
    end.

(** GET /tareas, the handler [tareas] of the file; [tareas] names the table
    here. *)
Definition tareas_html (w : ambient) (rq : request) : result response :=
  username <- require_user (time w) rq;;
  if not_username username then Ok (error_response Msg.no_autorizado_bearer 401)
  else Ok {| status := 200; body := Html (name_of username) |}.

(** POST /tareas *)
Definition crear_tarea (w : ambient) (rq : request) (d : db) : result response * db :=
  match require_user (time w) rq with
  | Raise e => (Raise e, d)
  | Ok username =>
      if not_username username then (Ok (error_response Msg.no_autorizado 401), d)
      else if negb (is_json rq) then (Ok (error_response Msg.requiere_json 400), d)
      else
        match (data <- request_json rq;;
               t <- get data (u "titulo");;
               strip_method (por t (JStr []))) with
        | Raise e => (Raise e, d)
        | Ok [] => (Ok (error_response Msg.titulo_obligatorio 400), d)
        | Ok title =>
            match (uid <- get_user_id (name_of username) d;;
                   insert_tarea title uid (CURRENT_TIMESTAMP w) d) with
            | Raise e => (Raise e, d)
            | Ok (tid, d') =>
                (Ok (jsonify [(u "ok", JBool true); (u "id", JInt tid);
                              (u "titulo", JStr title); (u "hecha", JInt 0)] 201), d')
            end
        end
  end.

(** One entry of [items]. *)
Definition item_of_row (r : tarea_row) : json :=
  JDict [(u "id", JInt (tarea_id r)); (u "titulo", JStr (titulo r));
         (u "hecha", JInt (hecha r)); (u "creada_en", JStr (creada_en r))].

(** GET /tareas/json *)
Definition listar_tareas (w : ambient) (rq : request) (d : db) : result response :=
  username <- require_user (time w) rq;;
  if not_username username then Ok (error_response Msg.no_autorizado 401)
  else
    uid <- get_user_id (name_of username) d;;
    let rows := List.map item_of_row (select_tareas uid d) in
    Ok (jsonify [(u "ok", JBool true); (u "items", JList rows)] 200).

(** [str(v)] *)
Definition py_str (v : json) : str :=
  match v with
  | JStr s => s
  | _ => py_repr v
  end.

(** [int(v)] *)
Definition py_int (v : json) : result Z :=
  match v with
  | JBool b => Ok (if b then 1 else 0)
  | JInt z => Ok z
  | JFloat f => int_of_float f
  | JStr s => int_of_str s
  | JNull | JList _ | JDict _ => Raise TypeError
  end.

(** The [sets] and their [params], from the body of the request. *)
Definition build_sets (data : json) : result (list assignment) :=
  new_titulo <- get data (u "titulo");;
  new_hecha <- get data (u "hecha");;
  let sets1 := match new_titulo with
               | JNull => []
               | _ => [SetTitulo (strip (py_str new_titulo))]
               end in
  match new_hecha with
  | JNull => Ok sets1
  | _ => n <- py_int new_hecha;;
         Ok (sets1 ++ [SetHecha (if n =? 0 then 0 else 1)])
  end.

(** PUT /tareas/<int:tid> *)
Definition actualizar_tarea (w : ambient) (rq : request) (tid : Z) (d : db)
  : result response * db :=
  match require_user (time w) rq with
  | Raise e => (Raise e, d)
  | Ok username =>
      if not_username username then (Ok (error_response Msg.no_autorizado 401), d)
      else if negb (is_json rq) then (Ok (error_response Msg.requiere_json 400), d)
      else
        match get_user_id (name_of username) d with
        | Raise e => (Raise e, d)
        | Ok uid =>
            match (data <- request_json rq;; build_sets data) with
            | Raise e => (Raise e, d)
            | Ok [] => (Ok (error_response Msg.nada 400), d)
            | Ok sets =>
                match update_tareas sets tid uid d with
                | Raise e => (Raise e, d)
                | Ok (rowcount, d') =>
                    if Nat.eqb rowcount 0
                    then (Ok (error_response Msg.no_encontrada 404), d')
                    else (Ok (jsonify [(u "ok", JBool true)] 200), d')
                end
            end
        end
  end.

(** DELETE /tareas/<int:tid> *)
Definition borrar_tarea (w : ambient) (rq : request) (tid : Z) (d : db)
  : result response * db :=
  match require_user (time w) rq with
  | Raise e => (Raise e, d)
  | Ok username =>
      if not_username username then (Ok (error_response Msg.no_autorizado 401), d)
      else
        match (uid <- get_user_id (name_of username) d;; delete_tareas tid uid d) with
        | Raise e => (Raise e, d)
        | Ok (rowcount, d') =>
            if Nat.eqb rowcount 0 then (Ok (error_response Msg.no_encontrada 404), d')
            else (Ok (jsonify [(u "ok", JBool true)] 200), d')
        end
  end.

End Service.

(* ================================================================== *)
(** ** The reading of the specification *)

Definition all_space (s : latin1) : bool := forallb space_char s.

Definition no_space (s : latin1) : bool := forallb (fun c => negb (space_char c)) s.

(** Nothing follows, or whitespace does. *)
Definition boundary (s : latin1) : bool :=
  match s with
  | [] => true
  | c :: _ => space_char c
  end.

(** [Parts s ps]: the text [s] consists of the non-empty, whitespace-free
    parts [ps], in this order, with whitespace between two parts and
    possibly before the first and after the last, and nothing else. *)
Inductive Parts : latin1 -> list latin1 -> Prop :=
| Parts_nil s :
    all_space s = true -> Parts s []
| Parts_cons w p rest ps :
    all_space w = true -> p <> [] -> no_space p = true ->
    boundary rest = true -> Parts rest ps ->
    Parts (w ++ p ++ rest) (p :: ps).

(** Equal up to the case of the letters. *)
Definition eq_nocase (a b : latin1) : Prop := lower a = lower b.

(** The header value of a request, empty when the header is missing. *)
Definition header_of (rq : request) : latin1 :=
  match Authorization rq with
  | Some h => h
  | None => []
  end.

(** The header has the form [Bearer <token>]. *)
Definition bearer_form (h : latin1) (token : latin1) : Prop :=
  exists scheme, Parts h [scheme; token] /\ eq_nocase scheme (l1 "Bearer").

(** Every stored task has a title that is not the empty string. *)
Definition titles_nonempty (d : db) : Prop :=
  Forall (fun r => titulo r <> []) (tareas d).

(** The stores the service can reach from a fresh database, one request
    after the other. The handlers that only read are left out. *)
Inductive reachable `{Platform} (cfg : config) : db -> Prop :=
| reach_init : reachable cfg init_db
| reach_registro w rq d :
    reachable cfg d -> reachable cfg (snd (registro w rq d d))
| reach_crear w rq d :
    reachable cfg d -> reachable cfg (snd (crear_tarea cfg w rq d))
| reach_actualizar w rq tid d :
    reachable cfg d -> reachable cfg (snd (actualizar_tarea cfg w rq tid d))
| reach_borrar w rq tid d :
    reachable cfg d -> reachable cfg (snd (borrar_tarea cfg w rq tid d)).

(** Sorted by id, largest first. *)
Definition id_descending (rows : list tarea_row) : Prop :=
  Sorted (fun a b => tarea_id b <= tarea_id a) rows.

(** The JSON fields of a response body; none for a page. *)
Definition fields_of (r : response) : list (str * json) :=
  match body r with
  | Json (JDict fs) => fs
  | _ => []
  end.

Definition has_token (r : response) : Prop :=
  dict_get (u "token") (fields_of r) <> None.

(** No row has both the id and the owner. *)
Definition no_row_matches (tid : Z) (uid : option Z) (d : db) : Prop :=
  forall r, In r (tareas d) -> ~ (tarea_id r = tid /\ uid = Some (usuario_id r)).

(** The identity [require_user] resolved passes the [if not username] test. *)
Definition authenticated `{Platform} (cfg : config) (w : ambient) (rq : request)
  (username : str) : Prop :=
  require_user cfg (time w) rq = Ok (Some username) /\ username <> [].

Definition not_found : response := error_response Msg.no_encontrada 404.

Definition updated : response := jsonify [(u "ok", JBool true)] 200.

(** What [actualizar_tarea] answers behind the guard when the UPDATE
    matches no row: nothing of it depends on the store. *)
Definition unmatched_update_outcome `{Platform} (rq : request) (tid : Z)
  : result response :=
  if negb (is_json rq) then Ok (error_response Msg.requiere_json 400)
  else
    match (data <- request_json rq;; build_sets data) with
    | Raise e => Raise e
    | Ok [] => Ok (error_response Msg.nada 400)
    | Ok sets => _ <- bind_update sets tid;; Ok not_found
    end.

(** What [borrar_tarea] answers behind the guard when the DELETE matches
    no row. *)
Definition unmatched_delete_outcome (tid : Z) : result response :=
  _ <- bind_int tid;; Ok not_found.

(** An entry of a listing that shows these four values under the keys
    [id], [titulo], [hecha] and [creada_en]. *)
Definition entry (id : Z) (title : str) (done : Z) (stamp : str) : json :=
  JDict [(u "id", JInt id); (u "titulo", JStr title);
         (u "hecha", JInt done); (u "creada_en", JStr stamp)].

(** Every name the table of users holds has a UTF-8 encoding, as a name
    has that went through the parameters of an INSERT. *)
Definition stored_names_encodable (d : db) : Prop :=
  Forall (fun r => encodable (usuario r) = true) (usuarios d).

(** The value of a field of a JSON object, [JNull] when the body does not
    supply it. *)
Definition field (data : list (str * json)) (k : str) : json :=
  match dict_get k data with
  | Some v => v
  | None => JNull
  end.

(** An assignment that leaves [titulo], and one that leaves [hecha]. *)
Definition keeps_titulo (a : assignment) : Prop :=
  match a with
  | SetHecha _ => True
  | SetTitulo _ => False
  end.

Definition keeps_hecha (a : assignment) : Prop :=
  match a with
  | SetTitulo _ => True
  | SetHecha _ => False
  end.

(** The row [r'] is the row [r] up to its two mutable columns. *)
Definition same_task (r r' : tarea_row) : Prop :=
  tarea_id r' = tarea_id r /\ usuario_id r' = usuario_id r /\ creada_en r' = creada_en r.

(** The flag stored for [int(hecha) = n]. *)
Definition flag (n : Z) : Z := if n =? 0 then 0 else 1.

(** Binding the new title of an update body, when the body carries one. *)
Definition bind_title `{Platform} (data : list (str * json)) : result unit :=
  match field data (u "titulo") with
  | JNull => Ok tt
  | t => bind_text (strip (py_str t))
  end.

(** The table of users has a row for the name. *)
Definition registered (username : str) (d : db) : Prop :=
  exists r, In r (usuarios d) /\ usuario r = username.

(** The body [login] answers with a token. *)
Definition token_response (cfg : config) (token : latin1) : response :=
  jsonify [(u "ok", JBool true); (u "token", JStr (to_str token));
           (u "expira_en", JInt (TOKEN_EXPIRATION_SECONDS cfg))] 200.

(** The credentials [registro] and [login] read from the request. *)
Definition credentials_of (rq : request) : result (str * str) :=
  read_credentials (por (get_json_silent rq) (JDict [])).

(* ================================================================== *)
(** ** An executable platform

    A small instance of [Platform] on which the handlers run: a hash that
    reverses the password behind a prefix, and a signer that writes the
    signing time and the subject in base 16 behind a checksum. It makes no
    claim to security; it gives the examples something to compute with. *)

Module Demo.

Definition demo_hash (salt password : str) : str :=
  u "demo$" ++ salt ++ [36%N] ++ rev password.

Definition demo_check (pwhash password : str) : bool :=
  str_eqb (skipn (List.length pwhash - List.length password - 1) pwhash)
          (36%N :: rev password).

(** [k] digits of [z] in base 16, written with the letters a to p. *)
Fixpoint to_nibbles (k : nat) (z : Z) : latin1 :=
  match k with
  | O => []
  | S k' => to_nibbles k' (z / 16) ++ [ascii_of_N (Z.to_N (97 + z mod 16))]
  end.

Definition of_nibbles (s : latin1) : Z :=
  fold_left (fun acc c => acc * 16 + (Z.of_N (N_of_ascii c) - 97)) s 0.

Definition encode_name (name : str) : latin1 :=
  flat_map (fun c => to_nibbles 6 (Z.of_N c)) name.

Fixpoint decode_name (s : latin1) : option str :=
  match s with
  | [] => Some []
  | a :: b :: c :: d :: e :: f :: rest =>
      match decode_name rest with
      | Some name => Some (Z.to_N (of_nibbles [a; b; c; d; e; f]) :: name)
      | None => None
      end
  | _ => None
  end.

Definition checksum (key : str) (text : latin1) : latin1 :=
  to_nibbles 2 (Z.of_N (fold_right N.add 0%N key + fold_right N.add 0%N (to_str text))).

Definition demo_dumps (key : str) (t : Z) (data : claims) : latin1 :=
  let name := match claims_get data (u "sub") with Some v => v | None => [] end in
  let text := to_nibbles 16 t ++ encode_name name in
  checksum key text ++ text.

Definition demo_unsign (key : str) (token : latin1) : option (Z * option claims) :=
  let text := skipn 2 token in
  if latin1_eqb (firstn 2 token) (checksum key text) && (16 <=? List.length text)%nat
  then Some (of_nibbles (firstn 16 text),
             match decode_name (skipn 16 text) with
             | Some name => Some [(u "sub", name)]
             | None => None
             end)
  else None.

(** [str(v)] of [None], a [bool] or a small [int]; a placeholder elsewhere. *)
Definition demo_repr (v : json) : str :=
  match v with
  | JNull => u "None"
  | JBool true => u "True"
  | JBool false => u "False"
  | JInt z => if (0 <=? z) && (z <? 10) then [Z.to_N (48 + z)] else u "<int>"
  | _ => u "<object>"
  end.

(** [int(s)] of a run of the digits 0 to 9; [ValueError] elsewhere. *)
Definition demo_int_of_str (s : str) : result Z :=
  match s with
  | [] => Raise ValueError
  | _ =>
      if forallb (fun c => (48 <=? c) && (c <=? 57))%N s
      then Ok (fold_left (fun acc c => acc * 10 + (Z.of_N c - 48)) s 0)
      else Raise ValueError
  end.

#[export] Instance demo : Platform := {|
  generate_password_hash := demo_hash;
  check_password_hash := demo_check;
  signer_dumps := demo_dumps;
  signer_unsign := demo_unsign;
  py_repr := demo_repr;
  int_of_str := demo_int_of_str
|}.

(** Sample data. *)
Definition ana : str := u "ana".
Definition beto : str := u "beto".

Definition at_time (t : Z) : ambient :=
  {| time := t; CURRENT_TIMESTAMP := u "2024-01-01 00:00:00"; salt := u "s" |}.

Definition json_request (auth : option latin1) (j : json) : request :=
  {| Authorization := auth; is_json := true; json_body := Some j |}.

Definition bearer (token : latin1) : option latin1 := Some (l1 "Bearer " ++ token).

Definition token_ana : latin1 := generate_token default_config 1000 ana.

Definition credentials (name password : str) : json :=
  JDict [(u "usuario", JStr name); (u "contrasena", JStr password)].

(** The store after ana and beto registered and ana created one task. *)
Definition db1 : db := snd (registro (at_time 10) (json_request None (credentials ana (u "1234"))) init_db init_db).
Definition db2 : db := snd (registro (at_time 20) (json_request None (credentials beto (u "abcd"))) db1 db1).
Definition db3 : db :=
  snd (crear_tarea default_config (at_time 1001)
         (json_request (bearer token_ana) (JDict [(u "titulo", JStr (u " comprar pan "))])) db2).

Definition token_beto : latin1 := generate_token default_config 1000 beto.

(** The row of the task ana created. *)
Definition tarea1 : tarea_row :=
  {| tarea_id := 1; titulo := u "comprar pan"; hecha := 0; usuario_id := 1;
     creada_en := u "2024-01-01 00:00:00" |}.

(** Requests of ana and of beto on task 1. *)
Definition rq_crear : request :=
  json_request (bearer token_ana) (JDict [(u "titulo", JStr (u " comprar pan "))]).
Definition rq_hecha (auth : latin1) (v : json) : request :=
  json_request (bearer auth) (JDict [(u "hecha", v)]).
Definition rq_titulo (auth : latin1) (v : json) : request :=
  json_request (bearer auth) (JDict [(u "titulo", v)]).

(** One half, as a float. *)
Definition half : json := JFloat (FFin 1 (-1)).

(** The store once ana marked her task as done. *)
Definition db4 : db :=
  snd (actualizar_tarea default_config (at_time 1002) (rq_hecha token_ana (JBool true)) 1 db3).

(** The store after beto, and then ana, created one more task. *)
Definition db5 : db :=
  snd (crear_tarea default_config (at_time 1003)
         (rq_titulo token_beto (JStr (u "leer"))) db3).
Definition db6 : db :=
  snd (crear_tarea default_config (at_time 1004)
         (rq_titulo token_ana (JStr (u "regar"))) db5).

(** The text [json.loads] makes of a lone surrogate escape. *)
Definition lone : str := [55296%N].


End Demo.

(* ================================================================== *)
(** ** Stores, outcomes and texts for the statements on whole runs *)

(** The text is empty or starts with a character that is no whitespace. *)
Definition clean_head (s : str) : Prop :=
  match s with
  | [] => True
  | c :: _ => is_space c = false
  end.

(** The answer is a success: 200 or 201. *)
Definition succeeded (r : result response) : bool :=
  match r with
  | Ok resp => (status resp =? 200) || (status resp =? 201)
  | Raise _ => false
  end.

(** What the handlers keep true of the store. *)
Record consistent (d : db) : Prop := {
  seqs_nonneg : 0 <= usuarios_seq d /\ 0 <= tareas_seq d;
  names_distinct : NoDup (List.map usuario (usuarios d));
  names_clean :
    Forall (fun r => usuario r <> [] /\ strip (usuario r) = usuario r) (usuarios d);
  names_encodable : stored_names_encodable d;
  user_ids_distinct : NoDup (List.map user_id (usuarios d));
  user_ids_issued : Forall (fun r => 0 < user_id r <= usuarios_seq d) (usuarios d);
  task_ids_distinct : NoDup (List.map tarea_id (tareas d));
  task_ids_issued : Forall (fun r => 0 < tarea_id r <= tareas_seq d) (tareas d);
  flags_boolean : Forall (fun r => hecha r = 0 \/ hecha r = 1) (tareas d);
  owners_registered :
    Forall (fun r => exists x, In x (usuarios d) /\ user_id x = usuario_id r) (tareas d);
  titles_stripped : Forall (fun r => strip (titulo r) = titulo r) (tareas d)
}.

(** A parameter of the SET list as [build_sets] makes it: a stripped title,
    or a flag. *)
Definition clean_assignment (a : assignment) : Prop :=
  match a with
  | SetTitulo s => strip s = s
  | SetHecha n => n = 0 \/ n = 1
  end.

(** The row the UPDATE of [actualizar_tarea] leaves in the place of [r]. *)
Definition updated_row (sets : list assignment) (tid : Z) (uid : option Z)
  (r : tarea_row) : tarea_row :=
  if where_id_and_usuario_id tid uid r then fold_left assign sets r else r.


(** The JSON value is an object. *)
Definition is_object (j : json) : bool :=
  match j with
  | JDict _ => true
  | _ => false
  end.

(** More sample data on the executable platform. *)
Module Scenes.
Import Demo.

(** The row of ana. *)
Definition usuario_ana : usuario_row :=
  {| user_id := 1; usuario := ana; password_hash := u "demo$s$4321";
     creado_en := u "2024-01-01 00:00:00" |}.

(** The body ana registers and logs in with. *)
Definition rq_ana : request := json_request None (credentials ana (u "1234")).

(** A body whose [usuario] is three blanks. *)
Definition rq_blank : request := json_request None (credentials (u "   ") (u "x")).

(** A request with nothing but the header of a token. *)
Definition rq_of (token : latin1) : request := json_request (bearer token) JNull.

(** ana logs in under the other spelling of the key, blanks around the
    values. *)
Definition rq_ana_enie : request :=
  json_request None
    (JDict [(u "usuario", JStr (u " ana ")); (key_contrasena_enie, JStr (u "1234 "))]).

End Scenes.

(* ================================================================== *)
(** * Theorems *)

(** ** [split] against the parts of a text *)

Section SplitFacts.

Lemma split_from_spaces (w s : latin1) :
  all_space w = true -> split_from (w ++ s) [] = split_from s [].
Proof.
  induction w as [|c w IH]; simpl; [reflexivity|].
  intros H. apply andb_prop in H as [Hc Hw]. rewrite Hc. auto.
Qed.

Lemma split_from_word (p s acc : latin1) :
  no_space p = true -> split_from (p ++ s) acc = split_from s (acc ++ p).
Proof.
  revert acc. induction p as [|c p IH]; simpl; intros acc H.
  - now rewrite app_nil_r.
  - apply andb_prop in H as [Hc Hp].
    apply negb_true_iff in Hc. rewrite Hc, IH by assumption.
    now rewrite <- app_assoc.
Qed.

Lemma split_from_boundary (rest acc : latin1) :
  boundary rest = true -> acc <> [] ->
  split_from rest acc = acc :: split_from rest [].
Proof.
  destruct rest as [|c rest]; simpl; intros Hb Hacc.
  - destruct acc; [contradiction | reflexivity].
  - rewrite Hb. destruct acc; [contradiction | reflexivity].
Qed.

(** The parts of a text are what [split] returns. *)
Lemma Parts_split (s : latin1) (ps : list latin1) : Parts s ps -> split s = ps.
Proof.
  unfold split. induction 1 as [s Hs | w p rest ps Hw Hp Hn Hb _ IH].
  - rewrite <- (app_nil_r s). now rewrite split_from_spaces.
  - rewrite split_from_spaces, split_from_word by assumption. simpl.
    rewrite split_from_boundary by assumption. now rewrite IH.
Qed.

Lemma Parts_space (c : ascii) (s : latin1) (ps : list latin1) :
  space_char c = true -> Parts s ps -> Parts (c :: s) ps.
Proof.
  intros Hc [s' Hs | w p rest ps' Hw Hp Hn Hb Hrest].
  - constructor. simpl. now rewrite Hc.
  - change (c :: w ++ p ++ rest) with ((c :: w) ++ p ++ rest).
    constructor; try assumption. simpl. now rewrite Hc.
Qed.

Lemma no_space_snoc (acc : latin1) (c : ascii) :
  no_space acc = true -> space_char c = false -> no_space (acc ++ [c]) = true.
Proof.
  intros Ha Hc. unfold no_space. rewrite forallb_app. simpl.
  fold (no_space acc). now rewrite Ha, Hc.
Qed.

Lemma split_from_Parts (s acc : latin1) :
  no_space acc = true -> Parts (acc ++ s) (split_from s acc).
Proof.
  revert acc. induction s as [|c s IH]; intros acc Hacc; simpl.
  - destruct acc as [|a acc].
    + now constructor.
    + apply (Parts_cons [] (a :: acc) [] []); try easy. now constructor.
  - destruct (space_char c) eqn:Hc.
    + pose proof (Parts_space c s _ Hc (IH [] eq_refl)) as Hrest.
      destruct acc as [|a acc]; [exact Hrest|].
      now apply (Parts_cons [] (a :: acc) (c :: s)).
    + replace (acc ++ c :: s) with ((acc ++ [c]) ++ s)
        by now rewrite <- app_assoc.
      apply IH. now apply no_space_snoc.
Qed.

(** [split] returns the parts of the text, and they are the only ones. *)
Lemma split_Parts (s : latin1) (ps : list latin1) : split s = ps <-> Parts s ps.
Proof.
  split; [intros <- | apply Parts_split].
  exact (split_from_Parts s [] eq_refl).
Qed.

End SplitFacts.

Example split_bearer :
  split (l1 "  bEaReR   abc.def  ") = [l1 "bEaReR"; l1 "abc.def"].
Proof. reflexivity. Qed.

Example strip_title : strip (u "  comprar  pan  ") = u "comprar  pan".
Proof. reflexivity. Qed.

Example strip_wide_blanks : strip [160%N; 8195%N; 97%N; 12288%N; 133%N] = [97%N].
Proof. reflexivity. Qed.

Example lower_scheme : lower (l1 "BeArEr") = l1 "bearer".
Proof. reflexivity. Qed.

(** E acute lowers, the multiplication sign and the sharp s stay. *)
Example lower_above_ascii :
  List.map (fun n => N_of_ascii (lower_char (ascii_of_N n))) [201; 215; 223]%N
  = [233; 215; 223]%N.
Proof. reflexivity. Qed.

Example int_of_half : int_of_float (FFin 1 (-1)) = Ok 0.
Proof. reflexivity. Qed.

Example int_of_minus_seven_halves : int_of_float (FFin (-7) (-1)) = Ok (-3).
Proof. reflexivity. Qed.

(** ** The session guard *)

Section Guard.

Context {P : Platform}.
Variable cfg : config.

Lemma require_user_split (now : Z) (rq : request) :
  require_user cfg now rq =
  match split (header_of rq) with
  | [scheme; token] =>
      if latin1_eqb (lower scheme) (l1 "bearer") then verify_token cfg now token
      else Ok None
  | _ => Ok None
  end.
Proof. reflexivity. Qed.

Lemma latin1_eqb_eq (a b : latin1) : latin1_eqb a b = true <-> a = b.
Proof.
  unfold latin1_eqb. destruct (list_eq_dec ascii_dec a b); split; congruence.
Qed.

(** C4. The guard resolves an identity only from a header of exactly two
    whitespace-separated parts whose first is [Bearer] in any case, and then
    by verifying the second part as the token. Any other header, and a
    missing one, gives no identity and no error, and the protected page
    answers 401. *)
Theorem require_user_bearer_only (now : Z) (rq : request) :
  (forall token, bearer_form (header_of rq) token ->
     require_user cfg now rq = verify_token cfg now token)
  /\ ((forall token, ~ bearer_form (header_of rq) token) ->
      require_user cfg now rq = Ok None)
  /\ (Authorization rq = None -> require_user cfg now rq = Ok None)
  /\ (forall w, require_user cfg (time w) rq = Ok None ->
        tareas_html cfg w rq = Ok (error_response Msg.no_autorizado_bearer 401)).
Proof.
  repeat split.
  - intros token (scheme & Hparts & Hcase).
    rewrite require_user_split. apply Parts_split in Hparts. rewrite Hparts.
    replace (latin1_eqb (lower scheme) (l1 "bearer")) with true; [reflexivity|].
    symmetry. apply latin1_eqb_eq. exact Hcase.
  - intros Hnone. rewrite require_user_split.
    destruct (split (header_of rq)) as [|scheme [|token [|x ps]]] eqn:Hs;
      try reflexivity.
    destruct (latin1_eqb (lower scheme) (l1 "bearer")) eqn:Hb; [|reflexivity].
    exfalso. apply (Hnone token). exists scheme. split.
    + now apply split_Parts.
    + apply latin1_eqb_eq in Hb. exact Hb.
  - intros Hmissing. unfold require_user. now rewrite Hmissing.
  - intros w Hnone. unfold tareas_html. now rewrite Hnone.
Qed.

End Guard.

(** ** The statements on [tareas] *)

Section StoreFacts.

Lemma where_id_and_usuario_id_true (tid : Z) (uid : option Z) (r : tarea_row) :
  where_id_and_usuario_id tid uid r = true <->
  tarea_id r = tid /\ uid = Some (usuario_id r).
Proof.
  unfold where_id_and_usuario_id. destruct uid as [owner|].
  - rewrite andb_true_iff, !Z.eqb_eq. split.
    + intros [-> ->]. now split.
    + intros [-> [= ->]]. now split.
  - rewrite andb_false_r. split; [discriminate | intros [_ [=]]].
Qed.

Lemma no_row_matches_false (tid : Z) (uid : option Z) (d : db) :
  no_row_matches tid uid d <->
  forall r, In r (tareas d) -> where_id_and_usuario_id tid uid r = false.
Proof.
  unfold no_row_matches. split; intros H r Hr.
  - apply not_true_is_false. rewrite where_id_and_usuario_id_true. now apply H.
  - rewrite <- where_id_and_usuario_id_true. now rewrite (H r Hr).
Qed.

Lemma filter_nil_iff {A} (f : A -> bool) (l : list A) :
  filter f l = [] <-> forall x, In x l -> f x = false.
Proof.
  induction l as [|a l IH]; simpl.
  - split; [intros _ x [] | reflexivity].
  - destruct (f a) eqn:Ha.
    + split; [discriminate|]. intros H. specialize (H a (or_introl eq_refl)). congruence.
    + rewrite IH. split.
      * intros H x [<- | Hx]; auto.
      * intros H x Hx. apply H. now right.
Qed.

Lemma filter_negb_all {A} (f : A -> bool) (l : list A) :
  (forall x, In x l -> f x = false) -> filter (fun x => negb (f x)) l = l.
Proof.
  induction l as [|a l IH]; simpl; intros H; [reflexivity|].
  rewrite (H a (or_introl eq_refl)). simpl. f_equal. apply IH. auto.
Qed.

Lemma map_unmatched {A} (f : A -> bool) (g : A -> A) (l : list A) :
  (forall x, In x l -> f x = false) -> List.map (fun x => if f x then g x else x) l = l.
Proof.
  induction l as [|a l IH]; simpl; intros H; [reflexivity|].
  rewrite (H a (or_introl eq_refl)). f_equal. apply IH. auto.
Qed.

Lemma with_tareas_same (d : db) : with_tareas d (tareas d) = d.
Proof. now destruct d. Qed.

Lemma rowcount_zero {A} (f : A -> bool) (l : list A) :
  Nat.eqb (List.length (filter f l)) 0 = true <-> forall x, In x l -> f x = false.
Proof.
  rewrite <- filter_nil_iff, Nat.eqb_eq. now rewrite length_zero_iff_nil.
Qed.

(** An UPDATE that matches no row counts none and leaves the store. *)
Lemma update_rows_unmatched (sets : list assignment) (tid : Z) (uid : option Z) (d : db) :
  no_row_matches tid uid d -> update_rows sets tid uid d = (0%nat, d).
Proof.
  intros H0. pose proof (proj1 (no_row_matches_false _ _ _) H0) as H. unfold update_rows.
  rewrite map_unmatched, with_tareas_same by assumption.
  now rewrite (proj2 (filter_nil_iff _ _) H).
Qed.

(** A DELETE that matches no row counts none and leaves the store. *)
Lemma delete_rows_unmatched (tid : Z) (uid : option Z) (d : db) :
  no_row_matches tid uid d -> delete_rows tid uid d = (0%nat, d).
Proof.
  intros H0. pose proof (proj1 (no_row_matches_false _ _ _) H0) as H. unfold delete_rows.
  rewrite filter_negb_all, with_tareas_same by assumption.
  now rewrite (proj2 (filter_nil_iff _ _) H).
Qed.


End StoreFacts.

(** ** Binding the parameters *)

Section Binding.

Lemma bind_int_ok (z : Z) : int64 z = true -> bind_int z = Ok tt.
Proof. unfold bind_int. now intros ->. Qed.

Lemma bind_int_raise (z : Z) : int64 z = false -> bind_int z = Raise OverflowError.
Proof. unfold bind_int. now intros ->. Qed.

Lemma bind_text_ok (s : str) : encodable s = true -> bind_text s = Ok tt.
Proof. unfold bind_text, encode. now intros ->. Qed.

Lemma bind_text_raise (s : str) :
  encodable s = false -> bind_text s = Raise UnicodeEncodeError.
Proof. unfold bind_text, encode. now intros ->. Qed.

Lemma bind_text_inv (s : str) : bind_text s = Ok tt -> encodable s = true.
Proof. unfold bind_text, encode. now destruct (encodable s). Qed.

Lemma bind_int_inv (z : Z) : bind_int z = Ok tt -> int64 z = true.
Proof. unfold bind_int. now destruct (int64 z). Qed.

(** The parameters of the UPDATE bind when those of the SET list and the
    id do. *)
Lemma bind_update_ok (sets : list assignment) (tid : Z) :
  bind_update sets tid = Ok tt <-> bind_all sets = Ok tt /\ int64 tid = true.
Proof.
  unfold bind_update. destruct (bind_all sets) as [[]|e]; simpl.
  - split; [intros H; split; [reflexivity | now apply bind_int_inv]
           | intros [_ H]; now apply bind_int_ok].
  - split; [discriminate | intros [[=] _]].
Qed.


Lemma update_tareas_bound (sets : list assignment) (tid : Z) (uid : option Z) (d : db) :
  bind_update sets tid = Ok tt ->
  update_tareas sets tid uid d = Ok (update_rows sets tid uid d).
Proof. unfold update_tareas. now intros ->. Qed.

Lemma update_tareas_unbound (sets : list assignment) (tid : Z) (uid : option Z) (d : db) e :
  bind_update sets tid = Raise e -> update_tareas sets tid uid d = Raise e.
Proof. unfold update_tareas. now intros ->. Qed.

Lemma delete_tareas_bound (tid : Z) (uid : option Z) (d : db) :
  int64 tid = true -> delete_tareas tid uid d = Ok (delete_rows tid uid d).
Proof. unfold delete_tareas. intros H. now rewrite (bind_int_ok tid H). Qed.

Lemma delete_tareas_unbound (tid : Z) (uid : option Z) (d : db) :
  int64 tid = false -> delete_tareas tid uid d = Raise OverflowError.
Proof. unfold delete_tareas. intros H. now rewrite (bind_int_raise tid H). Qed.

Section Lookups.

Context {P : Platform}.

Lemma get_user_id_encodable (username : str) (d : db) :
  encodable username = true ->
  get_user_id username d = Ok (select_user_id username d).
Proof. unfold get_user_id. intros H. now rewrite (bind_text_ok _ H). Qed.

Lemma get_user_id_unencodable (username : str) (d : db) :
  encodable username = false ->
  get_user_id username d = Raise UnicodeEncodeError.
Proof. unfold get_user_id. intros H. now rewrite (bind_text_raise _ H). Qed.

Lemma get_user_by_username_encodable (username : str) (d : db) :
  encodable username = true ->
  get_user_by_username username d = Ok (select_usuario username d).
Proof. unfold get_user_by_username. intros H. now rewrite (bind_text_ok _ H). Qed.

Lemma get_user_by_username_unencodable (username : str) (d : db) :
  encodable username = false ->
  get_user_by_username username d = Raise UnicodeEncodeError.
Proof. unfold get_user_by_username. intros H. now rewrite (bind_text_raise _ H). Qed.

End Lookups.

End Binding.

Section Tasks.

Context {P : Platform}.
Variable cfg : config.

(** [borrar_tarea] behind the guard, for an id in range. *)
Lemma borrar_tarea_authenticated w rq tid d username :
  authenticated cfg w rq username ->
  encodable username = true ->
  int64 tid = true ->
  borrar_tarea cfg w rq tid d =
  let uid := select_user_id username d in
  let '(rowcount, d') := delete_rows tid uid d in
  (Ok (if Nat.eqb rowcount 0 then not_found else updated), d').
Proof.
  intros [Hu Hne] Henc Hid. unfold borrar_tarea. rewrite Hu.
  destruct username as [|c s]; [contradiction|]. simpl not_username. cbv iota.
  simpl name_of. rewrite (get_user_id_encodable _ d Henc). simpl bind.
  rewrite (delete_tareas_bound tid _ d Hid). simpl.
  now destruct (Nat.eqb _ 0).
Qed.

(** [borrar_tarea] behind the guard, for an id out of range. *)
Lemma borrar_tarea_out_of_range w rq tid d username :
  authenticated cfg w rq username ->
  encodable username = true ->
  int64 tid = false ->
  borrar_tarea cfg w rq tid d = (Raise OverflowError, d).
Proof.
  intros [Hu Hne] Henc Hid. unfold borrar_tarea. rewrite Hu.
  destruct username as [|c s]; [contradiction|]. simpl not_username. cbv iota.
  simpl name_of. rewrite (get_user_id_encodable _ d Henc). simpl bind.
  now rewrite (delete_tareas_unbound tid _ d Hid).
Qed.

(** [borrar_tarea] behind the guard when no row matches. *)
Lemma borrar_tarea_unmatched w rq tid d username :
  authenticated cfg w rq username ->
  encodable username = true ->
  no_row_matches tid (select_user_id username d) d ->
  borrar_tarea cfg w rq tid d = (unmatched_delete_outcome tid, d).
Proof.
  intros Hauth Henc Hno. unfold unmatched_delete_outcome.
  destruct (int64 tid) eqn:Hid.
  - rewrite (borrar_tarea_authenticated w rq tid d username Hauth Henc Hid). cbv zeta.
    rewrite (delete_rows_unmatched tid _ d Hno). now rewrite (bind_int_ok tid Hid).
  - rewrite (borrar_tarea_out_of_range w rq tid d username Hauth Henc Hid).
    now rewrite (bind_int_raise tid Hid).
Qed.

(** [actualizar_tarea] behind the guard. *)
Lemma actualizar_tarea_guarded w rq tid d username :
  authenticated cfg w rq username ->
  encodable username = true ->
  actualizar_tarea cfg w rq tid d =
  if negb (is_json rq) then (Ok (error_response Msg.requiere_json 400), d)
  else
    match (data <- request_json rq;; build_sets data) with
    | Raise e => (Raise e, d)
    | Ok [] => (Ok (error_response Msg.nada 400), d)
    | Ok sets =>
        match update_tareas sets tid (select_user_id username d) d with
        | Raise e => (Raise e, d)
        | Ok (rowcount, d') =>
            if Nat.eqb rowcount 0 then (Ok not_found, d') else (Ok updated, d')
        end
    end.
Proof.
  intros [Hu Hne] Henc. unfold actualizar_tarea. rewrite Hu.
  destruct username as [|c s]; [contradiction|]. simpl not_username. cbv iota.
  simpl name_of. now rewrite (get_user_id_encodable _ d Henc).
Qed.

(** [actualizar_tarea] behind the guard, for a body that gives a SET list
    whose parameters bind. *)
Lemma actualizar_tarea_authenticated w rq tid d username sets :
  authenticated cfg w rq username ->
  encodable username = true ->
  is_json rq = true ->
  (data <- request_json rq;; build_sets data) = Ok sets ->
  sets <> [] ->
  bind_update sets tid = Ok tt ->
  actualizar_tarea cfg w rq tid d =
  let uid := select_user_id username d in
  let '(rowcount, d') := update_rows sets tid uid d in
  (Ok (if Nat.eqb rowcount 0 then not_found else updated), d').
Proof.
  intros [Hu Hne] Henc Hj Hsets Hs Hb. unfold actualizar_tarea. rewrite Hu.
  destruct username as [|c s]; [contradiction|]. simpl not_username. cbv iota.
  rewrite Hj. simpl negb. cbv iota. simpl name_of.
  rewrite (get_user_id_encodable _ d Henc), Hsets.
  destruct sets as [|a sets]; [contradiction|].
  rewrite (update_tareas_bound _ tid _ d Hb). simpl.
  now destruct (Nat.eqb _ 0).
Qed.

(** [actualizar_tarea] behind the guard, for a SET list with a parameter
    that does not bind. *)
Lemma actualizar_tarea_unbound w rq tid d username sets e :
  authenticated cfg w rq username ->
  encodable username = true ->
  is_json rq = true ->
  (data <- request_json rq;; build_sets data) = Ok sets ->
  sets <> [] ->
  bind_update sets tid = Raise e ->
  actualizar_tarea cfg w rq tid d = (Raise e, d).
Proof.
  intros [Hu Hne] Henc Hj Hsets Hs Hb. unfold actualizar_tarea. rewrite Hu.
  destruct username as [|c s]; [contradiction|]. simpl not_username. cbv iota.
  rewrite Hj. simpl negb. cbv iota. simpl name_of.
  rewrite (get_user_id_encodable _ d Henc), Hsets.
  destruct sets as [|a sets]; [contradiction|].
  now rewrite (update_tareas_unbound _ tid _ d e Hb).
Qed.

(** [actualizar_tarea] behind the guard when no row matches: the answer
    is read off the request and the store stays. *)
Lemma actualizar_tarea_unmatched w rq tid d username :
  authenticated cfg w rq username ->
  encodable username = true ->
  no_row_matches tid (select_user_id username d) d ->
  actualizar_tarea cfg w rq tid d = (unmatched_update_outcome rq tid, d).
Proof.
  intros [Hu Hne] Henc Hno. unfold actualizar_tarea, unmatched_update_outcome.
  rewrite Hu. destruct username as [|c s]; [contradiction|].
  simpl not_username. cbv iota.
  destruct (negb (is_json rq)); [reflexivity|].
  simpl name_of. rewrite (get_user_id_encodable _ d Henc).
  destruct (data <- request_json rq;; build_sets data) as [[|a sets]|e];
    try reflexivity.
  unfold update_tareas.
  destruct (bind_update (a :: sets) tid) as [[]|e]; [|reflexivity].
  simpl bind. now rewrite update_rows_unmatched.
Qed.


End Tasks.

(** ** What an update leaves alone *)

Section Frame.

Context {P : Platform}.
Variable cfg : config.

Lemma build_sets_fields (data : list (str * json)) :
  build_sets (JDict data) =
  let new_titulo := field data (u "titulo") in
  let new_hecha := field data (u "hecha") in
  let sets1 := match new_titulo with
               | JNull => []
               | _ => [SetTitulo (strip (py_str new_titulo))]
               end in
  match new_hecha with
  | JNull => Ok sets1
  | _ => n <- py_int new_hecha;; Ok (sets1 ++ [SetHecha (flag n)])
  end.
Proof. reflexivity. Qed.

Lemma build_sets_hecha_only data sets :
  field data (u "titulo") = JNull ->
  build_sets (JDict data) = Ok sets -> Forall keeps_titulo sets.
Proof.
  intros Ht. rewrite build_sets_fields, Ht. cbv zeta.
  destruct (field data (u "hecha")) eqn:Hh;
    try destruct (py_int _); simpl; intros [= <-]; repeat constructor.
Qed.

Lemma build_sets_titulo_only data sets :
  field data (u "hecha") = JNull ->
  build_sets (JDict data) = Ok sets -> Forall keeps_hecha sets.
Proof.
  intros Hh. rewrite build_sets_fields, Hh. cbv zeta.
  destruct (field data (u "titulo")); intros [= <-]; repeat constructor.
Qed.

Lemma int64_flag (n : Z) : int64 (flag n) = true.
Proof. unfold flag. now destruct (n =? 0). Qed.

(** Of the parameters [build_sets] makes, only the title may fail to
    bind: the flag is 0 or 1. *)
Lemma build_sets_bind_all data sets :
  build_sets (JDict data) = Ok sets -> bind_all sets = bind_title data.
Proof.
  rewrite build_sets_fields. unfold bind_title. cbv zeta.
  destruct (field data (u "titulo")) eqn:Ht;
    (destruct (field data (u "hecha")) eqn:Hh;
     [ | destruct (py_int _) as [n|e] ..]; simpl; intros [= <-]; simpl;
     try reflexivity;
     try (unfold bind_int; rewrite int64_flag; try reflexivity;
          now destruct (bind_text _) as [[]|]);
     try now destruct (bind_text _) as [[]|]).
Qed.

Lemma assign_same_task (sets : list assignment) (r : tarea_row) :
  same_task r (fold_left assign sets r).
Proof.
  revert r. induction sets as [|a sets IH]; intros r; simpl.
  - now repeat split.
  - destruct (IH (assign r a)) as (H1 & H2 & H3).
    unfold same_task. rewrite H1, H2, H3. now destruct a.
Qed.

Lemma assign_keeps_titulo (sets : list assignment) (r : tarea_row) :
  Forall keeps_titulo sets -> titulo (fold_left assign sets r) = titulo r.
Proof.
  intros H. revert r. induction H as [|a sets Ha _ IH]; intros r; simpl.
  - reflexivity.
  - rewrite IH. now destruct a.
Qed.

Lemma assign_keeps_hecha (sets : list assignment) (r : tarea_row) :
  Forall keeps_hecha sets -> hecha (fold_left assign sets r) = hecha r.
Proof.
  intros H. revert r. induction H as [|a sets Ha _ IH]; intros r; simpl.
  - reflexivity.
  - rewrite IH. now destruct a.
Qed.

Lemma Forall2_map_rows {A} (R : A -> A -> Prop) (f : A -> A) (l : list A) :
  (forall x, In x l -> R x (f x)) -> Forall2 R l (List.map f l).
Proof.
  induction l as [|a l IH]; simpl; intros H; constructor.
  - apply H. now left.
  - apply IH. intros x Hx. apply H. now right.
Qed.

(** [actualizar_tarea] either leaves the store or runs the UPDATE with the
    SET list of the body. *)
Lemma actualizar_tarea_store w rq tid d username :
  authenticated cfg w rq username ->
  encodable username = true ->
  snd (actualizar_tarea cfg w rq tid d) = d
  \/ exists sets,
       (data <- request_json rq;; build_sets data) = Ok sets /\ sets <> []
       /\ bind_update sets tid = Ok tt
       /\ actualizar_tarea cfg w rq tid d =
          (Ok (if Nat.eqb (fst (update_rows sets tid (select_user_id username d) d)) 0
               then not_found else updated),
           snd (update_rows sets tid (select_user_id username d) d)).
Proof.
  intros Hauth Henc. destruct (is_json rq) eqn:Hj.
  - destruct (data <- request_json rq;; build_sets data) as [[|a sets]|e] eqn:Hs.
    + left. rewrite (actualizar_tarea_guarded cfg w rq tid d username Hauth Henc).
      now rewrite Hj, Hs.
    + destruct (bind_update (a :: sets) tid) as [[]|e] eqn:Hb.
      * right. exists (a :: sets).
        split; [reflexivity | split; [discriminate | split; [assumption|]]].
        now rewrite (actualizar_tarea_authenticated cfg w rq tid d username (a :: sets)).
      * left.
        now rewrite (actualizar_tarea_unbound cfg w rq tid d username (a :: sets) e).
    + left. rewrite (actualizar_tarea_guarded cfg w rq tid d username Hauth Henc).
      now rewrite Hj, Hs.
  - left. destruct Hauth as [Hu Hne]. unfold actualizar_tarea. rewrite Hu, Hj.
    now destruct username.
Qed.

(** C10. An update whose body supplies only [hecha] leaves the [titulo] of
    every row, and one that supplies only [titulo] leaves every [hecha];
    either way each row keeps its id, owner and creation time, every row
    other than the targeted one is unchanged, and so is the table of
    users. The caller's name is one the look-up of its id can bind. *)
Theorem update_keeps_other_field w rq tid d username data :
  authenticated cfg w rq username ->
  encodable username = true ->
  json_body rq = Some (JDict data) ->
  let d' := snd (actualizar_tarea cfg w rq tid d) in
  let target := where_id_and_usuario_id tid (select_user_id username d) in
  usuarios d' = usuarios d
  /\ Forall2 (fun r r' => same_task r r' /\ (target r = false -> r' = r))
             (tareas d) (tareas d')
  /\ (field data (u "titulo") = JNull ->
      Forall2 (fun r r' => titulo r' = titulo r) (tareas d) (tareas d'))
  /\ (field data (u "hecha") = JNull ->
      Forall2 (fun r r' => hecha r' = hecha r) (tareas d) (tareas d')).
Proof.
  intros Hauth Henc Hbody. cbv zeta.
  destruct (actualizar_tarea_store w rq tid d username Hauth Henc)
    as [-> | (sets & Hsets & _ & _ & ->)].
  - split; [reflexivity|].
    repeat split; intros; rewrite <- (map_id (tareas d)) at 2;
      apply Forall2_map_rows; now repeat split.
  - unfold request_json in Hsets. rewrite Hbody in Hsets. simpl in Hsets.
    simpl. split; [reflexivity|]. repeat split.
    + apply Forall2_map_rows. intros r _. split.
      * destruct (where_id_and_usuario_id _ _ r); [apply assign_same_task | now repeat split].
      * now intros ->.
    + intros Ht. apply Forall2_map_rows. intros r _.
      destruct (where_id_and_usuario_id _ _ r); [|reflexivity].
      apply assign_keeps_titulo. now apply build_sets_hecha_only with data.
    + intros Hh. apply Forall2_map_rows. intros r _.
      destruct (where_id_and_usuario_id _ _ r); [|reflexivity].
      apply assign_keeps_hecha. now apply build_sets_titulo_only with data.
Qed.

End Frame.

(** ** What an update stores *)

Section Update.

Context {P : Platform}.
Variable cfg : config.

Lemma flag_cases (n : Z) : (flag n = 0 <-> n = 0) /\ (flag n = 1 <-> n <> 0).
Proof.
  unfold flag. destruct (Z.eqb_spec n 0); split; split; intros; try congruence;
    try discriminate; try contradiction.
Qed.

Lemma assign_last_hecha (sets : list assignment) (n : Z) (r : tarea_row) :
  hecha (fold_left assign (sets ++ [SetHecha n]) r) = n.
Proof. now rewrite fold_left_app. Qed.

Lemma build_sets_hecha data n :
  field data (u "hecha") <> JNull ->
  py_int (field data (u "hecha")) = Ok n ->
  exists sets1, build_sets (JDict data) = Ok (sets1 ++ [SetHecha (flag n)]).
Proof.
  intros Hne Hn. rewrite build_sets_fields. cbv zeta. rewrite Hn.
  destruct (field data (u "hecha")); [contradiction | ..]; simpl; eauto.
Qed.

Lemma build_sets_hecha_raises data e :
  field data (u "hecha") <> JNull ->
  py_int (field data (u "hecha")) = Raise e ->
  build_sets (JDict data) = Raise e.
Proof.
  intros Hne He. rewrite build_sets_fields. cbv zeta. rewrite He.
  now destruct (field data (u "hecha")).
Qed.

(** A body that supplies a field and whose [hecha], if any, [int()]
    accepts gives a SET list that is not empty. *)
Lemma build_sets_supplied data :
  (field data (u "titulo") <> JNull \/ field data (u "hecha") <> JNull) ->
  (field data (u "hecha") = JNull \/ exists n, py_int (field data (u "hecha")) = Ok n) ->
  exists a sets, build_sets (JDict data) = Ok (a :: sets).
Proof.
  intros Hsup Hint. rewrite build_sets_fields. cbv zeta.
  destruct Hint as [Hh | [n Hn]].
  - rewrite Hh. destruct Hsup as [Ht | Hh']; [|contradiction].
    destruct (field data (u "titulo")); [contradiction | ..]; eauto.
  - rewrite Hn.
    destruct (field data (u "hecha")) eqn:Hh.
    + destruct Hsup as [Ht | Hh']; [|contradiction].
      destruct (field data (u "titulo")); [contradiction | ..]; eauto.
    + destruct (field data (u "titulo")); simpl; eauto.
    + destruct (field data (u "titulo")); simpl; eauto.
    + destruct (field data (u "titulo")); simpl; eauto.
    + destruct (field data (u "titulo")); simpl; eauto.
    + destruct (field data (u "titulo")); simpl; eauto.
    + destruct (field data (u "titulo")); simpl; eauto.
Qed.

(** The rows after the UPDATE that [actualizar_tarea] ran. *)
Lemma actualizar_tarea_rows w rq tid d username sets :
  authenticated cfg w rq username ->
  encodable username = true ->
  is_json rq = true ->
  (data <- request_json rq;; build_sets data) = Ok sets -> sets <> [] ->
  bind_update sets tid = Ok tt ->
  tareas (snd (actualizar_tarea cfg w rq tid d)) =
  List.map (fun r => if where_id_and_usuario_id tid (select_user_id username d) r
                     then fold_left assign sets r else r) (tareas d).
Proof.
  intros Hauth Henc Hj Hsets Hne Hb.
  now rewrite (actualizar_tarea_authenticated cfg w rq tid d username sets).
Qed.

(** C6, as the code has it. Behind the guard and for a JSON object: when
    the body supplies neither [titulo] nor [hecha] (absent or null) the
    answer is 400 [Nada para actualizar] and nothing is stored. A supplied
    [hecha] goes through [int()]: when that returns [n], the id is in the
    64-bit range and the new title, if any, has a UTF-8 encoding, the
    targeted row holds 1 for [n] other than zero and 0 for zero, so [true]
    and a non-zero integer are stored as 1, [false] and 0 as 0. When
    [int()] raises, the exception escapes and nothing is stored; when it
    does not and a parameter of the UPDATE does not bind, the exception of
    the binding escapes and nothing is stored. *)
Theorem update_needs_field_and_flags_hecha w rq tid d username data :
  authenticated cfg w rq username ->
  encodable username = true ->
  is_json rq = true ->
  json_body rq = Some (JDict data) ->
  let new_hecha := field data (u "hecha") in
  let d' := snd (actualizar_tarea cfg w rq tid d) in
  let target := where_id_and_usuario_id tid (select_user_id username d) in
  (field data (u "titulo") = JNull -> new_hecha = JNull ->
   actualizar_tarea cfg w rq tid d = (Ok (error_response Msg.nada 400), d))
  /\ (forall n, new_hecha <> JNull -> py_int new_hecha = Ok n ->
      bind_title data = Ok tt -> int64 tid = true ->
      Forall2 (fun r r' => target r = true -> hecha r' = flag n) (tareas d) (tareas d')
      /\ (flag n = 0 <-> n = 0) /\ (flag n = 1 <-> n <> 0))
  /\ (forall b, new_hecha = JBool b ->
      bind_title data = Ok tt -> int64 tid = true ->
      Forall2 (fun r r' => target r = true -> hecha r' = if b then 1 else 0)
              (tareas d) (tareas d'))
  /\ (forall z, new_hecha = JInt z ->
      bind_title data = Ok tt -> int64 tid = true ->
      Forall2 (fun r r' => target r = true -> hecha r' = if z =? 0 then 0 else 1)
              (tareas d) (tareas d'))
  /\ (forall e, new_hecha <> JNull -> py_int new_hecha = Raise e ->
      actualizar_tarea cfg w rq tid d = (Raise e, d))
  /\ (forall n, new_hecha <> JNull -> py_int new_hecha = Ok n ->
      (forall e, bind_title data = Raise e ->
         actualizar_tarea cfg w rq tid d = (Raise e, d))
      /\ (bind_title data = Ok tt -> int64 tid = false ->
          actualizar_tarea cfg w rq tid d = (Raise OverflowError, d))).
Proof.
  intros Hauth Henc Hj Hbody. cbv zeta.
  assert (Hreq : forall k, (data <- request_json rq;; k data) = k (JDict data) :> result (list assignment)).
  { intros k. unfold request_json. now rewrite Hbody. }
  assert (Hstored : forall n, field data (u "hecha") <> JNull ->
            py_int (field data (u "hecha")) = Ok n ->
            bind_title data = Ok tt -> int64 tid = true ->
            Forall2 (fun r r' => where_id_and_usuario_id tid (select_user_id username d) r = true ->
                                 hecha r' = flag n)
                    (tareas d) (tareas (snd (actualizar_tarea cfg w rq tid d)))).
  { intros n Hne Hn Ht Hid. destruct (build_sets_hecha data n Hne Hn) as [sets1 Hsets].
    rewrite (actualizar_tarea_rows w rq tid d username (sets1 ++ [SetHecha (flag n)]));
      try assumption.
    - apply Forall2_map_rows. intros r _ ->. apply assign_last_hecha.
    - now rewrite Hreq.
    - now destruct sets1.
    - apply bind_update_ok. split; [|assumption].
      now rewrite (build_sets_bind_all data _ Hsets). }
  split; [|split; [|split; [|split; [|split]]]].
  - intros Ht Hh. rewrite (actualizar_tarea_guarded cfg w rq tid d username Hauth Henc).
    now rewrite Hj, Hreq, build_sets_fields, Ht, Hh.
  - intros n Hne Hn Ht Hid. split; [now apply Hstored | apply flag_cases].
  - intros b Hb Ht Hid. rewrite Hb in Hstored.
    specialize (Hstored (if b then 1 else 0)).
    destruct b; apply Hstored; try discriminate; try assumption; reflexivity.
  - intros z Hz Ht Hid. rewrite Hz in Hstored.
    apply (Hstored z); [discriminate | reflexivity | assumption | assumption].
  - intros e Hne He. rewrite (actualizar_tarea_guarded cfg w rq tid d username Hauth Henc).
    now rewrite Hj, Hreq, (build_sets_hecha_raises data e Hne He).
  - intros n Hne Hn. destruct (build_sets_hecha data n Hne Hn) as [sets1 Hsets].
    assert (Hnil : sets1 ++ [SetHecha (flag n)] <> []) by now destruct sets1.
    assert (Hs : (data <- request_json rq;; build_sets data)
                 = Ok (sets1 ++ [SetHecha (flag n)])) by now rewrite Hreq.
    pose proof (build_sets_bind_all data _ Hsets) as Hall.
    split.
    + intros e He.
      apply (actualizar_tarea_unbound cfg w rq tid d username _ e Hauth Henc Hj Hs Hnil).
      unfold bind_update. now rewrite Hall, He.
    + intros Ht Hid.
      apply (actualizar_tarea_unbound cfg w rq tid d username _ _ Hauth Henc Hj Hs Hnil).
      unfold bind_update. rewrite Hall, Ht. simpl. now apply bind_int_raise.
Qed.

(** C7 fails on the update path. [crear_tarea] refuses a title that is
    empty once stripped; [actualizar_tarea] strips the new title and stores
    it unchecked. A title of whitespace only, sent by the owner of a task
    (whose id is in the 64-bit range, as every stored id is), is accepted
    with 200 and leaves that task with the empty title. *)
Theorem update_stores_empty_title w rq tid d username data s :
  authenticated cfg w rq username ->
  encodable username = true ->
  int64 tid = true ->
  is_json rq = true ->
  json_body rq = Some (JDict data) ->
  field data (u "titulo") = JStr s -> strip s = [] ->
  field data (u "hecha") = JNull ->
  (exists r, In r (tareas d) /\ tarea_id r = tid
             /\ select_user_id username d = Some (usuario_id r)) ->
  fst (actualizar_tarea cfg w rq tid d) = Ok updated
  /\ ~ titles_nonempty (snd (actualizar_tarea cfg w rq tid d)).
Proof.
  intros Hauth Henc Hid64 Hj Hbody Ht Hs Hh (r & Hr & Hid & Howner).
  assert (Hsets : (data <- request_json rq;; build_sets data) = Ok [SetTitulo []]).
  { unfold request_json. rewrite Hbody. simpl bind.
    rewrite build_sets_fields, Ht, Hh. simpl. now rewrite Hs. }
  assert (Htarget : where_id_and_usuario_id tid (select_user_id username d) r = true)
    by now apply where_id_and_usuario_id_true.
  assert (Hb : bind_update [SetTitulo []] tid = Ok tt)
    by (apply bind_update_ok; now split).
  split.
  - rewrite (actualizar_tarea_authenticated cfg w rq tid d username [SetTitulo []]);
      try assumption; [|discriminate].
    cbv zeta. unfold update_rows. simpl fst.
    destruct (Nat.eqb _ 0) eqn:Hcount; [|reflexivity].
    apply rowcount_zero with (x := r) in Hcount; [congruence | assumption].
  - unfold titles_nonempty.
    rewrite (actualizar_tarea_rows w rq tid d username [SetTitulo []]);
      try assumption; [|discriminate].
    rewrite Forall_forall. intros Hall.
    apply (Hall (fold_left assign [SetTitulo []] r)); [|reflexivity].
    apply in_map_iff. exists r. now rewrite Htarget.
Qed.

End Update.
(** ** Listing and creating tasks *)

Section Ordering.

Lemma insert_desc_perm (r : tarea_row) (rows : list tarea_row) :
  Permutation (insert_desc r rows) (r :: rows).
Proof.
  induction rows as [|r' rows IH]; simpl; [reflexivity|].
  destruct (tarea_id r' <=? tarea_id r); [reflexivity|].
  rewrite IH. apply perm_swap.
Qed.

Lemma order_by_id_desc_perm (rows : list tarea_row) :
  Permutation (order_by_id_desc rows) rows.
Proof.
  induction rows as [|r rows IH]; simpl; [reflexivity|].
  rewrite insert_desc_perm. now constructor.
Qed.

Lemma insert_desc_hd (a r : tarea_row) (rows : list tarea_row) :
  tarea_id r <= tarea_id a ->
  HdRel (fun a b => tarea_id b <= tarea_id a) a rows ->
  HdRel (fun a b => tarea_id b <= tarea_id a) a (insert_desc r rows).
Proof.
  intros Hr Hrows. destruct rows as [|r' rows]; simpl.
  - now constructor.
  - destruct (tarea_id r' <=? tarea_id r); constructor; [assumption|].
    now inversion Hrows.
Qed.

Lemma insert_desc_sorted (r : tarea_row) (rows : list tarea_row) :
  id_descending rows -> id_descending (insert_desc r rows).
Proof.
  unfold id_descending. induction 1 as [|r' rows Hs IH Hhd]; simpl.
  - repeat constructor.
  - destruct (Z.leb_spec (tarea_id r') (tarea_id r)).
    + constructor; [now constructor | now constructor].
    + constructor; [assumption|]. apply insert_desc_hd; [lia | assumption].
Qed.

Lemma order_by_id_desc_sorted (rows : list tarea_row) :
  id_descending (order_by_id_desc rows).
Proof.
  induction rows as [|r rows IH]; simpl.
  - constructor.
  - now apply insert_desc_sorted.
Qed.

Lemma where_usuario_id_true (uid : option Z) (r : tarea_row) :
  where_usuario_id uid r = true <-> uid = Some (usuario_id r).
Proof.
  unfold where_usuario_id. destruct uid as [owner|].
  - rewrite Z.eqb_eq. split; [now intros -> | now intros [= ->]].
  - split; discriminate.
Qed.

Lemma next_rowid_above (seq : Z) (ids : list Z) :
  seq < next_rowid seq ids /\ forall x, In x ids -> x < next_rowid seq ids.
Proof.
  unfold next_rowid. induction ids as [|i ids [IHs IHx]]; simpl.
  - split; [lia | intros x []].
  - split; [lia|]. intros x [<- | Hx]; [lia|]. specialize (IHx x Hx). lia.
Qed.

End Ordering.

Section ListCreate.

Context {P : Platform}.
Variable cfg : config.

(** C8. Behind the guard the listing answers 200 with one item per task
    whose [usuario_id] is the id of the caller, each exactly once, by id
    from the largest to the smallest; an item shows the id, the title, the
    flag and the creation time of its task under the keys [id], [titulo],
    [hecha] and [creada_en]; a caller without tasks gets the empty list. *)
Theorem listar_tareas_own_descending w rq d username :
  authenticated cfg w rq username ->
  encodable username = true ->
  let uid := select_user_id username d in
  let rows := select_tareas uid d in
  listar_tareas cfg w rq d
  = Ok (jsonify
          [(u "ok", JBool true);
           (u "items",
            JList (List.map (fun r => entry (tarea_id r) (titulo r) (hecha r) (creada_en r))
                            rows))] 200)
  /\ (forall r, In r rows <-> In r (tareas d) /\ uid = Some (usuario_id r))
  /\ Permutation rows (filter (where_usuario_id uid) (tareas d))
  /\ id_descending rows
  /\ ((forall r, In r (tareas d) -> uid <> Some (usuario_id r)) -> rows = []).
Proof.
  intros [Hu Hne] Henc. cbv zeta.
  pose proof (order_by_id_desc_perm
                (filter (where_usuario_id (select_user_id username d)) (tareas d))) as Hperm.
  split; [|split; [|split; [|split]]].
  - unfold listar_tareas. rewrite Hu.
    destruct username as [|c s]; [contradiction|]. simpl bind. simpl name_of.
    now rewrite (get_user_id_encodable _ d Henc).
  - intros r. unfold select_tareas. split.
    + intros Hr. apply (Permutation_in _ Hperm) in Hr.
      apply filter_In in Hr as [Hin Hw]. now apply where_usuario_id_true in Hw.
    + intros [Hin Hw]. apply (Permutation_in _ (Permutation_sym Hperm)).
      apply filter_In. split; [assumption | now apply where_usuario_id_true].
  - exact Hperm.
  - apply order_by_id_desc_sorted.
  - intros Hnone. unfold select_tareas.
    replace (filter _ (tareas d)) with (@nil tarea_row); [reflexivity|].
    symmetry. apply filter_nil_iff. intros r Hr. apply not_true_is_false.
    rewrite where_usuario_id_true. now apply Hnone.
Qed.

(** The title [crear_tarea] reads from a JSON object. *)
Lemma crear_tarea_title w rq d username data :
  authenticated cfg w rq username ->
  encodable username = true ->
  is_json rq = true ->
  json_body rq = Some (JDict data) ->
  crear_tarea cfg w rq d =
  match strip_method (por (field data (u "titulo")) (JStr [])) with
  | Raise e => (Raise e, d)
  | Ok [] => (Ok (error_response Msg.titulo_obligatorio 400), d)
  | Ok title =>
      match insert_tarea title (select_user_id username d) (CURRENT_TIMESTAMP w) d with
      | Raise e => (Raise e, d)
      | Ok (tid, d') =>
          (Ok (jsonify [(u "ok", JBool true); (u "id", JInt tid);
                        (u "titulo", JStr title); (u "hecha", JInt 0)] 201), d')
      end
  end.
Proof.
  intros [Hu Hne] Henc Hj Hbody. unfold crear_tarea, request_json.
  rewrite Hu, Hj, Hbody. destruct username as [|c s]; [contradiction|].
  simpl not_username. simpl negb. cbv iota. simpl name_of.
  now rewrite (get_user_id_encodable _ d Henc).
Qed.

Lemma strip_method_nonempty (s : str) :
  strip s <> [] -> strip_method (por (JStr s) (JStr [])) = Ok (strip s).
Proof. intros Hs. destruct s as [|c s]; [now elim Hs | reflexivity]. Qed.

(** C5, as the code has it. Behind the guard and for a JSON object: a
    title that is missing or false as a truth value, or empty once
    stripped, is answered with 400 [titulo es obligatorio] and nothing is
    stored. A title that is a string, not empty once stripped and with a
    UTF-8 encoding, sent by a caller who has a row in [usuarios], is
    stored stripped, in a new row with [hecha = 0] owned by the caller,
    under an id larger than every id of the table, and the answer is 201
    with that id, the stored title and [hecha = 0]. In the cases left the
    request ends in an exception and nothing is stored: a title without an
    encoding raises [UnicodeEncodeError], a caller without a row raises
    [IntegrityError], a title that is true and no string raises
    [AttributeError]. *)
Theorem crear_tarea_requires_title w rq d username data :
  authenticated cfg w rq username ->
  encodable username = true ->
  is_json rq = true ->
  json_body rq = Some (JDict data) ->
  (truthy (field data (u "titulo")) = false ->
   crear_tarea cfg w rq d = (Ok (error_response Msg.titulo_obligatorio 400), d))
  /\ (forall s, field data (u "titulo") = JStr s -> strip s = [] ->
      crear_tarea cfg w rq d = (Ok (error_response Msg.titulo_obligatorio 400), d))
  /\ (forall s uid, field data (u "titulo") = JStr s -> strip s <> [] ->
      encodable (strip s) = true ->
      select_user_id username d = Some uid ->
      let tid := next_rowid (tareas_seq d) (List.map tarea_id (tareas d)) in
      let row := {| tarea_id := tid; titulo := strip s; hecha := 0;
                    usuario_id := uid; creada_en := CURRENT_TIMESTAMP w |} in
      crear_tarea cfg w rq d
      = (Ok (jsonify [(u "ok", JBool true); (u "id", JInt tid);
                      (u "titulo", JStr (strip s)); (u "hecha", JInt 0)] 201),
         {| usuarios := usuarios d; usuarios_seq := usuarios_seq d;
            tareas := tareas d ++ [row]; tareas_seq := tid |})
      /\ (forall r, In r (tareas d) -> tarea_id r < tid))
  /\ (forall s, field data (u "titulo") = JStr s -> strip s <> [] ->
      encodable (strip s) = false ->
      crear_tarea cfg w rq d = (Raise UnicodeEncodeError, d))
  /\ (forall s, field data (u "titulo") = JStr s -> strip s <> [] ->
      encodable (strip s) = true ->
      select_user_id username d = None ->
      crear_tarea cfg w rq d = (Raise IntegrityError, d))
  /\ (truthy (field data (u "titulo")) = true ->
      (forall s, field data (u "titulo") <> JStr s) ->
      crear_tarea cfg w rq d = (Raise AttributeError, d)).
Proof.
  intros Hauth Henc Hj Hbody.
  rewrite (crear_tarea_title w rq d username data Hauth Henc Hj Hbody).
  split; [|split; [|split; [|split; [|split]]]].
  - intros Hfalsy. unfold por. now rewrite Hfalsy.
  - intros s -> Hs. destruct s as [|c s]; simpl; [reflexivity|].
    simpl in Hs. now rewrite Hs.
  - intros s uid -> Hs Hs8 Huid. cbv zeta. split.
    + rewrite (strip_method_nonempty s Hs), Huid. unfold insert_tarea.
      rewrite (bind_text_ok _ Hs8).
      destruct (strip s) eqn:E; [contradiction | reflexivity].
    + intros r Hr. apply next_rowid_above. now apply in_map.
  - intros s -> Hs Hs8. rewrite (strip_method_nonempty s Hs). unfold insert_tarea.
    rewrite (bind_text_raise _ Hs8).
    destruct (strip s) eqn:E; [contradiction | reflexivity].
  - intros s -> Hs Hs8 Huid. rewrite (strip_method_nonempty s Hs), Huid.
    unfold insert_tarea. rewrite (bind_text_ok _ Hs8).
    destruct (strip s) eqn:E; [contradiction | reflexivity].
  - intros Ht Hns. unfold por. rewrite Ht.
    destruct (field data (u "titulo")) as [| | | |s| |]; try reflexivity.
    now elim (Hns s).
Qed.

End ListCreate.

(** ** Accounts and tokens *)

Section Accounts.

Context {P : Platform}.
Variable cfg : config.

Lemma str_eqb_eq (a b : str) : str_eqb a b = true <-> a = b.
Proof.
  unfold str_eqb. destruct (list_eq_dec N.eq_dec a b); split; congruence.
Qed.

Lemma select_usuario_Some username d r :
  select_usuario username d = Some r -> In r (usuarios d) /\ usuario r = username.
Proof.
  unfold select_usuario. intros H. apply find_some in H as [Hin Heq].
  split; [assumption | now apply str_eqb_eq].
Qed.

Lemma select_usuario_None username d :
  select_usuario username d = None <-> ~ registered username d.
Proof.
  unfold select_usuario, registered. split.
  - intros H (r & Hin & Hr). apply (find_none _ _ H) in Hin.
    apply str_eqb_eq in Hr. congruence.
  - intros H. destruct (find _ _) as [r|] eqn:Hf; [|reflexivity].
    exfalso. apply H. exists r. apply find_some in Hf as [Hin Heq].
    split; [assumption | now apply str_eqb_eq].
Qed.

Lemma select_usuario_registered username d :
  registered username d -> exists r, select_usuario username d = Some r.
Proof.
  intros H. destruct (select_usuario username d) as [r|] eqn:E; [eauto|].
  now apply select_usuario_None in E.
Qed.

Lemma unique_check username d :
  existsb (fun r => str_eqb (usuario r) username) (usuarios d) = true
  <-> registered username d.
Proof.
  rewrite existsb_exists. unfold registered.
  split; intros (r & Hin & Hr); exists r; (split; [assumption | now apply str_eqb_eq]).
Qed.




(** What the INSERT answers: a new store, or one of two exceptions, and
    then a new store is the one the statement makes. *)
Lemma insert_usuario_inv username pwhash stamp d d' :
  insert_usuario username pwhash stamp d = Ok d' ->
  encodable username = true /\ encodable pwhash = true
  /\ insert_usuario_row username pwhash stamp d = Ok d'.
Proof.
  unfold insert_usuario, bind_text, encode.
  destruct (encodable username); [|discriminate].
  destruct (encodable pwhash); [|discriminate]. now intros H.
Qed.

Lemma hash_password_encodable (s password : str) :
  encodable password = true ->
  hash_password s password = Ok (generate_password_hash s password).
Proof. unfold hash_password, encode. now intros ->. Qed.

Lemma hash_password_unencodable (s password : str) :
  encodable password = false -> hash_password s password = Raise UnicodeEncodeError.
Proof. unfold hash_password, encode. now intros ->. Qed.

Lemma check_password_encodable (pwhash password : str) :
  encodable password = true ->
  check_password pwhash password = Ok (check_password_hash pwhash password).
Proof. unfold check_password, encode. now intros ->. Qed.

Lemma check_password_unencodable (pwhash password : str) :
  encodable password = false ->
  check_password pwhash password = Raise UnicodeEncodeError.
Proof. unfold check_password, encode. now intros ->. Qed.

(** [create_user] past the test of its two arguments. *)
Lemma create_user_nonempty username password w seen d :
  username <> [] -> password <> [] ->
  create_user username password w seen d =
  match get_user_by_username username seen with
  | Raise e => (Raise e, d)
  | Ok (Some _) => (Ok (false, Msg.ya_existe), d)
  | Ok None =>
      match hash_password (salt w) password with
      | Raise e => (Raise e, d)
      | Ok pwhash =>
          match insert_usuario username pwhash (CURRENT_TIMESTAMP w) d with
          | Ok d' => (Ok (true, Msg.creado), d')
          | Raise IntegrityError => (Ok (false, Msg.ya_existe), d)
          | Raise e => (Raise e, d)
          end
      end
  end.
Proof.
  intros Hu Hp. unfold create_user.
  destruct username; [contradiction|]. now destruct password.
Qed.




(** [login] on a JSON request whose credentials were read. *)
Lemma login_json w rq d username password :
  is_json rq = true -> credentials_of rq = Ok (username, password) ->
  login cfg w rq d =
  match get_user_by_username username d with
  | Raise e => Raise e
  | Ok None => Ok (error_response Msg.credenciales 401)
  | Ok (Some user) =>
      match check_password (password_hash user) password with
      | Raise e => Raise e
      | Ok false => Ok (error_response Msg.credenciales 401)
      | Ok true => Ok (token_response cfg (generate_token cfg (time w) username))
      end
  end.
Proof.
  intros Hj Hcred. unfold login. unfold credentials_of in Hcred. now rewrite Hj, Hcred.
Qed.

Lemma error_response_no_token msg code : ~ has_token (error_response msg code).
Proof. intros H. now apply H. Qed.

(** An answer of [login] that carries a token. *)
Lemma login_answers_token w rq d r :
  login cfg w rq d = Ok r -> has_token r ->
  exists username password user,
    credentials_of rq = Ok (username, password)
    /\ select_usuario username d = Some user
    /\ usuario user = username
    /\ check_password_hash (password_hash user) password = true
    /\ r = token_response cfg (generate_token cfg (time w) username)
    /\ status r = 200.
Proof.
  intros Hlogin Htoken.
  destruct (is_json rq) eqn:Hj.
  - destruct (credentials_of rq) as [[username password]|e] eqn:Hcred.
    + rewrite (login_json w rq d username password Hj Hcred) in Hlogin.
      unfold get_user_by_username, check_password, bind_text, encode in Hlogin.
      destruct (encodable username); [|discriminate]. simpl bind in Hlogin.
      destruct (select_usuario username d) as [user|] eqn:Huser.
      * destruct (encodable password); [|discriminate]. simpl bind in Hlogin.
        destruct (check_password_hash _ _) eqn:Hcheck.
        -- injection Hlogin as <-. exists username, password, user.
           pose proof (select_usuario_Some _ _ _ Huser) as [_ Hname].
           now repeat split.
        -- injection Hlogin as <-. now apply error_response_no_token in Htoken.
      * injection Hlogin as <-. now apply error_response_no_token in Htoken.
    + unfold login in Hlogin. unfold credentials_of in Hcred.
      rewrite Hj, Hcred in Hlogin. discriminate.
  - unfold login in Hlogin. rewrite Hj in Hlogin. injection Hlogin as <-.
    exfalso. now apply Htoken.
Qed.

(** C9, as the code has it. A login sent as JSON whose body gives two
    strings, the name with a UTF-8 encoding: when the name has no row, or
    the password has an encoding and fails the check against the stored
    hash, the answer is 401 [Credenciales inválidas] without a token. For
    every request, an answer carries a token only when the name has a row
    and the password passes the check against its hash, and it is then 200
    with the token signed for that name. A name without an encoding, and a
    password without one for a name that has a row, raise
    [UnicodeEncodeError]; credentials that cannot be read raise too; a
    request that is not sent as JSON is answered 400. *)
Theorem login_requires_valid_credentials w rq d :
  (forall username password,
     is_json rq = true -> credentials_of rq = Ok (username, password) ->
     encodable username = true ->
     (~ registered username d
      \/ exists user, select_usuario username d = Some user
                      /\ encodable password = true
                      /\ check_password_hash (password_hash user) password = false) ->
     login cfg w rq d = Ok (error_response Msg.credenciales 401)
     /\ http_status (login cfg w rq d) = 401
     /\ ~ has_token (error_response Msg.credenciales 401))
  /\ (forall r,
        login cfg w rq d = Ok r -> has_token r ->
        exists username password user,
          credentials_of rq = Ok (username, password)
          /\ select_usuario username d = Some user
          /\ usuario user = username
          /\ check_password_hash (password_hash user) password = true
          /\ r = token_response cfg (generate_token cfg (time w) username)
          /\ status r = 200)
  /\ (forall username password,
        is_json rq = true -> credentials_of rq = Ok (username, password) ->
        (encodable username = false -> login cfg w rq d = Raise UnicodeEncodeError)
        /\ (encodable username = true -> registered username d ->
            encodable password = false ->
            login cfg w rq d = Raise UnicodeEncodeError))
  /\ (forall e, is_json rq = true -> credentials_of rq = Raise e ->
                login cfg w rq d = Raise e)
  /\ (is_json rq = false ->
      login cfg w rq d = Ok (jsonify [(u "error", JStr Msg.requiere_json)] 400)).
Proof.
  split; [|split; [|split; [|split]]].
  - intros username password Hj Hcred Henc Hbad.
    assert (Hlogin : login cfg w rq d = Ok (error_response Msg.credenciales 401)).
    { rewrite (login_json w rq d username password Hj Hcred).
      rewrite (get_user_by_username_encodable _ d Henc).
      destruct Hbad as [Hnone | (user & Huser & Hpenc & Hcheck)].
      - now rewrite (proj2 (select_usuario_None username d) Hnone).
      - now rewrite Huser, (check_password_encodable _ _ Hpenc), Hcheck. }
    rewrite Hlogin. repeat split. apply error_response_no_token.
  - intros r. apply login_answers_token.
  - intros username password Hj Hcred.
    rewrite (login_json w rq d username password Hj Hcred). split.
    + intros Henc. now rewrite (get_user_by_username_unencodable _ d Henc).
    + intros Henc Hreg Hpenc. rewrite (get_user_by_username_encodable _ d Henc).
      destruct (select_usuario_registered username d Hreg) as [user ->].
      now rewrite (check_password_unencodable _ _ Hpenc).
  - intros e Hj Hcred. unfold login. unfold credentials_of in Hcred.
    now rewrite Hj, Hcred.
  - intros Hj. unfold login. now rewrite Hj.
Qed.
(** A token the signer accepts, read within the TTL. *)
Lemma verify_token_fresh now token ts data :
  signer_unsign (SECRET_KEY cfg) token = Some (ts, Some data) ->
  0 <= now - ts <= TOKEN_EXPIRATION_SECONDS cfg ->
  verify_token cfg now token = Ok (claims_get data (u "sub")).
Proof.
  intros Hsigned Hage. unfold verify_token, serializer_loads. rewrite Hsigned.
  destruct (Z.gtb_spec (now - ts) (TOKEN_EXPIRATION_SECONDS cfg)); [lia|].
  destruct (Z.ltb_spec (now - ts) 0); [lia | reflexivity].
Qed.

(** With a signer that reads back whatever it signed, every token of
    [generate_token] resolves to its name within the TTL. *)
Lemma lawful_signer_resolves now t0 username :
  signer_roundtrip ->
  0 <= now - t0 <= TOKEN_EXPIRATION_SECONDS cfg ->
  verify_token cfg now (generate_token cfg t0 username) = Ok (Some username).
Proof.
  intros Hlaw Hage.
  exact (verify_token_fresh now (generate_token cfg t0 username) t0
           [(u "sub", username)] (Hlaw _ _ _) Hage).
Qed.


End Accounts.

(** ** The users of a reachable store *)

Section Users.

Context {P : Platform}.
Variable cfg : config.

Ltac split_cases :=
  repeat match goal with
         | |- context [match ?x with _ => _ end] => destruct x eqn:?
         | |- context [if ?b then _ else _] => destruct b eqn:?
         end.

(** The look-up and the INSERT of [crear_tarea], when they go through. *)
Lemma crear_tarea_insert_inv name title stamp d tid d' :
  (uid <- get_user_id name d;; insert_tarea title uid stamp d) = Ok (tid, d') ->
  encodable name = true /\ encodable title = true
  /\ exists owner,
       select_user_id name d = Some owner
       /\ tid = next_rowid (tareas_seq d) (List.map tarea_id (tareas d))
       /\ d' = {| usuarios := usuarios d; usuarios_seq := usuarios_seq d;
                  tareas := tareas d ++
                            [{| tarea_id := tid; titulo := title; hecha := 0;
                                usuario_id := owner; creada_en := stamp |}];
                  tareas_seq := tid |}.
Proof.
  unfold get_user_id, insert_tarea, insert_tarea_row, bind_text, encode.
  destruct (encodable name); [|discriminate]. simpl.
  destruct (encodable title); [|discriminate]. simpl.
  destruct (select_user_id name d) as [owner|]; [|discriminate].
  intros [= <- <-]. repeat split. now exists owner.
Qed.

Lemma insert_tarea_usuarios name title stamp d tid d' :
  (uid <- get_user_id name d;; insert_tarea title uid stamp d) = Ok (tid, d') ->
  usuarios d' = usuarios d.
Proof.
  intros H. apply crear_tarea_insert_inv in H as (_ & _ & owner & _ & _ & ->).
  reflexivity.
Qed.

Lemma crear_tarea_usuarios w rq d : usuarios (snd (crear_tarea cfg w rq d)) = usuarios d.
Proof.
  unfold crear_tarea.
  split_cases; simpl; try reflexivity; eapply insert_tarea_usuarios; eassumption.
Qed.

(** What the UPDATE and the DELETE answer, when their parameters bind. *)
Lemma update_tareas_inv sets tid uid d n d' :
  update_tareas sets tid uid d = Ok (n, d') ->
  bind_update sets tid = Ok tt /\ (n, d') = update_rows sets tid uid d.
Proof.
  unfold update_tareas. destruct (bind_update sets tid) as [[]|e]; [|discriminate].
  cbv [bind]. intros [= <- <-]. split; reflexivity.
Qed.

Lemma delete_tareas_inv tid uid d n d' :
  delete_tareas tid uid d = Ok (n, d') ->
  int64 tid = true /\ (n, d') = delete_rows tid uid d.
Proof.
  unfold delete_tareas, bind_int. destruct (int64 tid); [|discriminate].
  cbv [bind]. intros [= <- <-]. split; reflexivity.
Qed.

Lemma borrar_tarea_delete_inv name tid d n d' :
  (uid <- get_user_id name d;; delete_tareas tid uid d) = Ok (n, d') ->
  encodable name = true /\ int64 tid = true
  /\ (n, d') = delete_rows tid (select_user_id name d) d.
Proof.
  unfold get_user_id, bind_text, encode.
  destruct (encodable name); [|discriminate]. simpl.
  intros H. apply delete_tareas_inv in H as [Hid H]. now repeat split.
Qed.

Lemma actualizar_tarea_usuarios w rq tid d :
  usuarios (snd (actualizar_tarea cfg w rq tid d)) = usuarios d.
Proof.
  unfold actualizar_tarea. split_cases; try reflexivity;
    match goal with
    | H : update_tareas _ _ _ _ = Ok _ |- _ =>
        apply update_tareas_inv in H as [_ H]; injection H as _ ->; reflexivity
    end.
Qed.

Lemma borrar_tarea_usuarios w rq tid d :
  usuarios (snd (borrar_tarea cfg w rq tid d)) = usuarios d.
Proof.
  unfold borrar_tarea. split_cases; try reflexivity;
    match goal with
    | H : bind _ _ = Ok _ |- _ =>
        apply borrar_tarea_delete_inv in H as (_ & _ & H); injection H as _ ->;
        reflexivity
    end.
Qed.

Ltac failed :=
  left; split;
  [reflexivity
  |let H := fresh in
   intros ? ? H; first [discriminate H | now injection H as <- _]].

(** The store [create_user] leaves: the one it found, after a failure, or
    that one with a row for the name at the end. *)
Lemma create_user_store name password w seen d :
  (snd (create_user name password w seen d) = d
   /\ forall ok msg, fst (create_user name password w seen d) = Ok (ok, msg) ->
                     ok = false)
  \/ exists pwhash,
       create_user name password w seen d
       = (Ok (true, Msg.creado),
          {| usuarios := usuarios d ++
               [{| user_id := next_rowid (usuarios_seq d) (List.map user_id (usuarios d));
                   usuario := name; password_hash := pwhash;
                   creado_en := CURRENT_TIMESTAMP w |}];
             usuarios_seq := next_rowid (usuarios_seq d) (List.map user_id (usuarios d));
             tareas := tareas d; tareas_seq := tareas_seq d |})
       /\ name <> [] /\ password <> [] /\ encodable name = true
       /\ encodable password = true
       /\ pwhash = generate_password_hash (salt w) password
       /\ select_usuario name seen = None
       /\ ~ registered name d.
Proof.
  destruct name as [|c name]; [failed|].
  destruct password as [|c' password]; [failed|].
  rewrite (create_user_nonempty (c :: name) (c' :: password) w seen d) by discriminate.
  destruct (encodable (c :: name)) eqn:Hn8;
    [rewrite (get_user_by_username_encodable _ seen Hn8)
    |rewrite (get_user_by_username_unencodable _ seen Hn8); failed].
  destruct (select_usuario (c :: name) seen) eqn:Hseen; [failed|].
  destruct (encodable (c' :: password)) eqn:Hp8;
    [rewrite (hash_password_encodable _ _ Hp8)
    |rewrite (hash_password_unencodable _ _ Hp8); failed].
  destruct (insert_usuario _ _ _ d) as [d'|e] eqn:Hins; [|destruct e; failed].
  right. apply insert_usuario_inv in Hins as (_ & _ & Hins).
  unfold insert_usuario_row in Hins.
  destruct (existsb _ _) eqn:Hex; [discriminate|]. injection Hins as <-.
  eexists. split; [reflexivity|].
  repeat split; try discriminate.
  intros Hreg. apply unique_check in Hreg. congruence.
Qed.

Lemma create_user_keeps_users name password w seen d username :
  registered username d -> registered username (snd (create_user name password w seen d)).
Proof.
  intros (r & Hin & Hr).
  destruct (create_user_store name password w seen d) as [[-> _] | (pwhash & -> & _)].
  - now exists r.
  - exists r. split; [|assumption]. simpl. apply in_or_app. now left.
Qed.

(** The store [registro] leaves is the store [create_user] leaves. *)
Lemma registro_store w rq seen d :
  snd (registro w rq seen d) = d
  \/ exists name password,
       credentials_of rq = Ok (name, password)
       /\ snd (registro w rq seen d) = snd (create_user name password w seen d).
Proof.
  unfold registro, credentials_of. destruct (negb (is_json rq)); [now left|].
  destruct (read_credentials _) as [[name password]|e]; [|now left].
  right. exists name, password. split; [reflexivity|].
  now destruct (create_user name password w seen d) as [[[ok msg]|e] d'].
Qed.

Lemma registro_keeps_users w rq seen d username :
  registered username d -> registered username (snd (registro w rq seen d)).
Proof.
  intros H. destruct (registro_store w rq seen d) as [-> | (name & password & _ & ->)].
  - assumption.
  - now apply create_user_keeps_users.
Qed.

(** No request removes a user: a name that has a row keeps it in every
    store reached later. *)
Lemma registered_step username d :
  registered username d ->
  (forall w rq, registered username (snd (registro w rq d d)))
  /\ (forall w rq, registered username (snd (crear_tarea cfg w rq d)))
  /\ (forall w rq tid, registered username (snd (actualizar_tarea cfg w rq tid d)))
  /\ (forall w rq tid, registered username (snd (borrar_tarea cfg w rq tid d))).
Proof.
  intros H. repeat split; intros.
  - now apply registro_keeps_users.
  - unfold registered. now rewrite crear_tarea_usuarios.
  - unfold registered. now rewrite actualizar_tarea_usuarios.
  - unfold registered. now rewrite borrar_tarea_usuarios.
Qed.

(** A registered name has an id. *)
Lemma select_user_id_registered username d :
  registered username d <-> exists uid, select_user_id username d = Some uid.
Proof.
  unfold select_user_id. fold (select_usuario username d). split.
  - intros H. destruct (select_usuario username d) eqn:E; [eauto|].
    now apply select_usuario_None in E.
  - intros [uid H]. destruct (select_usuario username d) as [row|] eqn:E;
      [|discriminate].
    apply select_usuario_Some in E. now exists row.
Qed.

End Users.

(** ** Titles on the other paths *)

Section Titles.

Context {P : Platform}.
Variable cfg : config.

(** [crear_tarea] stores no empty title. *)
Lemma crear_tarea_keeps_titles w rq d :
  titles_nonempty d -> titles_nonempty (snd (crear_tarea cfg w rq d)).
Proof.
  intros H. unfold crear_tarea.
  destruct (require_user cfg (time w) rq) as [username|e]; [|exact H].
  destruct (not_username username); [exact H|].
  destruct (negb (is_json rq)); [exact H|].
  destruct (data <- request_json rq;; t <- get data (u "titulo");;
            strip_method (por t (JStr []))) as [[|c title]|e]; try exact H.
  destruct (uid <- get_user_id _ d;; insert_tarea _ uid _ d) as [[tid d']|e] eqn:Hins;
    [|exact H].
  apply crear_tarea_insert_inv in Hins as (_ & _ & owner & _ & _ & ->).
  unfold titles_nonempty. simpl. apply Forall_app. split; [exact H|].
  repeat constructor. discriminate.
Qed.

(** [borrar_tarea] only removes rows. *)
Lemma borrar_tarea_keeps_titles w rq tid d :
  titles_nonempty d -> titles_nonempty (snd (borrar_tarea cfg w rq tid d)).
Proof.
  intros H. unfold borrar_tarea.
  destruct (require_user cfg (time w) rq) as [username|e]; [|exact H].
  destruct (not_username username); [exact H|].
  destruct (uid <- get_user_id _ d;; delete_tareas tid uid d) as [[n d']|e] eqn:Hdel;
    [|exact H].
  apply borrar_tarea_delete_inv in Hdel as (_ & _ & Hdel). injection Hdel as _ ->.
  destruct (Nat.eqb _ 0); unfold titles_nonempty; simpl;
    apply Forall_forall; intros r Hr; apply filter_In in Hr as [Hr _];
    revert r Hr; now apply Forall_forall.
Qed.

(** [registro] leaves the tasks. *)
Lemma registro_tareas w rq seen d : tareas (snd (registro w rq seen d)) = tareas d.
Proof.
  destruct (registro_store w rq seen d) as [-> | (name & password & _ & ->)];
    [reflexivity|].
  now destruct (create_user_store name password w seen d) as [[-> _] | (pwhash & -> & _)].
Qed.

End Titles.

(* ================================================================== *)
(** * Runs on the executable platform *)

Module Runs.
Import Demo.

Lemma ana_authenticated t v :
  0 <= t - 1000 <= 3600 ->
  authenticated default_config (at_time t) (json_request (bearer token_ana) v) ana.
Proof.
  intros Ht. split; [|discriminate].
  change (require_user default_config (time (at_time t)) (json_request (bearer token_ana) v))
    with (verify_token default_config t token_ana).
  assert (Hsigned : signer_unsign (SECRET_KEY default_config) token_ana
                    = Some (1000, Some [(u "sub", ana)])) by reflexivity.
  now rewrite (verify_token_fresh default_config t token_ana 1000 _ Hsigned Ht).
Qed.

Lemma beto_authenticated v :
  authenticated default_config (at_time 1001) (json_request (bearer token_beto) v) beto.
Proof. split; [reflexivity | discriminate]. Qed.

Lemma tarea1_in_db3 : tareas db3 = [tarea1].
Proof. reflexivity. Qed.

(** The guard on a missing header, one part, a wrong scheme, three parts,
    and a scheme in mixed case between runs of blanks. *)
Example guard_on_headers :
  let guard h :=
    require_user default_config 1001
      {| Authorization := h; is_json := false; json_body := None |} in
  guard None = Ok None
  /\ guard (Some (l1 "Bearer")) = Ok None
  /\ guard (Some (l1 "Basic " ++ token_ana)) = Ok None
  /\ guard (Some (l1 "Bearer " ++ token_ana ++ l1 " x")) = Ok None
  /\ guard (Some (l1 "  bEaReR   " ++ token_ana ++ l1 "  ")) = Ok (Some ana).
Proof. repeat apply conj; reflexivity. Qed.

(** The guard on the header ana sends. *)
Lemma bearer_header_resolves :
  require_user default_config 1001 (json_request (bearer token_ana) JNull)
  = verify_token default_config 1001 token_ana.
Proof.
  apply (proj1 (require_user_bearer_only default_config 1001
                  (json_request (bearer token_ana) JNull))).
  exists (l1 "Bearer"). split; [|reflexivity].
  apply split_Parts. reflexivity.
Defined.








(** ana creates her task. *)
Lemma crear_tarea_run :
  crear_tarea default_config (at_time 1001) rq_crear db2
  = (Ok (jsonify [(u "ok", JBool true); (u "id", JInt 1);
                  (u "titulo", JStr (u "comprar pan")); (u "hecha", JInt 0)] 201),
     db3).
Proof.
  destruct (crear_tarea_requires_title default_config (at_time 1001) rq_crear db2 ana
              [(u "titulo", JStr (u " comprar pan "))]
              (ana_authenticated 1001 _ ltac:(lia)) eq_refl eq_refl eq_refl)
    as (_ & _ & Hok & _).
  refine (proj1 (Hok (u " comprar pan ") 1 eq_refl _ eq_refl eq_refl)). discriminate.
Defined.

(** ana creates a task under a title that has no encoding, under the
    title 5, and, before she registered, under a good title: each request
    is authenticated, none has a title that is empty once stripped, and
    none is answered 201. *)
Lemma unencodable_title_raises :
  strip lone <> []
  /\ crear_tarea default_config (at_time 1001) (rq_titulo token_ana (JStr lone)) db3
     = (Raise UnicodeEncodeError, db3)
  /\ http_status (fst (crear_tarea default_config (at_time 1001)
                         (rq_titulo token_ana (JStr lone)) db3)) = 500
  /\ crear_tarea default_config (at_time 1001) (rq_titulo token_ana (JInt 5)) db3
     = (Raise AttributeError, db3)
  /\ crear_tarea default_config (at_time 1001) rq_crear init_db
     = (Raise IntegrityError, init_db).
Proof. repeat apply conj; try reflexivity. discriminate. Qed.

(** [hecha: true] on the task of ana. *)
Lemma hecha_true_stored_as_one :
  Forall2 (fun r r' => where_id_and_usuario_id 1 (select_user_id ana db3) r = true ->
                       hecha r' = 1)
          (tareas db3) (tareas db4).
Proof.
  destruct (update_needs_field_and_flags_hecha default_config (at_time 1002)
              (rq_hecha token_ana (JBool true)) 1 db3 ana [(u "hecha", JBool true)]
              (ana_authenticated 1002 _ ltac:(lia)) eq_refl eq_refl eq_refl)
    as (_ & _ & Hbool & _).
  exact (Hbool true eq_refl eq_refl eq_refl).
Defined.

(** [hecha: 0.5] and [hecha: [1]] on the task of ana, once it is done: the
    first is accepted and stores 0, the second raises. A body that is a
    JSON array supplies neither field and raises as well. On the task
    before it is done, [hecha: true] beside a title that has no encoding
    raises and stores nothing. *)
Lemma hecha_half_stored_as_zero :
  truthy half = true
  /\ List.map hecha (tareas db4) = [1]
  /\ fst (actualizar_tarea default_config (at_time 1003) (rq_hecha token_ana half) 1 db4)
     = Ok updated
  /\ List.map hecha
       (tareas (snd (actualizar_tarea default_config (at_time 1003)
                       (rq_hecha token_ana half) 1 db4)))
     = [0]
  /\ actualizar_tarea default_config (at_time 1003)
       (rq_hecha token_ana (JList [JInt 1])) 1 db4
     = (Raise TypeError, db4)
  /\ actualizar_tarea default_config (at_time 1003)
       (json_request (bearer token_ana) (JList [])) 1 db4
     = (Raise AttributeError, db4)
  /\ List.map hecha (tareas db3) = [0]
  /\ actualizar_tarea default_config (at_time 1002)
       (json_request (bearer token_ana)
          (JDict [(u "titulo", JStr lone); (u "hecha", JBool true)])) 1 db3
     = (Raise UnicodeEncodeError, db3).
Proof. repeat apply conj; reflexivity. Qed.

(** A title of three spaces on the task of ana. *)
Lemma empty_title_reachable :
  exists d, reachable default_config d /\ ~ titles_nonempty d.
Proof.
  exists (snd (actualizar_tarea default_config (at_time 1002)
                 (rq_titulo token_ana (JStr (u "   "))) 1 db3)).
  split.
  - apply reach_actualizar. apply reach_crear. apply reach_registro.
    apply reach_registro. apply reach_init.
  - refine (proj2 (update_stores_empty_title default_config (at_time 1002)
                     (rq_titulo token_ana (JStr (u "   "))) 1 db3 ana
                     [(u "titulo", JStr (u "   "))] (u "   ")
                     (ana_authenticated 1002 _ ltac:(lia))
                     eq_refl eq_refl eq_refl eq_refl eq_refl eq_refl eq_refl _)).
    exists tarea1. rewrite tarea1_in_db3. repeat split. now left.
Defined.

(** The tasks of the store in which ana has two and beto one. *)
Lemma tareas_db6 :
  List.map (fun r => (tarea_id r, usuario_id r)) (tareas db6) = [(1, 1); (2, 2); (3, 1)].
Proof. reflexivity. Qed.

(** The listing of ana, who has the tasks 1 and 3, and of beto, who has
    the task 2 between them; and the listing of beto before he had one. *)
Lemma listar_tareas_run :
  listar_tareas default_config (at_time 1005) (json_request (bearer token_ana) JNull) db6
  = Ok (jsonify
          [(u "ok", JBool true);
           (u "items",
            JList [JDict [(u "id", JInt 3); (u "titulo", JStr (u "regar"));
                          (u "hecha", JInt 0);
                          (u "creada_en", JStr (u "2024-01-01 00:00:00"))];
                   JDict [(u "id", JInt 1); (u "titulo", JStr (u "comprar pan"));
                          (u "hecha", JInt 0);
                          (u "creada_en", JStr (u "2024-01-01 00:00:00"))]])] 200)
  /\ listar_tareas default_config (at_time 1001) (json_request (bearer token_beto) JNull) db6
     = Ok (jsonify
             [(u "ok", JBool true);
              (u "items",
               JList [JDict [(u "id", JInt 2); (u "titulo", JStr (u "leer"));
                             (u "hecha", JInt 0);
                             (u "creada_en", JStr (u "2024-01-01 00:00:00"))]])] 200)
  /\ listar_tareas default_config (at_time 1001) (json_request (bearer token_beto) JNull) db3
     = Ok (jsonify [(u "ok", JBool true); (u "items", JList [])] 200).
Proof.
  split; [|split].
  - exact (proj1 (listar_tareas_own_descending default_config (at_time 1005) _ db6 ana
                    (ana_authenticated 1005 _ ltac:(lia)) eq_refl)).
  - exact (proj1 (listar_tareas_own_descending default_config (at_time 1001) _ db6 beto
                    (beto_authenticated _) eq_refl)).
  - exact (proj1 (listar_tareas_own_descending default_config (at_time 1001) _ db3 beto
                    (beto_authenticated _) eq_refl)).
Defined.

(** ana with a wrong password, and with the right one. *)
Lemma login_run :
  login default_config (at_time 1000) (json_request None (credentials ana (u "4321"))) db2
  = Ok (error_response Msg.credenciales 401)
  /\ login default_config (at_time 1000) (json_request None (credentials ana (u "1234"))) db2
     = Ok (token_response default_config token_ana).
Proof.
  split; [|reflexivity].
  refine (proj1 (proj1 (login_requires_valid_credentials default_config (at_time 1000)
                          (json_request None (credentials ana (u "4321"))) db2)
                   ana (u "4321") eq_refl eq_refl eq_refl _)).
  right. exists (hd {| user_id := 0; usuario := []; password_hash := []; creado_en := [] |}
                    (usuarios db2)).
  repeat split.
Defined.

(** A login under a name that has no encoding, which no user has, and
    under the name 5: neither is answered 401. *)
Lemma unencodable_name_raises :
  ~ registered lone db2
  /\ login default_config (at_time 1000) (json_request None (credentials lone (u "x"))) db2
     = Raise UnicodeEncodeError
  /\ http_status (login default_config (at_time 1000)
                    (json_request None (credentials lone (u "x"))) db2) = 500
  /\ login default_config (at_time 1000)
       (json_request None (JDict [(u "usuario", JInt 5); (u "contrasena", JStr (u "x"))])) db2
     = Raise AttributeError.
Proof.
  repeat apply conj; try reflexivity.
  apply (select_usuario_None lone db2). reflexivity.
Qed.

(** ana updates [hecha] only: the title stays. *)
Lemma update_hecha_keeps_title :
  Forall2 (fun r r' => titulo r' = titulo r) (tareas db3) (tareas db4).
Proof.
  destruct (update_keeps_other_field default_config (at_time 1002)
              (rq_hecha token_ana (JBool true)) 1 db3 ana [(u "hecha", JBool true)]
              (ana_authenticated 1002 _ ltac:(lia)) eq_refl eq_refl)
    as (_ & _ & Htitle & _).
  exact (Htitle eq_refl).
Defined.

End Runs.
(* ================================================================== *)
(** * Further statements on the handlers *)

(** ** [strip] *)

Section StripFacts.

Lemma lstrip_clean (s : str) : clean_head (lstrip s).
Proof.
  induction s as [|c s IH]; simpl; [exact I|].
  destruct (is_space c) eqn:Hc; [exact IH | exact Hc].
Qed.

Lemma lstrip_of_clean (s : str) : clean_head s -> lstrip s = s.
Proof. destruct s as [|c s]; simpl; [reflexivity|]. now intros ->. Qed.

Lemma lstrip_suffix (s : str) : exists p, s = p ++ lstrip s.
Proof.
  induction s as [|c s [p IH]]; simpl.
  - now exists [].
  - destruct (is_space c).
    + exists (c :: p). simpl. now f_equal.
    + now exists [].
Qed.

Lemma rstrip_prefix (t : str) : exists q, t = rstrip t ++ q.
Proof.
  destruct (lstrip_suffix (rev t)) as [p Hp]. exists (rev p). unfold rstrip.
  rewrite <- rev_app_distr, <- Hp. now rewrite rev_involutive.
Qed.

Lemma rstrip_clean (t : str) : clean_head t -> clean_head (rstrip t).
Proof.
  intros Ht. destruct (rstrip_prefix t) as [q Hq].
  destruct (rstrip t) as [|c x]; [exact I|]. rewrite Hq in Ht. exact Ht.
Qed.

Lemma rstrip_idem (t : str) : rstrip (rstrip t) = rstrip t.
Proof.
  unfold rstrip. rewrite rev_involutive.
  now rewrite (lstrip_of_clean _ (lstrip_clean (rev t))).
Qed.

(** Stripping a stripped text changes nothing. *)
Lemma strip_idem (s : str) : strip (strip s) = strip s.
Proof.
  unfold strip at 1.
  rewrite (lstrip_of_clean (strip s)).
  - unfold strip. apply rstrip_idem.
  - unfold strip. apply rstrip_clean, lstrip_clean.
Qed.

Lemma lstrip_blank (s : str) : forallb is_space s = true -> lstrip s = [].
Proof.
  induction s as [|c s IH]; simpl; [reflexivity|].
  intros H. apply andb_prop in H as [Hc Hs]. rewrite Hc. auto.
Qed.

(** A text of whitespace only strips to the empty text. *)
Lemma strip_blank (s : str) : forallb is_space s = true -> strip s = [].
Proof. intros H. unfold strip. now rewrite (lstrip_blank s H). Qed.

Lemma strip_method_stripped (v : json) (t : str) :
  strip_method v = Ok t -> strip t = t.
Proof.
  destruct v; simpl; try discriminate. intros [= <-]. apply strip_idem.
Qed.

Lemma read_credentials_stripped (data : json) (name password : str) :
  read_credentials data = Ok (name, password) ->
  strip name = name /\ strip password = password.
Proof.
  unfold read_credentials. destruct data; simpl; try discriminate.
  destruct (strip_method (por _ (JStr []))) as [n|] eqn:Hn; simpl; [|discriminate].
  destruct (strip_method (por (por _ _) (JStr []))) as [p|] eqn:Hp; simpl; [|discriminate].
  intros [= <- <-]. split; eapply strip_method_stripped; eassumption.
Qed.

End StripFacts.

(** ** The cases of the handlers that write *)

Section Cases.

Context {P : Platform}.
Variable cfg : config.

Lemma strip_method_inv (v : json) (t : str) :
  strip_method v = Ok t -> exists s, v = JStr s /\ t = strip s.
Proof. destruct v; simpl; try discriminate. intros [= <-]. eauto. Qed.

(** [registro] either fails and leaves the store, or appends the row of a
    name the store did not hold. *)
Lemma registro_cases w rq seen d :
  (snd (registro w rq seen d) = d /\ succeeded (fst (registro w rq seen d)) = false)
  \/ exists name password,
       is_json rq = true /\ credentials_of rq = Ok (name, password)
       /\ name <> [] /\ password <> [] /\ strip name = name
       /\ encodable name = true /\ encodable password = true
       /\ select_usuario name seen = None /\ ~ registered name d
       /\ registro w rq seen d =
          (Ok (jsonify [(u "ok", JBool true); (u "mensaje", JStr Msg.creado)] 201),
           {| usuarios := usuarios d ++
                [{| user_id := next_rowid (usuarios_seq d) (List.map user_id (usuarios d));
                    usuario := name;
                    password_hash := generate_password_hash (salt w) password;
                    creado_en := CURRENT_TIMESTAMP w |}];
              usuarios_seq := next_rowid (usuarios_seq d) (List.map user_id (usuarios d));
              tareas := tareas d; tareas_seq := tareas_seq d |}).
Proof.
  unfold registro, credentials_of.
  destruct (is_json rq) eqn:Hj; simpl negb; cbv iota; [|now left].
  destruct (read_credentials _) as [[name password]|e] eqn:Hc; [|now left].
  destruct (read_credentials_stripped _ _ _ Hc) as [Hname _].
  destruct (create_user_store name password w seen d)
    as [[Hsnd Hfst] | (pwhash & Heq & Hn & Hp & Hn8 & Hp8 & -> & Hseen & Hfresh)].
  - left. destruct (create_user name password w seen d) as [[[ok msg]|e] d'];
      simpl in Hsnd, Hfst; subst d'; [|now split].
    rewrite (Hfst ok msg eq_refl). now split.
  - right. rewrite Heq. exists name, password. now repeat split.
Qed.

(** [crear_tarea] either fails and leaves the store, or appends the task
    of a registered caller under a stripped, non-empty title. *)
Lemma crear_tarea_cases w rq d :
  (snd (crear_tarea cfg w rq d) = d /\ succeeded (fst (crear_tarea cfg w rq d)) = false)
  \/ exists username title uid,
       authenticated cfg w rq username
       /\ encodable username = true
       /\ title <> [] /\ strip title = title /\ encodable title = true
       /\ select_user_id username d = Some uid
       /\ crear_tarea cfg w rq d =
          (Ok (jsonify [(u "ok", JBool true);
                        (u "id", JInt (next_rowid (tareas_seq d) (List.map tarea_id (tareas d))));
                        (u "titulo", JStr title); (u "hecha", JInt 0)] 201),
           {| usuarios := usuarios d; usuarios_seq := usuarios_seq d;
              tareas := tareas d ++
                [{| tarea_id := next_rowid (tareas_seq d) (List.map tarea_id (tareas d));
                    titulo := title; hecha := 0; usuario_id := uid;
                    creada_en := CURRENT_TIMESTAMP w |}];
              tareas_seq := next_rowid (tareas_seq d) (List.map tarea_id (tareas d)) |}).
Proof.
  unfold crear_tarea.
  destruct (require_user cfg (time w) rq) as [[[|c name]|]|e] eqn:Hu; try (now left).
  simpl not_username. cbv iota.
  destruct (is_json rq) eqn:Hj; simpl negb; cbv iota; [|now left].
  destruct (data <- request_json rq;; t <- get data (u "titulo");;
            strip_method (por t (JStr []))) as [title|e] eqn:Ht; [|now left].
  assert (Hstripped : strip title = title).
  { unfold bind in Ht. destruct (request_json rq); [|discriminate].
    destruct (get _ _); [|discriminate]. eapply strip_method_stripped; eassumption. }
  destruct title as [|t0 title]; [now left|].
  simpl name_of.
  destruct (uid <- get_user_id (c :: name) d;; insert_tarea (t0 :: title) uid _ d)
    as [[tid d']|e] eqn:Hins; [|now left].
  apply crear_tarea_insert_inv in Hins as (Hn8 & Ht8 & uid & Hid & -> & ->).
  right. exists (c :: name), (t0 :: title), uid.
  repeat split; try discriminate; assumption.
Qed.

Lemma build_sets_clean (data : json) (sets : list assignment) :
  build_sets data = Ok sets -> Forall clean_assignment sets.
Proof.
  destruct data; simpl; try discriminate.
  rewrite build_sets_fields. cbv zeta. intros H.
  assert (H1 : Forall clean_assignment
                 match field d (u "titulo") with
                 | JNull => []
                 | _ => [SetTitulo (strip (py_str (field d (u "titulo"))))]
                 end).
  { destruct (field d (u "titulo")); repeat constructor; apply strip_idem. }
  destruct (field d (u "hecha")) eqn:Hh;
    try (injection H as <-; exact H1);
    (destruct (py_int _) as [n|]; simpl in H; [|discriminate]; injection H as <-;
     apply Forall_app; split; [exact H1|]; constructor; [|constructor];
     unfold clean_assignment, flag; destruct (n =? 0); auto).
Qed.

(** [actualizar_tarea] either fails and leaves the store, or rewrites the
    rows the UPDATE matched, of which there is one at least. *)
Lemma actualizar_tarea_cases w rq tid d :
  (snd (actualizar_tarea cfg w rq tid d) = d
   /\ succeeded (fst (actualizar_tarea cfg w rq tid d)) = false)
  \/ exists username sets,
       authenticated cfg w rq username /\ encodable username = true
       /\ is_json rq = true
       /\ (data <- request_json rq;; build_sets data) = Ok sets /\ sets <> []
       /\ bind_update sets tid = Ok tt
       /\ Forall clean_assignment sets
       /\ (exists r, In r (tareas d)
                     /\ where_id_and_usuario_id tid (select_user_id username d) r = true)
       /\ actualizar_tarea cfg w rq tid d =
          (Ok updated,
           with_tareas d
             (List.map (updated_row sets tid (select_user_id username d)) (tareas d))).
Proof.
  destruct (require_user cfg (time w) rq) as [[[|c name]|]|e] eqn:Hu;
    try (left; unfold actualizar_tarea; rewrite Hu; now split).
  destruct (is_json rq) eqn:Hj;
    [|left; unfold actualizar_tarea; rewrite Hu, Hj; now split].
  destruct (encodable (c :: name)) eqn:Henc;
    [|left; unfold actualizar_tarea; rewrite Hu, Hj; simpl;
      rewrite (get_user_id_unencodable _ d Henc); now split].
  assert (Hauth : authenticated cfg w rq (c :: name)) by (split; [assumption | discriminate]).
  destruct (data <- request_json rq;; build_sets data) as [sets|e] eqn:Hs;
    [|left; rewrite (actualizar_tarea_guarded cfg w rq tid d _ Hauth Henc), Hj, Hs;
      now split].
  destruct sets as [|a sets];
    [left; rewrite (actualizar_tarea_guarded cfg w rq tid d _ Hauth Henc), Hj, Hs;
     now split|].
  destruct (bind_update (a :: sets) tid) as [[]|e] eqn:Hb;
    [|left;
      rewrite (actualizar_tarea_unbound cfg w rq tid d _ (a :: sets) e Hauth Henc Hj Hs)
        by (discriminate || assumption);
      now split].
  rewrite (actualizar_tarea_authenticated cfg w rq tid d (c :: name) (a :: sets)
             Hauth Henc Hj Hs) by (discriminate || assumption).
  cbv zeta. unfold update_rows.
  destruct (Nat.eqb _ 0) eqn:Hcount.
  - left. simpl. split; [|reflexivity].
    pose proof (proj1 (rowcount_zero _ _) Hcount) as Hno.
    now rewrite map_unmatched, with_tareas_same.
  - right. exists (c :: name), (a :: sets). repeat split; try assumption; try discriminate.
    + unfold bind in Hs. destruct (request_json rq) as [body|]; [|discriminate].
      now apply build_sets_clean with body.
    + destruct (filter _ (tareas d)) as [|r rows] eqn:Hf; [discriminate|].
      exists r. apply filter_In. rewrite Hf. now left.
Qed.

(** [borrar_tarea] either fails and leaves the store, or removes the rows
    the DELETE matched, of which there is one at least. *)
Lemma borrar_tarea_cases w rq tid d :
  (snd (borrar_tarea cfg w rq tid d) = d
   /\ succeeded (fst (borrar_tarea cfg w rq tid d)) = false)
  \/ exists username,
       authenticated cfg w rq username /\ encodable username = true
       /\ int64 tid = true
       /\ (exists r, In r (tareas d)
                     /\ where_id_and_usuario_id tid (select_user_id username d) r = true)
       /\ borrar_tarea cfg w rq tid d =
          (Ok updated,
           with_tareas d
             (filter (fun r => negb (where_id_and_usuario_id tid (select_user_id username d) r))
                     (tareas d))).
Proof.
  destruct (require_user cfg (time w) rq) as [[[|c name]|]|e] eqn:Hu;
    try (left; unfold borrar_tarea; rewrite Hu; now split).
  destruct (encodable (c :: name)) eqn:Henc;
    [|left; unfold borrar_tarea; rewrite Hu; simpl;
      rewrite (get_user_id_unencodable _ d Henc); now split].
  assert (Hauth : authenticated cfg w rq (c :: name)) by (split; [assumption | discriminate]).
  destruct (int64 tid) eqn:Hid;
    [|left; rewrite (borrar_tarea_out_of_range cfg w rq tid d _ Hauth Henc Hid);
      now split].
  rewrite (borrar_tarea_authenticated cfg w rq tid d (c :: name) Hauth Henc Hid).
  cbv zeta. unfold delete_rows.
  destruct (Nat.eqb _ 0) eqn:Hcount.
  - left. simpl. split; [|reflexivity].
    pose proof (proj1 (rowcount_zero _ _) Hcount) as Hno.
    now rewrite filter_negb_all, with_tareas_same.
  - right. exists (c :: name). repeat split; try assumption; try discriminate.
    destruct (filter _ (tareas d)) as [|r rows] eqn:Hf; [discriminate|].
    exists r. apply filter_In. rewrite Hf. now left.
Qed.

End Cases.

(** ** What every reachable store satisfies *)

Section Consistency.

Context {P : Platform}.
Variable cfg : config.

Lemma NoDup_snoc {A} (l : list A) (x : A) : NoDup l -> ~ In x l -> NoDup (l ++ [x]).
Proof.
  induction 1 as [|a l Ha Hl IH]; simpl; intros Hx.
  - repeat constructor. intros [].
  - constructor.
    + intros Hin. apply in_app_or in Hin as [Hin | [<- | []]]; auto.
    + apply IH. auto.
Qed.

Lemma NoDup_map_filter {A B} (f : A -> B) (g : A -> bool) (l : list A) :
  NoDup (List.map f l) -> NoDup (List.map f (filter g l)).
Proof.
  induction l as [|a l IH]; simpl; intros H; [constructor|].
  inversion H as [|x xs Hx Hxs]; subst.
  destruct (g a); simpl; [|auto]. constructor; [|auto].
  intros Hin. apply Hx. apply in_map_iff in Hin as (y & Hy & Hin).
  apply filter_In in Hin as [Hin _]. rewrite <- Hy. now apply in_map.
Qed.

Lemma assign_clean_flag (sets : list assignment) (r : tarea_row) :
  Forall clean_assignment sets -> hecha r = 0 \/ hecha r = 1 ->
  hecha (fold_left assign sets r) = 0 \/ hecha (fold_left assign sets r) = 1.
Proof.
  intros H. revert r. induction H as [|a sets Ha _ IH]; intros r Hr; simpl; [exact Hr|].
  apply IH. destruct a; simpl; [exact Hr | exact Ha].
Qed.

Lemma assign_clean_title (sets : list assignment) (r : tarea_row) :
  Forall clean_assignment sets -> strip (titulo r) = titulo r ->
  strip (titulo (fold_left assign sets r)) = titulo (fold_left assign sets r).
Proof.
  intros H. revert r. induction H as [|a sets Ha _ IH]; intros r Hr; simpl; [exact Hr|].
  apply IH. destruct a; simpl; [exact Ha | exact Hr].
Qed.

Lemma updated_row_same_task sets tid uid r : same_task r (updated_row sets tid uid r).
Proof.
  unfold updated_row. destruct (where_id_and_usuario_id tid uid r).
  - apply assign_same_task.
  - now repeat split.
Qed.

Lemma map_updated_row_ids sets tid uid rows :
  List.map tarea_id (List.map (updated_row sets tid uid) rows) = List.map tarea_id rows.
Proof.
  rewrite map_map. apply map_ext. intros r.
  now destruct (updated_row_same_task sets tid uid r) as (H & _).
Qed.

Lemma consistent_init : consistent init_db.
Proof. constructor; simpl; try constructor; lia. Qed.

Lemma select_user_id_Some username d uid :
  select_user_id username d = Some uid ->
  exists x, In x (usuarios d) /\ usuario x = username /\ user_id x = uid.
Proof.
  unfold select_user_id. fold (select_usuario username d).
  destruct (select_usuario username d) as [x|] eqn:E; [|discriminate].
  intros [= <-]. apply select_usuario_Some in E as [Hin Hname]. eauto.
Qed.

Lemma consistent_registro w rq seen d :
  consistent d -> consistent (snd (registro w rq seen d)).
Proof.
  intros H.
  destruct (registro_cases w rq seen d)
    as [[-> _] | (name & password & _ & _ & Hname & _ & Hclean & Hn8 & _ & _ & Hfresh & ->)];
    [exact H|].
  destruct H as [[Hu Ht] Hnames Hcl Henc Hids Hissued Htids Htissued Hflags Howners Htitles].
  destruct (next_rowid_above (usuarios_seq d) (List.map user_id (usuarios d))) as [Hseq Habove].
  constructor; simpl; try assumption.
  - split; [lia | assumption].
  - rewrite map_app. apply NoDup_snoc; [assumption|]. simpl.
    intros Hin. apply Hfresh. apply in_map_iff in Hin as (x & Hx & Hin). now exists x.
  - apply Forall_app. split; [assumption|]. now repeat constructor.
  - apply Forall_app. split; [assumption|]. now repeat constructor.
  - rewrite map_app. apply NoDup_snoc; [assumption|]. simpl.
    intros Hin. specialize (Habove _ Hin). lia.
  - apply Forall_app. split.
    + eapply Forall_impl; [|exact Hissued]. simpl. intros x Hx. lia.
    + repeat constructor; simpl; lia.
  - eapply Forall_impl; [|exact Howners]. simpl. intros r (x & Hx & Hid).
    exists x. split; [|assumption]. apply in_or_app. now left.
Qed.

Lemma consistent_crear w rq d :
  consistent d -> consistent (snd (crear_tarea cfg w rq d)).
Proof.
  intros H.
  destruct (crear_tarea_cases cfg w rq d)
    as [[-> _] | (username & title & uid & _ & _ & Htitle & Hclean & _ & Hid & ->)];
    [exact H|].
  destruct H as [[Hu Ht] Hnames Hcl Henc Hids Hissued Htids Htissued Hflags Howners Htitles].
  destruct (next_rowid_above (tareas_seq d) (List.map tarea_id (tareas d))) as [Hseq Habove].
  constructor; simpl; try assumption.
  - split; [assumption | lia].
  - rewrite map_app. apply NoDup_snoc; [assumption|]. simpl.
    intros Hin. specialize (Habove _ Hin). lia.
  - apply Forall_app. split.
    + eapply Forall_impl; [|exact Htissued]. simpl. intros x Hx. lia.
    + repeat constructor; simpl; lia.
  - apply Forall_app. split; [assumption|]. constructor; [now left | constructor].
  - apply Forall_app. split; [assumption|]. constructor; [|constructor]. simpl.
    destruct (select_user_id_Some _ _ _ Hid) as (x & Hx & _ & Hxid). eauto.
  - apply Forall_app. split; [assumption|]. constructor; [assumption | constructor].
Qed.

Lemma consistent_actualizar w rq tid d :
  consistent d -> consistent (snd (actualizar_tarea cfg w rq tid d)).
Proof.
  intros H.
  destruct (actualizar_tarea_cases cfg w rq tid d)
    as [[-> _] | (username & sets & _ & _ & _ & _ & _ & _ & Hclean & _ & ->)];
    [exact H|].
  destruct H as [[Hu Ht] Hnames Hcl Henc Hids Hissued Htids Htissued Hflags Howners Htitles].
  constructor; simpl; try assumption; try (now split).
  - now rewrite map_updated_row_ids.
  - apply Forall_map. eapply Forall_impl; [|exact Htissued]. simpl. intros r Hr.
    destruct (updated_row_same_task sets tid (select_user_id username d) r) as (-> & _).
    exact Hr.
  - apply Forall_map. eapply Forall_impl; [|exact Hflags]. simpl. intros r Hr.
    unfold updated_row. destruct (where_id_and_usuario_id _ _ r); [|exact Hr].
    now apply assign_clean_flag.
  - apply Forall_map. eapply Forall_impl; [|exact Howners]. simpl. intros r Hr.
    destruct (updated_row_same_task sets tid (select_user_id username d) r) as (_ & -> & _).
    exact Hr.
  - apply Forall_map. eapply Forall_impl; [|exact Htitles]. simpl. intros r Hr.
    unfold updated_row. destruct (where_id_and_usuario_id _ _ r); [|exact Hr].
    now apply assign_clean_title.
Qed.

Lemma Forall_filter_keep {A} (Q : A -> Prop) (g : A -> bool) (l : list A) :
  Forall Q l -> Forall Q (filter g l).
Proof.
  intros H. apply Forall_forall. intros x Hx. apply filter_In in Hx as [Hx _].
  revert x Hx. now apply Forall_forall.
Qed.

Lemma consistent_borrar w rq tid d :
  consistent d -> consistent (snd (borrar_tarea cfg w rq tid d)).
Proof.
  intros H.
  destruct (borrar_tarea_cases cfg w rq tid d)
    as [[-> _] | (username & _ & _ & _ & _ & ->)];
    [exact H|].
  destruct H as [[Hu Ht] Hnames Hcl Henc Hids Hissued Htids Htissued Hflags Howners Htitles].
  constructor; simpl; try assumption; try (now split);
    try (now apply Forall_filter_keep).
  now apply NoDup_map_filter.
Qed.

(** Every store the service reaches is consistent. *)
Lemma reachable_consistent d : reachable cfg d -> consistent d.
Proof.
  induction 1 as [|w rq d _ IH|w rq d _ IH|w rq tid d _ IH|w rq tid d _ IH].
  - apply consistent_init.
  - now apply consistent_registro.
  - now apply consistent_crear.
  - now apply consistent_actualizar.
  - now apply consistent_borrar.
Qed.

End Consistency.

(** ** Failed requests, accounts and tokens *)

Section Sessions.

Context {P : Platform}.
Variable cfg : config.

(** X1. A request to [registro], [crear_tarea], [actualizar_tarea] or
    [borrar_tarea] that is not answered 200 or 201, whether it is refused
    or ends in an exception, leaves the store exactly as it found it. *)
Theorem failed_request_leaves_store w rq seen tid d :
  (succeeded (fst (registro w rq seen d)) = false -> snd (registro w rq seen d) = d)
  /\ (succeeded (fst (crear_tarea cfg w rq d)) = false ->
      snd (crear_tarea cfg w rq d) = d)
  /\ (succeeded (fst (actualizar_tarea cfg w rq tid d)) = false ->
      snd (actualizar_tarea cfg w rq tid d) = d)
  /\ (succeeded (fst (borrar_tarea cfg w rq tid d)) = false ->
      snd (borrar_tarea cfg w rq tid d) = d).
Proof.
  repeat split; intros Hfail.
  - destruct (registro_cases w rq seen d)
      as [[H _] | (name & password & _ & _ & _ & _ & _ & _ & _ & _ & _ & H)];
      [exact H|].
    rewrite H in Hfail. discriminate.
  - destruct (crear_tarea_cases cfg w rq d)
      as [[H _] | (username & title & uid & _ & _ & _ & _ & _ & _ & H)]; [exact H|].
    rewrite H in Hfail. discriminate.
  - destruct (actualizar_tarea_cases cfg w rq tid d)
      as [[H _] | (username & sets & _ & _ & _ & _ & _ & _ & _ & _ & H)]; [exact H|].
    rewrite H in Hfail. discriminate.
  - destruct (borrar_tarea_cases cfg w rq tid d)
      as [[H _] | (username & _ & _ & _ & _ & H)]; [exact H|].
    rewrite H in Hfail. discriminate.
Qed.

Lemma find_snoc {A} (f : A -> bool) (l : list A) (x : A) :
  find f (l ++ [x]) =
  match find f l with
  | Some y => Some y
  | None => if f x then Some x else None
  end.
Proof.
  induction l as [|a l IH]; simpl; [reflexivity|]. now destruct (f a).
Qed.

Lemma str_eqb_refl (a : str) : str_eqb a a = true.
Proof. now apply str_eqb_eq. Qed.

Lemma str_eqb_neq (a b : str) : a <> b -> str_eqb a b = false.
Proof.
  intros H. destruct (str_eqb a b) eqn:E; [|reflexivity].
  now apply str_eqb_eq in E.
Qed.

(** A successful [create_user] appended the row of a name the store did
    not hold; the name and the password have an encoding. *)
Lemma create_user_created name password w seen d msg d' :
  create_user name password w seen d = (Ok (true, msg), d') ->
  ~ registered name d
  /\ encodable name = true /\ encodable password = true
  /\ d' = {| usuarios := usuarios d ++
               [{| user_id := next_rowid (usuarios_seq d) (List.map user_id (usuarios d));
                   usuario := name;
                   password_hash := generate_password_hash (salt w) password;
                   creado_en := CURRENT_TIMESTAMP w |}];
             usuarios_seq := next_rowid (usuarios_seq d) (List.map user_id (usuarios d));
             tareas := tareas d; tareas_seq := tareas_seq d |}.
Proof.
  intros Hok.
  destruct (create_user_store name password w seen d)
    as [[_ Hfst] | (pwhash & Heq & _ & _ & Hn8 & Hp8 & -> & _ & Hfresh)].
  - rewrite Hok in Hfst. discriminate (Hfst true msg eq_refl).
  - rewrite Hok in Heq. injection Heq as _ ->. now repeat split.
Qed.

(** The look-ups in a store with one more user at the end. *)
Lemma select_usuario_snoc name rows row seq ts tseq :
  select_usuario name {| usuarios := rows ++ [row]; usuarios_seq := seq;
                         tareas := ts; tareas_seq := tseq |}
  = match find (fun r => str_eqb (usuario r) name) rows with
    | Some y => Some y
    | None => if str_eqb (usuario row) name then Some row else None
    end.
Proof. unfold select_usuario. cbn [usuarios]. now rewrite find_snoc. Qed.

Lemma select_user_id_snoc name rows row seq ts tseq :
  select_user_id name {| usuarios := rows ++ [row]; usuarios_seq := seq;
                         tareas := ts; tareas_seq := tseq |}
  = match find (fun r => str_eqb (usuario r) name) rows with
    | Some y => Some (user_id y)
    | None => if str_eqb (usuario row) name then Some (user_id row) else None
    end.
Proof.
  unfold select_user_id. cbn [usuarios]. rewrite find_snoc.
  destruct (find _ rows); [reflexivity|]. now destruct (str_eqb _ _).
Qed.

(** X2. After a successful [create_user] both look-ups find the new row:
    [get_user_by_username] returns the name with the hash of the password,
    [get_user_id] its id, which is larger than every id the table held; the
    look-ups of every other name answer as before. *)
Theorem created_user_is_found name password w seen d msg d' :
  create_user name password w seen d = (Ok (true, msg), d') ->
  exists row,
    get_user_by_username name d' = Ok (Some row)
    /\ usuario row = name
    /\ password_hash row = generate_password_hash (salt w) password
    /\ get_user_id name d' = Ok (Some (user_id row))
    /\ (forall x, In x (usuarios d) -> user_id x < user_id row)
    /\ (forall other, other <> name ->
          get_user_by_username other d' = get_user_by_username other d
          /\ get_user_id other d' = get_user_id other d).
Proof.
  intros Hok. destruct (create_user_created _ _ _ _ _ _ _ Hok) as (Hfresh & Hn8 & _ & ->).
  apply select_usuario_None in Hfresh. unfold select_usuario in Hfresh.
  eexists.
  rewrite (get_user_by_username_encodable _ _ Hn8), (get_user_id_encodable _ _ Hn8).
  rewrite select_usuario_snoc, select_user_id_snoc, Hfresh. simpl.
  rewrite str_eqb_refl.
  repeat split.
  - intros x Hx. simpl. apply next_rowid_above. now apply in_map.
  - unfold get_user_by_username. rewrite select_usuario_snoc. simpl.
    rewrite (str_eqb_neq name other) by congruence. unfold select_usuario.
    now destruct (find (fun r => str_eqb (usuario r) other) (usuarios d)).
  - unfold get_user_id. rewrite select_user_id_snoc. simpl.
    rewrite (str_eqb_neq name other) by congruence. unfold select_user_id.
    now destruct (find (fun r => str_eqb (usuario r) other) (usuarios d)).
Qed.

Lemma status_201_succeeded (r : result response) :
  http_status r = 201 -> succeeded r = true.
Proof.
  destruct r as [resp|e]; simpl.
  - intros ->. reflexivity.
  - destruct e; discriminate.
Qed.

(** X3. Once [registro] has answered 201, a [login] whose body carries
    the same name and password, under either spelling of the password key
    and with or without blanks around them, is answered with a token for
    the registered name, provided the password passes the check against
    the hash made of it. *)
Theorem register_then_login w w2 rq rq2 d name password :
  credentials_of rq = Ok (name, password) ->
  http_status (fst (registro w rq d d)) = 201 ->
  is_json rq2 = true -> credentials_of rq2 = Ok (name, password) ->
  check_password_hash (generate_password_hash (salt w) password) password = true ->
  login cfg w2 rq2 (snd (registro w rq d d))
  = Ok (token_response cfg (generate_token cfg (time w2) name)).
Proof.
  intros Hcred Hstatus Hj2 Hcred2 Hcheck. apply status_201_succeeded in Hstatus.
  destruct (registro_cases w rq d d)
    as [[_ Hfail]
       | (name' & password' & Hj & Hcred' & _ & _ & _ & Hn8 & Hp8 & Hfresh & _ & Hreg)];
    [congruence|].
  rewrite Hcred in Hcred'. injection Hcred' as <- <-.
  rewrite Hreg. simpl snd.
  rewrite (login_json cfg w2 rq2 _ name password Hj2 Hcred2).
  rewrite (get_user_by_username_encodable _ _ Hn8), select_usuario_snoc.
  unfold select_usuario in Hfresh. rewrite Hfresh. simpl.
  rewrite str_eqb_refl, (check_password_encodable _ _ Hp8). simpl.
  now rewrite Hcheck.
Qed.

Lemma verify_token_Some now token name :
  verify_token cfg now token = Ok (Some name) ->
  exists ts data,
    signer_unsign (SECRET_KEY cfg) token = Some (ts, Some data)
    /\ 0 <= now - ts <= TOKEN_EXPIRATION_SECONDS cfg
    /\ claims_get data (u "sub") = Some name.
Proof.
  unfold verify_token, serializer_loads.
  destruct (signer_unsign (SECRET_KEY cfg) token) as [[ts data]|]; [|discriminate].
  destruct (Z.gtb_spec (now - ts) (TOKEN_EXPIRATION_SECONDS cfg)); [discriminate|].
  destruct (Z.ltb_spec (now - ts) 0); [discriminate|].
  destruct data as [data|]; [|discriminate].
  intros [= Hsub]. exists ts, data. repeat split; try assumption; lia.
Qed.

(** X4. The times at which a token resolves to an identity form one
    interval no longer than the TTL, and the identity is the same all along:
    if it resolves at two times, these are at most the TTL apart, it
    resolves to the same name at both, and at every time in between. *)
Theorem token_valid_window token t1 t2 n1 n2 :
  verify_token cfg t1 token = Ok (Some n1) ->
  verify_token cfg t2 token = Ok (Some n2) ->
  n1 = n2
  /\ Z.abs (t2 - t1) <= TOKEN_EXPIRATION_SECONDS cfg
  /\ forall t, Z.min t1 t2 <= t <= Z.max t1 t2 ->
               verify_token cfg t token = Ok (Some n1).
Proof.
  intros H1 H2.
  destruct (verify_token_Some _ _ _ H1) as (ts & data & Hs & Hage1 & Hn1).
  destruct (verify_token_Some _ _ _ H2) as (ts' & data' & Hs' & Hage2 & Hn2).
  rewrite Hs in Hs'. injection Hs' as <- <-.
  split; [congruence|]. split; [lia|].
  intros t Ht. rewrite (verify_token_fresh cfg t token ts data Hs); [now rewrite Hn1 | lia].
Qed.

End Sessions.

(** ** How the requests compose *)

Section Composition.

Context {P : Platform}.
Variable cfg : config.



Lemma listar_tareas_authenticated w rq d username :
  authenticated cfg w rq username ->
  encodable username = true ->
  listar_tareas cfg w rq d
  = Ok (jsonify
          [(u "ok", JBool true);
           (u "items",
            JList (List.map (fun r => entry (tarea_id r) (titulo r) (hecha r) (creada_en r))
                            (select_tareas (select_user_id username d) d)))]
          200).
Proof.
  intros [Hu Hne] Henc. unfold listar_tareas. rewrite Hu.
  destruct username as [|c s]; [contradiction|]. simpl bind. simpl name_of.
  now rewrite (get_user_id_encodable _ d Henc).
Qed.

Lemma order_by_id_desc_snoc (rows : list tarea_row) (x : tarea_row) :
  (forall r, In r rows -> tarea_id r < tarea_id x) ->
  order_by_id_desc (rows ++ [x]) = x :: order_by_id_desc rows.
Proof.
  unfold order_by_id_desc. rewrite fold_right_app. simpl.
  induction rows as [|a rows IH]; intros Hlt; simpl; [reflexivity|].
  rewrite IH by (intros r Hr; apply Hlt; now right). simpl.
  destruct (Z.leb_spec (tarea_id x) (tarea_id a)); [|reflexivity].
  specialize (Hlt a (or_introl eq_refl)). lia.
Qed.

Lemma authenticated_same w rq a b :
  authenticated cfg w rq a -> authenticated cfg w rq b -> a = b.
Proof. intros [Ha _] [Hb _]. congruence. Qed.

(** A task [crear_tarea] answered 201 for. *)
Lemma crear_tarea_created w rq d username r :
  authenticated cfg w rq username ->
  fst (crear_tarea cfg w rq d) = Ok r -> status r = 201 ->
  exists title uid,
    title <> [] /\ encodable username = true
    /\ select_user_id username d = Some uid
    /\ crear_tarea cfg w rq d =
       (Ok (jsonify [(u "ok", JBool true);
                     (u "id", JInt (next_rowid (tareas_seq d) (List.map tarea_id (tareas d))));
                     (u "titulo", JStr title); (u "hecha", JInt 0)] 201),
        {| usuarios := usuarios d; usuarios_seq := usuarios_seq d;
           tareas := tareas d ++
             [{| tarea_id := next_rowid (tareas_seq d) (List.map tarea_id (tareas d));
                 titulo := title; hecha := 0; usuario_id := uid;
                 creada_en := CURRENT_TIMESTAMP w |}];
           tareas_seq := next_rowid (tareas_seq d) (List.map tarea_id (tareas d)) |}).
Proof.
  intros Hauth Hr Hstatus.
  destruct (crear_tarea_cases cfg w rq d)
    as [[_ Hfail]
       | (username' & title & uid & Hauth' & Henc & Htitle & _ & _ & Hid & Hcrear)].
  - rewrite Hr in Hfail. simpl in Hfail. rewrite Hstatus in Hfail. discriminate.
  - rewrite (authenticated_same w rq username username' Hauth Hauth').
    exists title, uid. now repeat split.
Qed.

(** X6. After [crear_tarea] answered 201, the listing of the same caller
    is an entry for the new task, which shows the id and the title of the
    answer, [hecha = 0] and the time of the creation, followed by the
    entries of the listing as it was before. *)
Theorem created_task_is_listed_first w rq w2 rq2 d username r :
  authenticated cfg w rq username ->
  authenticated cfg w2 rq2 username ->
  fst (crear_tarea cfg w rq d) = Ok r -> status r = 201 ->
  exists title uid before,
    select_user_id username d = Some uid
    /\ let tid := next_rowid (tareas_seq d) (List.map tarea_id (tareas d)) in
       r = jsonify [(u "ok", JBool true); (u "id", JInt tid);
                    (u "titulo", JStr title); (u "hecha", JInt 0)] 201
       /\ listar_tareas cfg w2 rq2 d
          = Ok (jsonify [(u "ok", JBool true); (u "items", JList before)] 200)
       /\ before = List.map (fun x => entry (tarea_id x) (titulo x) (hecha x) (creada_en x))
                            (select_tareas (Some uid) d)
       /\ listar_tareas cfg w2 rq2 (snd (crear_tarea cfg w rq d))
          = Ok (jsonify
                  [(u "ok", JBool true);
                   (u "items",
                    JList (entry tid title 0 (CURRENT_TIMESTAMP w) :: before))]
                  200).
Proof.
  intros Hauth Hauth2 Hr Hstatus.
  destruct (crear_tarea_created w rq d username r Hauth Hr Hstatus)
    as (title & uid & _ & Henc & Hid & Hcrear).
  exists title, uid. eexists. split; [exact Hid|]. cbv zeta.
  rewrite Hcrear in Hr. simpl in Hr. injection Hr as <-. split; [reflexivity|].
  rewrite Hcrear. simpl snd.
  rewrite !(listar_tareas_authenticated w2 rq2 _ username Hauth2 Henc).
  rewrite Hid.
  split; [reflexivity|]. split; [reflexivity|].
  replace (select_user_id username _) with (Some uid) by (symmetry; exact Hid).
  unfold select_tareas. simpl tareas. rewrite filter_app. simpl.
  rewrite Z.eqb_refl, order_by_id_desc_snoc; [reflexivity|].
  intros x Hx. apply filter_In in Hx as [Hx _]. simpl.
  apply next_rowid_above. now apply in_map.
Qed.

Lemma next_rowid_after (seq : Z) (ids : list Z) :
  (forall x, In x ids -> x <= seq) -> next_rowid seq ids = seq + 1.
Proof.
  unfold next_rowid. intros H. f_equal.
  induction ids as [|i ids IH]; simpl; [reflexivity|].
  rewrite IH by (intros x Hx; apply H; now right).
  specialize (H i (or_introl eq_refl)). lia.
Qed.

Lemma filter_last_created (rows : list tarea_row) (row : tarea_row) :
  (forall x, In x rows -> tarea_id x < tarea_id row) ->
  filter (where_id_and_usuario_id (tarea_id row) (Some (usuario_id row))) (rows ++ [row])
  = [row]
  /\ filter (fun r => negb (where_id_and_usuario_id (tarea_id row)
                                                     (Some (usuario_id row)) r))
            (rows ++ [row])
     = rows.
Proof.
  intros Hlt.
  assert (Hold : forall x, In x rows ->
            where_id_and_usuario_id (tarea_id row) (Some (usuario_id row)) x = false).
  { intros x Hx. unfold where_id_and_usuario_id. specialize (Hlt x Hx).
    destruct (Z.eqb_spec (tarea_id x) (tarea_id row)); [lia | reflexivity]. }
  assert (Hnew : where_id_and_usuario_id (tarea_id row) (Some (usuario_id row)) row = true).
  { unfold where_id_and_usuario_id. now rewrite !Z.eqb_refl. }
  rewrite !filter_app. simpl. rewrite Hnew. simpl.
  rewrite (proj2 (filter_nil_iff _ _) Hold), filter_negb_all by exact Hold.
  now rewrite app_nil_r.
Qed.

(** X7. Deleting the task just created, whose id is in the 64-bit range,
    gives the table of tasks back as it was and is answered 200, and the
    id is spent: the next task created gets the id after it, not the same
    one. *)
Theorem deleted_id_is_not_reused w rq w2 rq2 d username r :
  authenticated cfg w rq username ->
  authenticated cfg w2 rq2 username ->
  fst (crear_tarea cfg w rq d) = Ok r -> status r = 201 ->
  let tid := next_rowid (tareas_seq d) (List.map tarea_id (tareas d)) in
  int64 tid = true ->
  let d1 := snd (crear_tarea cfg w rq d) in
  let d2 := snd (borrar_tarea cfg w2 rq2 tid d1) in
  fst (borrar_tarea cfg w2 rq2 tid d1) = Ok updated
  /\ tareas d2 = tareas d /\ usuarios d2 = usuarios d
  /\ forall w3 rq3 r3,
       fst (crear_tarea cfg w3 rq3 d2) = Ok r3 -> status r3 = 201 ->
       dict_get (u "id") (fields_of r3) = Some (JInt (tid + 1)).
Proof.
  intros Hauth Hauth2 Hr Hstatus. cbv zeta. intros Hid64.
  destruct (crear_tarea_created w rq d username r Hauth Hr Hstatus)
    as (title & uid & _ & Henc & Hid & Hcrear).
  destruct (next_rowid_above (tareas_seq d) (List.map tarea_id (tareas d))) as [Hseq Habove].
  set (tid := next_rowid (tareas_seq d) (List.map tarea_id (tareas d))) in *.
  set (row := {| tarea_id := tid; titulo := title; hecha := 0; usuario_id := uid;
                 creada_en := CURRENT_TIMESTAMP w |}) in *.
  destruct (filter_last_created (tareas d) row) as [Hmatched Hrest].
  { intros x Hx. apply Habove. now apply in_map. }
  assert (Hdelete : borrar_tarea cfg w2 rq2 tid (snd (crear_tarea cfg w rq d))
                    = (Ok updated,
                       {| usuarios := usuarios d; usuarios_seq := usuarios_seq d;
                          tareas := tareas d; tareas_seq := tid |})).
  { rewrite Hcrear. simpl snd.
    rewrite (borrar_tarea_authenticated cfg w2 rq2 _ _ username Hauth2 Henc Hid64).
    cbv zeta.
    replace (select_user_id username _) with (Some uid) by (symmetry; exact Hid).
    unfold delete_rows, with_tareas. simpl.
    change tid with (tarea_id row). change uid with (usuario_id row).
    now rewrite Hmatched, Hrest. }
  rewrite Hdelete. simpl. repeat split.
  intros w3 rq3 r3 Hr3 Hstatus3.
  destruct (crear_tarea_cases cfg w3 rq3
              {| usuarios := usuarios d; usuarios_seq := usuarios_seq d;
                 tareas := tareas d; tareas_seq := tid |})
    as [[_ Hfail] | (username3 & title3 & uid3 & _ & _ & _ & _ & _ & _ & Hcrear3)].
  - rewrite Hr3 in Hfail. simpl in Hfail. rewrite Hstatus3 in Hfail. discriminate.
  - rewrite Hcrear3 in Hr3. simpl in Hr3. injection Hr3 as <-. simpl.
    rewrite next_rowid_after; [reflexivity|].
    intros x Hx. specialize (Habove x Hx). lia.
Qed.

End Composition.

(** ** Updates, listings and other users *)

Section Listings.

Context {P : Platform}.
Variable cfg : config.





Lemma filter_map_same {A} (g : A -> bool) (f : A -> A) (l : list A) :
  (forall x, g (f x) = g x) -> filter g (List.map f l) = List.map f (filter g l).
Proof.
  intros H. induction l as [|a l IH]; simpl; [reflexivity|].
  rewrite H. destruct (g a); simpl; now rewrite IH.
Qed.

(** The UPDATE, as a map over the rows. *)
Lemma update_rows_updated_row sets tid uid d :
  update_rows sets tid uid d
  = (List.length (filter (where_id_and_usuario_id tid uid) (tareas d)),
     with_tareas d (List.map (updated_row sets tid uid) (tareas d))).
Proof. reflexivity. Qed.


Lemma insert_desc_map (f : tarea_row -> tarea_row) r rows :
  (forall x, tarea_id (f x) = tarea_id x) ->
  insert_desc (f r) (List.map f rows) = List.map f (insert_desc r rows).
Proof.
  intros H. induction rows as [|a rows IH]; simpl; [reflexivity|].
  rewrite !H. destruct (tarea_id a <=? tarea_id r); simpl; [reflexivity|].
  now rewrite IH.
Qed.

Lemma order_by_id_desc_map (f : tarea_row -> tarea_row) rows :
  (forall x, tarea_id (f x) = tarea_id x) ->
  order_by_id_desc (List.map f rows) = List.map f (order_by_id_desc rows).
Proof.
  intros H. induction rows as [|a rows IH]; simpl; [reflexivity|].
  rewrite IH. now apply insert_desc_map.
Qed.

Lemma updated_row_owner sets tid uid other r :
  where_usuario_id other (updated_row sets tid uid r) = where_usuario_id other r.
Proof.
  destruct (updated_row_same_task sets tid uid r) as (_ & Howner & _).
  unfold where_usuario_id. now rewrite Howner.
Qed.

(** X9. After an update whose parameters bound, the caller's listing is
    the listing as it was, in the same order: the entry of each task shows
    the id and the creation time it showed, and the title and the flag of
    the row the UPDATE left for it, which are the new values for a
    targeted task and the old ones for any other. *)
Theorem updated_task_is_listed w rq w2 rq2 tid d username sets :
  authenticated cfg w rq username ->
  authenticated cfg w2 rq2 username ->
  encodable username = true ->
  is_json rq = true ->
  (data <- request_json rq;; build_sets data) = Ok sets -> sets <> [] ->
  bind_update sets tid = Ok tt ->
  let uid := select_user_id username d in
  let after r := updated_row sets tid uid r in
  listar_tareas cfg w2 rq2 d
  = Ok (jsonify
          [(u "ok", JBool true);
           (u "items",
            JList (List.map (fun r => entry (tarea_id r) (titulo r) (hecha r) (creada_en r))
                            (select_tareas uid d)))] 200)
  /\ listar_tareas cfg w2 rq2 (snd (actualizar_tarea cfg w rq tid d))
     = Ok (jsonify
             [(u "ok", JBool true);
              (u "items",
               JList (List.map (fun r => entry (tarea_id r) (titulo (after r))
                                               (hecha (after r)) (creada_en r))
                               (select_tareas uid d)))] 200)
  /\ (forall r, where_id_and_usuario_id tid uid r = true ->
                after r = fold_left assign sets r)
  /\ (forall r, where_id_and_usuario_id tid uid r = false -> after r = r).
Proof.
  intros Hauth Hauth2 Henc Hj Hsets Hne Hb. cbv zeta.
  split; [apply (listar_tareas_authenticated cfg w2 rq2 d username Hauth2 Henc)|].
  split; [|split; intros r Hr; unfold updated_row; now rewrite Hr].
  rewrite (listar_tareas_authenticated cfg w2 rq2 _ username Hauth2 Henc).
  rewrite (actualizar_tarea_authenticated cfg w rq tid d username sets
             Hauth Henc Hj Hsets Hne Hb).
  cbv zeta. rewrite update_rows_updated_row.
  assert (Hshape : forall (n : nat) (d' : db),
            snd (let '(rowcount, d1) := (n, d')
                 in (Ok (if Nat.eqb rowcount 0 then not_found else updated), d1))
            = d') by reflexivity.
  rewrite Hshape.
  change (select_user_id username (with_tareas d ?rows))
    with (select_user_id username d).
  unfold select_tareas. simpl tareas.
  rewrite filter_map_same by (intros x; apply updated_row_owner).
  rewrite order_by_id_desc_map
    by (intros x; now destruct (updated_row_same_task sets tid (select_user_id username d) x)).
  rewrite map_map.
  rewrite (map_ext _
             (fun r => entry (tarea_id r)
                             (titulo (updated_row sets tid (select_user_id username d) r))
                             (hecha (updated_row sets tid (select_user_id username d) r))
                             (creada_en r)));
    [reflexivity|].
  intros r.
  destruct (updated_row_same_task sets tid (select_user_id username d) r)
    as (Hid & _ & Hstamp).
  now rewrite Hid, Hstamp.
Qed.

Lemma select_tareas_other_rows (other : option Z) (rows rows' : list tarea_row) d d' :
  tareas d = rows -> tareas d' = rows' ->
  filter (where_usuario_id other) rows' = filter (where_usuario_id other) rows ->
  select_tareas other d' = select_tareas other d.
Proof. intros <- <- H. unfold select_tareas. now rewrite H. Qed.

Lemma where_usuario_id_of_target tid uid other r :
  other <> uid -> where_id_and_usuario_id tid uid r = true ->
  where_usuario_id other r = false.
Proof.
  intros Hne Ht. apply where_id_and_usuario_id_true in Ht as [_ ->].
  apply not_true_is_false. rewrite where_usuario_id_true. congruence.
Qed.

Lemma filter_filter_other (other uid : option Z) tid rows :
  other <> uid ->
  filter (where_usuario_id other)
         (filter (fun r => negb (where_id_and_usuario_id tid uid r)) rows)
  = filter (where_usuario_id other) rows.
Proof.
  intros Hne. induction rows as [|a rows IH]; simpl; [reflexivity|].
  destruct (where_id_and_usuario_id tid uid a) eqn:Ht; simpl.
  - rewrite (where_usuario_id_of_target tid uid other a Hne Ht). exact IH.
  - destruct (where_usuario_id other a); now rewrite IH.
Qed.

Lemma filter_updated_other (other uid : option Z) sets tid rows :
  other <> uid ->
  filter (where_usuario_id other) (List.map (updated_row sets tid uid) rows)
  = filter (where_usuario_id other) rows.
Proof.
  intros Hne. induction rows as [|a rows IH]; simpl; [reflexivity|].
  rewrite updated_row_owner, IH.
  destruct (where_usuario_id other a) eqn:Ho; [|reflexivity].
  f_equal. unfold updated_row.
  destruct (where_id_and_usuario_id tid uid a) eqn:Ht; [|reflexivity].
  rewrite (where_usuario_id_of_target tid uid other a Hne Ht) in Ho. discriminate.
Qed.

(** X10. What one user creates, updates or deletes never shows in the
    listing of another: a request that resolves to a name with another id
    sees, after any such request of the first, exactly the listing it saw
    before. *)
Theorem other_listing_unchanged w rq tid w2 rq2 d username other :
  authenticated cfg w rq username ->
  require_user cfg (time w2) rq2 = Ok (Some other) ->
  select_user_id other d <> select_user_id username d ->
  listar_tareas cfg w2 rq2 (snd (crear_tarea cfg w rq d)) = listar_tareas cfg w2 rq2 d
  /\ listar_tareas cfg w2 rq2 (snd (actualizar_tarea cfg w rq tid d))
     = listar_tareas cfg w2 rq2 d
  /\ listar_tareas cfg w2 rq2 (snd (borrar_tarea cfg w rq tid d))
     = listar_tareas cfg w2 rq2 d.
Proof.
  intros Hauth Hother Hdiff.
  assert (Hlist : forall d',
            usuarios d' = usuarios d ->
            filter (where_usuario_id (select_user_id other d)) (tareas d')
            = filter (where_usuario_id (select_user_id other d)) (tareas d) ->
            listar_tareas cfg w2 rq2 d' = listar_tareas cfg w2 rq2 d).
  { intros d' Husers Hrows. unfold listar_tareas. rewrite Hother.
    assert (Hid : select_user_id other d' = select_user_id other d)
      by (unfold select_user_id; now rewrite Husers).
    destruct other as [|c other]; [reflexivity|]. simpl bind. simpl name_of.
    unfold get_user_id. destruct (bind_text (c :: other)) as [[]|e]; [|reflexivity].
    simpl bind. rewrite Hid. unfold select_tareas. now rewrite Hrows. }
  split; [|split]; apply Hlist.
  - apply crear_tarea_usuarios.
  - destruct (crear_tarea_cases cfg w rq d)
      as [[-> _] | (username' & title & uid & Hauth' & _ & _ & _ & _ & Hid & ->)];
      [reflexivity|].
    rewrite <- (authenticated_same cfg w rq username username' Hauth Hauth') in Hid.
    simpl. rewrite filter_app. simpl.
    replace (where_usuario_id (select_user_id other d) _) with false;
      [now rewrite app_nil_r|].
    symmetry. apply not_true_is_false. rewrite where_usuario_id_true. simpl. congruence.
  - apply actualizar_tarea_usuarios.
  - destruct (actualizar_tarea_cases cfg w rq tid d)
      as [[-> _] | (username' & sets & Hauth' & _ & _ & _ & _ & _ & _ & _ & ->)];
      [reflexivity|].
    rewrite <- (authenticated_same cfg w rq username username' Hauth Hauth').
    simpl. now apply filter_updated_other.
  - apply borrar_tarea_usuarios.
  - destruct (borrar_tarea_cases cfg w rq tid d)
      as [[-> _] | (username' & Hauth' & _ & _ & _ & ->)]; [reflexivity|].
    rewrite <- (authenticated_same cfg w rq username username' Hauth Hauth').
    simpl. now apply filter_filter_other.
Qed.

End Listings.

(** ** Consequences of consistency *)

Section Invariants.

Context {P : Platform}.
Variable cfg : config.

Lemma NoDup_map_injective {A B} (f : A -> B) (l : list A) (x y : A) :
  NoDup (List.map f l) -> In x l -> In y l -> f x = f y -> x = y.
Proof.
  induction l as [|a l IH]; simpl; intros Hnd Hx Hy Hf; [contradiction|].
  inversion Hnd as [|b bs Hnotin Hrest]; subst.
  destruct Hx as [<- | Hx], Hy as [<- | Hy]; try reflexivity.
  - exfalso. apply Hnotin. rewrite Hf. now apply in_map.
  - exfalso. apply Hnotin. rewrite <- Hf. now apply in_map.
  - now apply IH.
Qed.

Lemma find_by_unique_name (rows : list usuario_row) (r : usuario_row) :
  NoDup (List.map usuario rows) -> In r rows ->
  find (fun x => str_eqb (usuario x) (usuario r)) rows = Some r.
Proof.
  induction rows as [|a rows IH]; simpl; intros Hnd Hr; [contradiction|].
  inversion Hnd as [|b bs Hnotin Hrest]; subst.
  destruct Hr as [-> | Hr].
  - now rewrite str_eqb_refl.
  - destruct (str_eqb (usuario a) (usuario r)) eqn:E; [|now apply IH].
    apply str_eqb_eq in E. exfalso. apply Hnotin. rewrite E. now apply in_map.
Qed.

(** X11. In every reachable store a name identifies one user: each row
    of [usuarios] has a name that is not empty and carries no whitespace
    around it, both look-ups by that name return this very row and its id,
    and no other row shares its name or its id. *)
Theorem registered_name_identifies_user d r :
  reachable cfg d -> In r (usuarios d) ->
  usuario r <> [] /\ strip (usuario r) = usuario r
  /\ get_user_by_username (usuario r) d = Ok (Some r)
  /\ get_user_id (usuario r) d = Ok (Some (user_id r))
  /\ forall r', In r' (usuarios d) ->
                usuario r' = usuario r \/ user_id r' = user_id r -> r' = r.
Proof.
  intros Hreach Hr. pose proof (reachable_consistent cfg d Hreach) as Hc.
  pose proof (names_clean d Hc) as Hclean. rewrite Forall_forall in Hclean.
  destruct (Hclean r Hr) as [Hne Hstrip].
  pose proof (names_encodable d Hc) as Henc.
  unfold stored_names_encodable in Henc. rewrite Forall_forall in Henc.
  specialize (Henc r Hr).
  pose proof (find_by_unique_name _ r (names_distinct d Hc) Hr) as Hfind.
  repeat split; try assumption.
  - rewrite (get_user_by_username_encodable _ d Henc). unfold select_usuario.
    now rewrite Hfind.
  - rewrite (get_user_id_encodable _ d Henc). unfold select_user_id.
    now rewrite Hfind.
  - intros r' Hr' [Hname | Hid].
    + exact (NoDup_map_injective usuario _ r' r (names_distinct d Hc) Hr' Hr Hname).
    + exact (NoDup_map_injective user_id _ r' r (user_ids_distinct d Hc) Hr' Hr Hid).
Qed.

Lemma delete_unique_row tid uid (rows : list tarea_row) (r : tarea_row) :
  NoDup (List.map tarea_id rows) -> In r rows ->
  where_id_and_usuario_id tid uid r = true ->
  List.length rows
  = S (List.length (filter (fun x => negb (where_id_and_usuario_id tid uid x)) rows))
  /\ forall x, In x (filter (fun x => negb (where_id_and_usuario_id tid uid x)) rows) ->
               tarea_id x <> tid.
Proof.
  intros Hnd Hr Ht.
  pose proof (proj1 (where_id_and_usuario_id_true tid uid r) Ht) as [Hid _].
  induction rows as [|a rows IH]; simpl in *; [contradiction|].
  inversion Hnd as [|b bs Hnotin Hrest]; subst.
  destruct Hr as [-> | Hr].
  - rewrite Ht. simpl.
    assert (Hothers : forall x, In x rows -> where_id_and_usuario_id (tarea_id r) uid x = false).
    { intros x Hx. apply not_true_is_false. intros Hx'.
      apply where_id_and_usuario_id_true in Hx' as [Hxid _].
      apply Hnotin. rewrite <- Hxid. now apply in_map. }
    rewrite filter_negb_all by exact Hothers. split; [reflexivity|].
    intros x Hx Hxid. apply Hnotin. rewrite <- Hxid. now apply in_map.
  - assert (Ha : tarea_id a <> tarea_id r).
    { intros E. apply Hnotin. rewrite E. now apply in_map. }
    assert (Hta : where_id_and_usuario_id (tarea_id r) uid a = false).
    { unfold where_id_and_usuario_id. now rewrite (proj2 (Z.eqb_neq _ _) Ha). }
    rewrite Hta. simpl. destruct (IH Hrest Hr) as [Hlen Hids]. split.
    + now rewrite Hlen.
    + intros x [<- | Hx]; [assumption | now apply Hids].
Qed.

(** X12. In every reachable store an id names one task: a DELETE that is
    answered 200 removes exactly one row, and no row with that id is left,
    whoever owns it. *)
Theorem delete_removes_exactly_one w rq tid d :
  reachable cfg d ->
  fst (borrar_tarea cfg w rq tid d) = Ok updated ->
  List.length (tareas d) = S (List.length (tareas (snd (borrar_tarea cfg w rq tid d))))
  /\ forall r, In r (tareas (snd (borrar_tarea cfg w rq tid d))) -> tarea_id r <> tid.
Proof.
  intros Hreach Hok. pose proof (reachable_consistent cfg d Hreach) as Hc.
  destruct (borrar_tarea_cases cfg w rq tid d)
    as [[_ Hfail] | (username & _ & _ & _ & (r & Hr & Ht) & Hrun)].
  - rewrite Hok in Hfail. discriminate.
  - rewrite Hrun. simpl.
    exact (delete_unique_row tid _ _ r (task_ids_distinct d Hc) Hr Ht).
Qed.

(** X13. In every reachable store [hecha] is 0 or 1 in every row, and so
    in every item a listing shows. *)
Theorem stored_flags_are_boolean d :
  reachable cfg d ->
  (forall r, In r (tareas d) -> hecha r = 0 \/ hecha r = 1)
  /\ forall uid r, In r (select_tareas uid d) -> hecha r = 0 \/ hecha r = 1.
Proof.
  intros Hreach. pose proof (flags_boolean d (reachable_consistent cfg d Hreach)) as H.
  rewrite Forall_forall in H. split; [exact H|].
  intros uid r Hr. apply H. unfold select_tareas in Hr.
  apply (Permutation_in _ (order_by_id_desc_perm _)) in Hr.
  now apply filter_In in Hr as [Hr _].
Qed.

(** X14. In every reachable store each task has its owner: exactly one
    row of [usuarios] carries its [usuario_id], the look-up of that
    user's name gives this id, and the rows selected for the id hold the
    task. *)
Theorem every_task_has_its_owner d r :
  reachable cfg d -> In r (tareas d) ->
  exists x,
    In x (usuarios d) /\ user_id x = usuario_id r
    /\ get_user_id (usuario x) d = Ok (Some (usuario_id r))
    /\ In r (select_tareas (Some (usuario_id r)) d)
    /\ forall x', In x' (usuarios d) -> user_id x' = usuario_id r -> x' = x.
Proof.
  intros Hreach Hr. pose proof (reachable_consistent cfg d Hreach) as Hc.
  pose proof (owners_registered d Hc) as Hown. rewrite Forall_forall in Hown.
  destruct (Hown r Hr) as (x & Hx & Hid). exists x.
  pose proof (names_encodable d Hc) as Henc.
  unfold stored_names_encodable in Henc. rewrite Forall_forall in Henc.
  assert (Hlookup : get_user_id (usuario x) d = Ok (Some (usuario_id r))).
  { rewrite (get_user_id_encodable _ d (Henc x Hx)). unfold select_user_id.
    now rewrite (find_by_unique_name _ x (names_distinct d Hc) Hx), Hid. }
  repeat split; try assumption.
  - unfold select_tareas.
    apply (Permutation_in _ (Permutation_sym (order_by_id_desc_perm _))).
    apply filter_In. split; [assumption|]. simpl. apply Z.eqb_refl.
  - intros x' Hx' Hid'.
    apply (NoDup_map_injective user_id _ x' x (user_ids_distinct d Hc) Hx' Hx). congruence.
Qed.

(** X15. In every reachable store a title carries no whitespace around
    it: stripping it again changes nothing, so it is empty or begins and
    ends with a character that is no whitespace. *)
Theorem stored_titles_are_stripped d r :
  reachable cfg d -> In r (tareas d) ->
  strip (titulo r) = titulo r
  /\ clean_head (titulo r) /\ clean_head (rev (titulo r)).
Proof.
  intros Hreach Hr.
  pose proof (titles_stripped d (reachable_consistent cfg d Hreach)) as H.
  rewrite Forall_forall in H. specialize (H r Hr). split; [exact H|].
  rewrite <- H. unfold strip. split.
  - apply rstrip_clean, lstrip_clean.
  - unfold rstrip. rewrite rev_involutive. apply lstrip_clean.
Qed.

(** X16. A [usuario] of whitespace only counts as none: the name read
    from it is empty, [registro] answers 400 and stores nothing, and in a
    reachable store [login] answers 401, for no user has the empty name. *)
Theorem blank_name_is_refused w rq d data s name password :
  reachable cfg d ->
  is_json rq = true -> json_body rq = Some (JDict data) ->
  field data (u "usuario") = JStr s -> forallb is_space s = true ->
  credentials_of rq = Ok (name, password) ->
  name = []
  /\ registro w rq d d
     = (Ok (jsonify [(u "ok", JBool false); (u "mensaje", JStr Msg.obligatorios)] 400), d)
  /\ login cfg w rq d = Ok (error_response Msg.credenciales 401).
Proof.
  intros Hreach Hj Hbody Hfield Hblank Hcred.
  assert (Hname : name = []).
  { unfold credentials_of, get_json_silent in Hcred. rewrite Hbody in Hcred.
    assert (Hdata : por (JDict data) (JDict []) = JDict data) by now destruct data.
    rewrite Hdata in Hcred. unfold read_credentials in Hcred. simpl in Hcred.
    fold (field data (u "usuario")) in Hcred. rewrite Hfield in Hcred.
    assert (Hs : strip_method (por (JStr s) (JStr [])) = Ok []).
    { destruct s as [|c s]; [reflexivity|]. simpl. now rewrite (strip_blank (c :: s)). }
    rewrite Hs in Hcred. simpl in Hcred.
    destruct (strip_method _) in Hcred; simpl in Hcred; [|discriminate].
    now injection Hcred as <- _. }
  subst name. split; [reflexivity|]. split.
  - unfold registro. unfold credentials_of in Hcred. now rewrite Hj, Hcred.
  - rewrite (login_json cfg w rq d [] password Hj Hcred).
    rewrite (get_user_by_username_encodable [] d eq_refl).
    destruct (select_usuario [] d) as [x|] eqn:Hx; [|reflexivity].
    apply select_usuario_Some in Hx as [Hin Hempty].
    pose proof (names_clean d (reachable_consistent cfg d Hreach)) as Hclean.
    rewrite Forall_forall in Hclean. now destruct (Hclean x Hin).
Qed.

(** X17. [registro], [crear_tarea] and [borrar_tarea] keep every stored
    title non-empty: only an update can store an empty one. *)
Theorem titles_kept_by_other_writes w rq seen tid d :
  titles_nonempty d ->
  titles_nonempty (snd (registro w rq seen d))
  /\ titles_nonempty (snd (crear_tarea cfg w rq d))
  /\ titles_nonempty (snd (borrar_tarea cfg w rq tid d)).
Proof.
  intros H. repeat split.
  - unfold titles_nonempty. now rewrite registro_tareas.
  - now apply crear_tarea_keeps_titles.
  - now apply borrar_tarea_keeps_titles.
Qed.

(** X18. No request removes a user or changes an id: a name that has an id
    keeps that id through every [registro], [crear_tarea],
    [actualizar_tarea] and [borrar_tarea]. *)
Theorem user_id_is_stable w rq seen tid d username uid :
  get_user_id username d = Ok (Some uid) ->
  get_user_id username (snd (registro w rq seen d)) = Ok (Some uid)
  /\ get_user_id username (snd (crear_tarea cfg w rq d)) = Ok (Some uid)
  /\ get_user_id username (snd (actualizar_tarea cfg w rq tid d)) = Ok (Some uid)
  /\ get_user_id username (snd (borrar_tarea cfg w rq tid d)) = Ok (Some uid).
Proof.
  unfold get_user_id. destruct (bind_text username) as [[]|e]; [|discriminate].
  simpl bind. intros [= Hid]. repeat split; f_equal.
  - destruct (registro_cases w rq seen d)
      as [[-> _] | (name & password & _ & _ & _ & _ & _ & _ & _ & _ & _ & ->)];
      [exact Hid|].
    simpl snd. rewrite select_user_id_snoc. unfold select_user_id in Hid.
    now destruct (find _ (usuarios d)).
  - unfold select_user_id in *. now rewrite crear_tarea_usuarios.
  - unfold select_user_id in *. now rewrite actualizar_tarea_usuarios.
  - unfold select_user_id in *. now rewrite borrar_tarea_usuarios.
Qed.

(** X19. In every reachable store an update that is answered 200 has
    rewritten one row: one task has the id, and every other row of the
    table is as it was. *)
Theorem update_touches_exactly_one w rq tid d :
  reachable cfg d ->
  fst (actualizar_tarea cfg w rq tid d) = Ok updated ->
  exists r,
    In r (tareas d) /\ tarea_id r = tid
    /\ Forall2 (fun x x' => x = r \/ x' = x)
               (tareas d) (tareas (snd (actualizar_tarea cfg w rq tid d))).
Proof.
  intros Hreach Hok. pose proof (reachable_consistent cfg d Hreach) as Hc.
  destruct (actualizar_tarea_cases cfg w rq tid d)
    as [[_ Hfail]
       | (username & sets & _ & _ & _ & _ & _ & _ & _ & (r & Hr & Ht) & Hrun)].
  - rewrite Hok in Hfail. discriminate.
  - pose proof (proj1 (where_id_and_usuario_id_true _ _ _) Ht) as [Hid _].
    exists r. repeat split; try assumption.
    rewrite Hrun. simpl. apply Forall2_map_rows. intros x Hx. unfold updated_row.
    destruct (where_id_and_usuario_id tid (select_user_id username d) x) eqn:Hxt;
      [left | now right].
    apply where_id_and_usuario_id_true in Hxt as [Hxid _].
    apply (NoDup_map_injective tarea_id _ x r (task_ids_distinct d Hc) Hx Hr). congruence.
Qed.

(** X20. A token can outlive the row of its name. For a caller whose name
    resolves and can be looked up but has no row: the listing is empty; a
    delete under an id in the 64-bit range, and an update whose body is
    valid and whose parameters bind, are answered 404; creating a task
    under a title that is valid and has a UTF-8 encoding ends in
    [IntegrityError] on the NOT NULL column, and under a valid title
    without an encoding in [UnicodeEncodeError], which the binding raises
    before the column is checked; a delete under an id out of the range
    ends in [OverflowError]. Nothing is stored by any of them. *)
Theorem caller_without_row w rq tid d username :
  authenticated cfg w rq username ->
  encodable username = true ->
  select_user_id username d = None ->
  listar_tareas cfg w rq d = Ok (jsonify [(u "ok", JBool true); (u "items", JList [])] 200)
  /\ (int64 tid = true -> borrar_tarea cfg w rq tid d = (Ok not_found, d))
  /\ (int64 tid = false -> borrar_tarea cfg w rq tid d = (Raise OverflowError, d))
  /\ (forall sets, is_json rq = true ->
        (data <- request_json rq;; build_sets data) = Ok sets -> sets <> [] ->
        bind_update sets tid = Ok tt ->
        actualizar_tarea cfg w rq tid d = (Ok not_found, d))
  /\ snd (actualizar_tarea cfg w rq tid d) = d
  /\ (forall data s, is_json rq = true -> json_body rq = Some (JDict data) ->
        field data (u "titulo") = JStr s -> strip s <> [] ->
        (encodable (strip s) = true ->
         crear_tarea cfg w rq d = (Raise IntegrityError, d)
         /\ http_status (fst (crear_tarea cfg w rq d)) = 500)
        /\ (encodable (strip s) = false ->
            crear_tarea cfg w rq d = (Raise UnicodeEncodeError, d)
            /\ http_status (fst (crear_tarea cfg w rq d)) = 500)).
Proof.
  intros Hauth Henc Hnone.
  assert (Hno : no_row_matches tid (select_user_id username d) d).
  { intros r _ [_ H]. rewrite Hnone in H. discriminate. }
  split; [|split; [|split; [|split; [|split]]]].
  - rewrite (listar_tareas_authenticated cfg w rq d username Hauth Henc).
    rewrite Hnone. unfold select_tareas.
    replace (filter (where_usuario_id None) (tareas d)) with (@nil tarea_row);
      [reflexivity|].
    symmetry. now apply filter_nil_iff.
  - intros Hid. rewrite (borrar_tarea_unmatched cfg w rq tid d username Hauth Henc Hno).
    unfold unmatched_delete_outcome. now rewrite (bind_int_ok tid Hid).
  - intros Hid. apply (borrar_tarea_out_of_range cfg w rq tid d username Hauth Henc Hid).
  - intros sets Hj Hsets Hne Hb.
    rewrite (actualizar_tarea_authenticated cfg w rq tid d username sets
               Hauth Henc Hj Hsets Hne Hb).
    cbv zeta. now rewrite (update_rows_unmatched sets tid _ d Hno).
  - now rewrite (actualizar_tarea_unmatched cfg w rq tid d username Hauth Henc Hno).
  - intros data s Hj Hbody Hfield Hs.
    rewrite (crear_tarea_title cfg w rq d username data Hauth Henc Hj Hbody), Hfield.
    rewrite (strip_method_nonempty s Hs), Hnone. unfold insert_tarea. split.
    + intros Hs8. rewrite (bind_text_ok _ Hs8). now destruct (strip s).
    + intros Hs8. rewrite (bind_text_raise _ Hs8). now destruct (strip s).
Qed.

(** X21. A JSON body that is no object is not refused but ends the
    request in [AttributeError], answered 500, with nothing stored:
    in [crear_tarea] behind the guard and in [actualizar_tarea] behind
    the guard and the look-up of the caller's id, for every such body; in
    [registro] and [login] for every such body that is true as a truth
    value. *)
Theorem non_object_body_raises w rq seen tid d j :
  is_json rq = true -> json_body rq = Some j -> is_object j = false ->
  (truthy j = true ->
   registro w rq seen d = (Raise AttributeError, d)
   /\ login cfg w rq d = Raise AttributeError)
  /\ (forall username, authenticated cfg w rq username ->
        crear_tarea cfg w rq d = (Raise AttributeError, d)
        /\ (encodable username = true ->
            actualizar_tarea cfg w rq tid d = (Raise AttributeError, d)
            /\ http_status (fst (actualizar_tarea cfg w rq tid d)) = 500)).
Proof.
  intros Hj Hbody Hobj. split.
  - intros Htruthy. unfold registro, login, get_json_silent, por.
    rewrite Hj, Hbody, Htruthy. now destruct j.
  - intros username Hauth. split.
    + destruct Hauth as [Hu Hne]. unfold crear_tarea, request_json.
      rewrite Hu, Hj, Hbody. destruct username as [|c name]; [contradiction|].
      now destruct j.
    + intros Henc. rewrite (actualizar_tarea_guarded cfg w rq tid d username Hauth Henc).
      unfold request_json. rewrite Hj, Hbody. now destruct j.
Qed.

End Invariants.

(* ================================================================== *)
(** * Further runs on the executable platform *)

Module FurtherRuns.
Import Demo Scenes.

Lemma db2_reachable : reachable default_config db2.
Proof. apply reach_registro. apply reach_registro. apply reach_init. Qed.

Lemma db3_reachable : reachable default_config db3.
Proof. apply reach_crear. exact db2_reachable. Qed.

Lemma ana_in_db2 : In usuario_ana (usuarios db2).
Proof. now left. Qed.

Lemma tarea1_stored : In tarea1 (tareas db3).
Proof. now left. Qed.

Lemma ana_resolved t v :
  0 <= t - 1000 <= 3600 ->
  authenticated default_config (at_time t) (json_request (bearer token_ana) v) ana.
Proof.
  intros Ht. split; [|discriminate].
  assert (Hsigned : signer_unsign (SECRET_KEY default_config) token_ana
                    = Some (1000, Some [(u "sub", ana)])) by reflexivity.
  change (require_user default_config (time (at_time t)) (json_request (bearer token_ana) v))
    with (verify_token default_config t token_ana).
  now rewrite (verify_token_fresh default_config t token_ana 1000 _ Hsigned Ht).
Qed.

(** beto on the task of ana: refused, and the store stays. *)
Lemma refused_delete_leaves_store :
  snd (borrar_tarea default_config (at_time 1001) (rq_hecha token_beto (JBool true)) 1 db3)
  = db3.
Proof.
  refine (proj2 (proj2 (proj2 (@failed_request_leaves_store demo default_config (at_time 1001)
                                 (rq_hecha token_beto (JBool true)) db3 1 db3))) _).
  reflexivity.
Defined.

(** ana is found once registered. *)
Lemma ana_is_found :
  exists row, get_user_by_username ana db1 = Ok (Some row) /\ usuario row = ana.
Proof.
  destruct (@created_user_is_found demo ana (u "1234") (at_time 10) init_db init_db
              Msg.creado db1 eq_refl)
    as (row & Hfound & Hname & _).
  exists row. now split.
Defined.

(** ana registers under one spelling of the key and logs in under the
    other. *)
Lemma ana_registers_then_logs_in :
  login default_config (at_time 1000) rq_ana_enie db1
  = Ok (token_response default_config token_ana).
Proof.
  exact (@register_then_login demo default_config (at_time 10) (at_time 1000) rq_ana
           rq_ana_enie init_db ana (u "1234") eq_refl eq_refl eq_refl eq_refl eq_refl).
Defined.

(** The token of ana at its first and last second, and in between. *)
Lemma token_ana_window :
  Z.abs (4600 - 1000) <= 3600
  /\ verify_token default_config 2000 token_ana = Ok (Some ana).
Proof.
  destruct (@token_valid_window demo default_config token_ana 1000 4600 ana ana eq_refl eq_refl)
    as (_ & Hspan & Hbetween).
  split; [exact Hspan | apply Hbetween; lia].
Defined.


(** The listing of ana after her second task, created when she had the
    task 1 and beto the task 2: the new entry, then the one she had. *)
Lemma first_task_is_listed :
  listar_tareas default_config (at_time 1005) (rq_of token_ana) db6
  = Ok (jsonify
          [(u "ok", JBool true);
           (u "items",
            JList [JDict [(u "id", JInt 3); (u "titulo", JStr (u "regar"));
                          (u "hecha", JInt 0);
                          (u "creada_en", JStr (u "2024-01-01 00:00:00"))];
                   JDict [(u "id", JInt 1); (u "titulo", JStr (u "comprar pan"));
                          (u "hecha", JInt 0);
                          (u "creada_en", JStr (u "2024-01-01 00:00:00"))]])] 200).
Proof.
  destruct (@created_task_is_listed_first demo default_config (at_time 1004)
              (rq_titulo token_ana (JStr (u "regar")))
              (at_time 1005) (rq_of token_ana) db5 ana
              (jsonify [(u "ok", JBool true); (u "id", JInt 3);
                        (u "titulo", JStr (u "regar")); (u "hecha", JInt 0)] 201)
              (ana_resolved 1004 _ ltac:(lia)) (ana_resolved 1005 _ ltac:(lia))
              eq_refl eq_refl)
    as (title & uid & before & Hid & H).
  cbv zeta in H. destruct H as (Hr & _ & Hbefore & Hafter).
  injection Hid as <-. injection Hr as <-. subst before. exact Hafter.
Defined.

(** ana deletes the task she created: the table is empty again. *)
Lemma created_then_deleted :
  tareas (snd (borrar_tarea default_config (at_time 1002) (rq_of token_ana) 1 db3))
  = tareas db2.
Proof.
  pose proof (@deleted_id_is_not_reused demo default_config (at_time 1001) rq_crear
                (at_time 1002) (rq_of token_ana) db2 ana
                (jsonify [(u "ok", JBool true); (u "id", JInt 1);
                          (u "titulo", JStr (u "comprar pan")); (u "hecha", JInt 0)] 201)
                (ana_resolved 1001 _ ltac:(lia)) (ana_resolved 1002 _ ltac:(lia))
                eq_refl eq_refl) as H.
  cbv zeta in H. destruct (H eq_refl) as (_ & Hrows & _). exact Hrows.
Defined.

(** The listing of ana once she marked her second task as done: the entry
    of the task 3 shows the flag 1, that of the task 1 is as it was. *)
Lemma done_task_is_listed :
  listar_tareas default_config (at_time 1007) (rq_of token_ana)
    (snd (actualizar_tarea default_config (at_time 1006)
            (rq_hecha token_ana (JBool true)) 3 db6))
  = Ok (jsonify
          [(u "ok", JBool true);
           (u "items",
            JList [JDict [(u "id", JInt 3); (u "titulo", JStr (u "regar"));
                          (u "hecha", JInt 1);
                          (u "creada_en", JStr (u "2024-01-01 00:00:00"))];
                   JDict [(u "id", JInt 1); (u "titulo", JStr (u "comprar pan"));
                          (u "hecha", JInt 0);
                          (u "creada_en", JStr (u "2024-01-01 00:00:00"))]])] 200).
Proof.
  exact (proj1 (proj2
           (@updated_task_is_listed demo default_config (at_time 1006)
              (rq_hecha token_ana (JBool true)) (at_time 1007) (rq_of token_ana) 3 db6 ana
              [SetHecha 1]
              (ana_resolved 1006 _ ltac:(lia)) (ana_resolved 1007 _ ltac:(lia))
              eq_refl eq_refl eq_refl ltac:(discriminate) eq_refl))).
Defined.

(** The listing of beto before and after ana marked her task. *)
Lemma beto_sees_no_change :
  listar_tareas default_config (at_time 1003) (rq_of token_beto) db4
  = listar_tareas default_config (at_time 1003) (rq_of token_beto) db3.
Proof.
  refine (proj1 (proj2 (@other_listing_unchanged demo default_config (at_time 1002)
                          (rq_hecha token_ana (JBool true)) 1 (at_time 1003)
                          (rq_of token_beto) db3 ana beto
                          (ana_resolved 1002 _ ltac:(lia)) eq_refl _))).
  intros H. discriminate H.
Defined.

(** The name of ana is the key of her row. *)
Lemma ana_is_a_key : get_user_id ana db2 = Ok (Some 1).
Proof.
  exact (proj1 (proj2 (proj2 (proj2
           (@registered_name_identifies_user demo default_config db2 usuario_ana
              db2_reachable ana_in_db2))))).
Defined.

(** ana deletes her task: one row less. *)
Lemma one_row_less :
  List.length (tareas db3)
  = S (List.length (tareas (snd (borrar_tarea default_config (at_time 1002)
                                   (rq_of token_ana) 1 db3)))).
Proof.
  exact (proj1 (@delete_removes_exactly_one demo default_config (at_time 1002)
                  (rq_of token_ana) 1 db3 db3_reachable eq_refl)).
Defined.

Lemma tarea1_flag : hecha tarea1 = 0 \/ hecha tarea1 = 1.
Proof.
  exact (proj1 (@stored_flags_are_boolean demo default_config db3 db3_reachable)
           tarea1 tarea1_stored).
Defined.

Lemma tarea1_owner :
  exists x, In x (usuarios db3) /\ user_id x = usuario_id tarea1.
Proof.
  destruct (@every_task_has_its_owner demo default_config db3 tarea1 db3_reachable tarea1_stored)
    as (x & Hx & Hid & _).
  exists x. now split.
Defined.

Lemma tarea1_title : strip (titulo tarea1) = titulo tarea1.
Proof.
  exact (proj1 (@stored_titles_are_stripped demo default_config db3 tarea1
                  db3_reachable tarea1_stored)).
Defined.

(** Three blanks for a name. *)
Lemma blank_login_refused :
  login default_config (at_time 1000) rq_blank db2
  = Ok (error_response Msg.credenciales 401).
Proof.
  exact (proj2 (proj2 (@blank_name_is_refused demo default_config (at_time 1000) rq_blank db2
                         [(u "usuario", JStr (u "   ")); (u "contrasena", JStr (u "x"))]
                         (u "   ") [] (u "x")
                         db2_reachable eq_refl eq_refl eq_refl eq_refl eq_refl))).
Defined.

Lemma titles_after_delete :
  titles_nonempty (snd (borrar_tarea default_config (at_time 1002) (rq_of token_ana) 1 db3)).
Proof.
  refine (proj2 (proj2 (@titles_kept_by_other_writes demo default_config (at_time 1002)
                          (rq_of token_ana) db3 1 db3 _))).
  constructor; [discriminate | constructor].
Defined.

Lemma ana_keeps_her_id : get_user_id ana db3 = Ok (Some 1).
Proof.
  exact (proj1 (proj2 (@user_id_is_stable demo default_config (at_time 1001) rq_crear
                         db2 1 db2 ana 1 eq_refl))).
Defined.

(** ana marks her task: one row is concerned. *)
Lemma one_row_updated :
  exists r, In r (tareas db3) /\ tarea_id r = 1.
Proof.
  destruct (@update_touches_exactly_one demo default_config (at_time 1002)
              (rq_hecha token_ana (JBool true)) 1 db3 db3_reachable eq_refl)
    as (r & Hr & Hid & _).
  exists r. now split.
Defined.

(** The token of ana on a database that was started afresh: an empty
    listing, and an exception where she creates a task, of one kind under
    a title with an encoding and of another under a title without. *)
Lemma ana_without_row :
  listar_tareas default_config (at_time 1001) (rq_of token_ana) init_db
  = Ok (jsonify [(u "ok", JBool true); (u "items", JList [])] 200)
  /\ crear_tarea default_config (at_time 1001) (rq_titulo token_ana (JStr (u "leer"))) init_db
     = (Raise IntegrityError, init_db)
  /\ crear_tarea default_config (at_time 1001) (rq_titulo token_ana (JStr lone)) init_db
     = (Raise UnicodeEncodeError, init_db).
Proof.
  split; [|split].
  - exact (proj1 (@caller_without_row demo default_config (at_time 1001) (rq_of token_ana)
                    1 init_db ana (ana_resolved 1001 _ ltac:(lia)) eq_refl eq_refl)).
  - destruct (@caller_without_row demo default_config (at_time 1001)
                (rq_titulo token_ana (JStr (u "leer"))) 1 init_db ana
                (ana_resolved 1001 _ ltac:(lia)) eq_refl eq_refl)
      as (_ & _ & _ & _ & _ & Hcrear).
    refine (proj1 (proj1 (Hcrear [(u "titulo", JStr (u "leer"))] (u "leer")
                            eq_refl eq_refl eq_refl _) eq_refl)).
    discriminate.
  - destruct (@caller_without_row demo default_config (at_time 1001)
                (rq_titulo token_ana (JStr lone)) 1 init_db ana
                (ana_resolved 1001 _ ltac:(lia)) eq_refl eq_refl)
      as (_ & _ & _ & _ & _ & Hcrear).
    refine (proj1 (proj2 (Hcrear [(u "titulo", JStr lone)] lone
                            eq_refl eq_refl eq_refl _) eq_refl)).
    discriminate.
Defined.

(** A registration whose body is the array [[1]]. *)
Lemma array_body_raises :
  registro (at_time 30) (json_request None (JList [JInt 1])) db2 db2
  = (Raise AttributeError, db2).
Proof.
  exact (proj1 (proj1 (@non_object_body_raises demo default_config (at_time 30)
                         (json_request None (JList [JInt 1])) db2 1 db2 (JList [JInt 1])
                         eq_refl eq_refl eq_refl) eq_refl)).
Defined.

End FurtherRuns.
